(** * MATQseq/remultiplex.py: parallel FASTQ remultiplexing

    A shallow embedding of [src/MATQseq/remultiplex.py] and the properties
    of its barcode generator, record tagger, coordinator and mapping
    writer.

    Conventions of the embedding:
    - a Python [str] is a [string]; its characters are code points below
      256, which covers FASTQ text;
    - a Python [int] is a [Z]; a [len] and a counter that starts at 0 and
      is only incremented are a [nat];
    - a call that may raise returns a [result]: [Ok v] or [Raise e];
    - [print] appends a line to the log of a [state]; what a worker
      prints is returned with its result;
    - the input files are read through a [world], which gives for each
      path the lines or the I/O failures that reading it meets;
    - the sizes of the input files come from a [stat_fn], which gives
      for each path its size or the failure of [stat];
    - the files a run writes live in a [store] from path to content, and
      writing them succeeds; the input files are taken not to be among
      them;
    - a Python [float] is the rational number it stands for, a [Q]: the
      program prints its floats and divides by them, and only whether a
      divisor is zero bears on what a run does;
    - the workers of the pool are separate processes that share nothing:
      the result of a work unit is the function [process_single_file] of
      its arguments, and the order in which the results arrive is a
      parameter of the coordinator. *)

From Stdlib Require Import String Ascii List ZArith Lia Bool Arith.
From Stdlib Require Import Permutation Sorted DecimalString QArith.
Import ListNotations.

Close Scope Q_scope.

Local Open Scope string_scope.
Local Open Scope list_scope.

(* ================================================================== *)
(** * Python values and exceptions *)
(* ================================================================== *)

Module Py.

(** The exceptions that reading a file can raise: I/O errors (a missing
    or unreadable file, a corrupt gzip stream, which is a [BadGzipFile],
    itself an [OSError]), decoding errors, and a compressed stream that
    ends early. *)
Inductive io_class : Type :=
| OSError
| UnicodeDecodeError
| EOFError
| ZlibError.

(** The exception classes the program can meet.  [KeyboardInterrupt] is
    a [BaseException] that is not an [Exception]; every other one is an
    [Exception] subclass and is caught by [except Exception]. *)
Inductive exn_class : Type :=
| ValueError
| IndexError
| ZeroDivisionError
| IOFailure (c : io_class)
| KeyboardInterrupt.

Record exn : Type := mkExn { exn_cls : exn_class; exn_msg : string }.

Record io_error : Type := mkIOError { io_cls : io_class; io_msg : string }.

Definition exn_of_io (err : io_error) : exn := mkExn (IOFailure (io_cls err)) (io_msg err).

Definition is_Exception (e : exn) : bool :=
  match exn_cls e with
  | KeyboardInterrupt => false
  | _ => true
  end.

(** [str(e)] *)
Definition str_exn (e : exn) : string := exn_msg e.

Inductive result (A : Type) : Type :=
| Ok (v : A)
| Raise (e : exn).
Arguments Ok {A} v.
Arguments Raise {A} e.

Definition bind {A B} (c : result A) (k : A -> result B) : result B :=
  match c with
  | Ok v => k v
  | Raise e => Raise e
  end.

(** [s * n] on a string *)
Fixpoint str_mul (s : string) (n : nat) : string :=
  match n with
  | O => ""
  | S n' => s ++ str_mul s n'
  end.

(** [''.join(xs)] *)
Definition join (xs : list string) : string := String.concat "" xs.

(** [str(n)] for a non-negative integer, and for any integer *)
Definition str_nat (n : nat) : string := NilEmpty.string_of_uint (Nat.to_uint n).
Definition str_int (z : Z) : string := NilZero.string_of_int (Z.to_int z).

(** The characters ["\n"] and ["\t"] *)
Definition nl : string := String (ascii_of_nat 10) EmptyString.
Definition tab : string := String (ascii_of_nat 9) EmptyString.

(** [str.isspace] on one code point below 256: TAB, LF, VT, FF, CR,
    FS, GS, RS, US, space, NEL and NBSP. *)
Definition is_space (c : ascii) : bool :=
  let n := nat_of_ascii c in
  ((9 <=? n)%nat && (n <=? 13)%nat) || ((28 <=? n)%nat && (n <=? 32)%nat)
  || (n =? 133)%nat || (n =? 160)%nat.

Fixpoint lstrip (s : string) : string :=
  match s with
  | EmptyString => EmptyString
  | String c s' => if is_space c then lstrip s' else s
  end.

Fixpoint rstrip (s : string) : string :=
  match s with
  | EmptyString => EmptyString
  | String c s' =>
      match rstrip s' with
      | EmptyString => if is_space c then EmptyString else String c EmptyString
      | r => String c r
      end
  end.

(** [s.strip()] *)
Definition strip (s : string) : string := rstrip (lstrip s).

(** [not s] on a string *)
Definition str_is_empty (s : string) : bool :=
  match s with
  | EmptyString => true
  | String _ _ => false
  end.

(** [s.endswith(suffix)] *)
Fixpoint startswith (s prefix : string) : bool :=
  match prefix, s with
  | EmptyString, _ => true
  | String p prefix', String c s' => Ascii.eqb p c && startswith s' prefix'
  | String _ _, EmptyString => false
  end.

Fixpoint endswith (s suffix : string) : bool :=
  match s with
  | EmptyString => str_is_empty suffix
  | String _ s' => String.eqb s suffix || endswith s' suffix
  end.

(** [s.replace(old, new)] for a non-empty [old]: the occurrences are
    found from the left and do not overlap; [skip] counts the characters
    of a replaced occurrence still to be passed over. *)
Fixpoint replace_go (old new : string) (skip : nat) (s : string) : string :=
  match s with
  | EmptyString => EmptyString
  | String c s' =>
      match skip with
      | S k => replace_go old new k s'
      | O =>
          if startswith s old
          then new ++ replace_go old new (String.length old - 1) s'
          else String c (replace_go old new 0 s')
      end
  end.

Definition replace (s old new : string) : string := replace_go old new 0 s.

(** A [dict] with string keys: insertion-ordered, an assignment to a key
    already present keeps the key's position and replaces its value. *)
Definition dict (V : Type) : Type := list (string * V).

Fixpoint dict_set {V} (d : dict V) (k : string) (v : V) : dict V :=
  match d with
  | [] => [(k, v)]
  | (k', v') :: d' =>
      if String.eqb k' k then (k', v) :: d' else (k', v') :: dict_set d' k v
  end.

(** [l[:n]], with Python's meaning of a negative bound *)
Definition slice_to {A} (l : list A) (n : Z) : list A :=
  if (0 <=? n)%Z then firstn (Z.to_nat n) l
  else firstn (length l - Z.to_nat (- n)) l.

(** [l[i]] with a non-negative index *)
Definition index {A} (l : list A) (i : nat) : result A :=
  match nth_error l i with
  | Some v => Ok v
  | None => Raise (mkExn IndexError "list index out of range")
  end.

(** [itertools.product(pool, repeat=r)] for [r >= 0]: the rightmost
    position advances fastest. *)
Fixpoint product_nat {A} (pool : list A) (r : nat) : list (list A) :=
  match r with
  | O => [[]]
  | S r' => flat_map (fun x => map (cons x) (product_nat pool r')) pool
  end.

(** [itertools.product(pool, repeat=r)] *)
Definition product {A} (pool : list A) (r : Z) : result (list (list A)) :=
  if (r <? 0)%Z then Raise (mkExn ValueError "repeat argument cannot be negative")
  else Ok (product_nat pool (Z.to_nat r)).

End Py.

Import Py.

Notation "x <- c ;; k" := (Py.bind c (fun x => k))
  (at level 61, c at next level, right associativity).

(* ================================================================== *)
(** * Barcode generator *)
(* ================================================================== *)

Definition nucleotides : list string := ["A"; "T"; "C"; "G"].

(** The [for combo in ...] loop of [generate_barcodes], with its [break]. *)
Fixpoint generate_loop (num_files : Z) (combos : list (list string))
         (barcodes : list string) : list string :=
  match combos with
  | [] => barcodes
  | combo :: rest =>
      let barcode := join combo in
      let barcodes := barcodes ++ [barcode] in
      if (Z.of_nat (length barcodes) >=? num_files)%Z then barcodes
      else generate_loop num_files rest barcodes
  end.

Definition generate_barcodes (num_files barcode_length : Z) : result (list string) :=
  combos <- product nucleotides barcode_length ;;
  let barcodes := generate_loop num_files combos [] in
  Ok (slice_to barcodes num_files).

(* ================================================================== *)
(** * Files *)
(* ================================================================== *)

(** A [pathlib.Path] of a directory entry. *)
Record Path : Type := mkPath { path_parent : string; path_name : string }.

(** [str(file_path)] *)
Definition str_path (p : Path) : string := path_parent p ++ "/" ++ path_name p.

(** What a text-mode handle yields at each [readline]: a line (with its
    line terminator when it has one) or an exception (an I/O error, a
    decoding error, a corrupt compressed stream).  At the end of the
    input [readline] returns the empty string, again and again. *)
Inductive read_event : Type :=
| Line (s : string)
| ReadError (err : io_error).

Definition handle : Type := list read_event.

Definition readline (f : handle) : result (string * handle) :=
  match f with
  | [] => Ok ("", [])
  | Line s :: f' => Ok (s, f')
  | ReadError err :: _ => Raise (exn_of_io err)
  end.

Inductive opener : Type := builtin_open | gzip_open.

(** The input side of the file system: what opening a path for reading
    gives (decompression is part of the handle). *)
Definition world : Type := opener -> Path -> string -> io_error + handle.

(** The files a run writes.  A file is a sequence of segments: text
    written through [open], or one gzip member per [gzip.open ... close]. *)
Inductive segment : Type :=
| Raw (text : string)
| GzMember (text : string).

Definition content : Type := list segment.
Definition store : Type := string -> option content.

Definition store_set (fs : store) (path : string) (c : content) : store :=
  fun p => if String.eqb p path then Some c else fs p.

(** The text a reader of the file gets. *)
Definition segment_text (sg : segment) : string :=
  match sg with
  | Raw t => t
  | GzMember t => t
  end.

Definition content_text (c : content) : string := join (map segment_text c).

(** [open(path, 'w')] or [gzip.open(path, 'wt')], the writes, [close] *)
Definition write_file (fs : store) (path : string) (sg : segment) : store :=
  store_set fs path [sg].

(** [gzip.open(path, 'at')], the writes, [close] *)
Definition append_file (fs : store) (path : string) (sg : segment) : store :=
  match fs path with
  | Some c => store_set fs path (c ++ [sg])
  | None => store_set fs path [sg]
  end.

Record state : Type := mkState { files : store; stdout : list string }.

Definition print (line : string) (st : state) : state :=
  mkState (files st) (stdout st ++ [line]).

Definition print_all (lines : list string) (st : state) : state :=
  mkState (files st) (stdout st ++ lines).

(* ================================================================== *)
(** * Record tagger *)
(* ================================================================== *)

(** A tagged record: [(header, sequence, quality_header, quality)]. *)
Definition record : Type := (string * string * string * string)%type.

(** The [while count < chunk_size] loop of [process_single_file];
    [remaining] is [chunk_size - count]. *)
Fixpoint read_chunk (remaining : nat) (f : handle) (barcode : string)
         (sequences : list record) : result (list record) :=
  match remaining with
  | O => Ok sequences
  | S remaining' =>
      r <- readline f ;;
      let header := strip (fst r) in
      if str_is_empty header then Ok sequences
      else
        r <- readline (snd r) ;;
        let sequence := strip (fst r) in
        r <- readline (snd r) ;;
        let quality_header := strip (fst r) in
        r <- readline (snd r) ;;
        let quality := strip (fst r) in
        let barcoded_sequence := (barcode ++ sequence)%string in
        let barcoded_quality := (str_mul "I" (String.length barcode) ++ quality)%string in
        read_chunk remaining' (snd r) barcode
          (sequences ++ [(header, barcoded_sequence, quality_header, barcoded_quality)])
  end.

(** Handle both compressed and uncompressed files: the choice of
    [open_func] and [mode], and the call [open_func(file_path, mode)]. *)
Definition open_input (w : world) (file_path : Path) : result handle :=
  let (open_func, mode) :=
    if endswith (str_path file_path) ".gz" then (gzip_open, "rt")
    else (builtin_open, "r") in
  match w open_func file_path mode with
  | inl err => Raise (exn_of_io err)
  | inr f => Ok f
  end.

(** The body of the [try]. *)
Definition read_file (w : world) (file_path : Path) (barcode : string)
           (chunk_size : Z) : result (list record) :=
  f <- open_input w file_path ;;
  read_chunk (Z.to_nat chunk_size) f barcode [].

(** [process_single_file]: what the worker prints, and what it returns. *)
Definition process_single_file (w : world) (args : Path * string * Z)
  : list string * result (list record) :=
  let '(file_path, barcode, chunk_size) := args in
  match read_file w file_path barcode chunk_size with
  | Ok sequences => ([], Ok sequences)
  | Raise e =>
      if is_Exception e
      then ([("Error processing " ++ str_path file_path ++ ": " ++ str_exn e)%string], Ok [])
      else ([], Raise e)
  end.

(* ================================================================== *)
(** * Aggregating writer *)
(* ================================================================== *)

Definition record_text (r : record) : string :=
  let '(header, sequence, quality_header, quality) := r in
  ((header ++ nl) ++ (sequence ++ nl) ++ (quality_header ++ nl) ++ (quality ++ nl))%string.

Definition write_sequences_to_file (sequences : list record) (output_file : string)
           (st : state) : state :=
  mkState (append_file (files st) output_file (GzMember (join (map record_text sequences))))
          (stdout st).

(* ================================================================== *)
(** * Parallel coordinator *)
(* ================================================================== *)

(** A submitted work unit, as [future_to_file] records it. *)
Definition task : Type := (Path * string)%type.

(** [as_completed] yields the submitted futures in their order of
    completion; [order] lists their submission indices in that order (a
    permutation of the indices, since every future completes once). *)
Definition as_completed (submitted : list task) (order : list nat) : list task :=
  flat_map (fun i => match nth_error submitted i with
                     | Some t => [t]
                     | None => []
                     end) order.

(** The [for future in as_completed(...)] loop.  The worker of a task is
    a separate process that reads only its own file, so its result is
    [process_single_file] on the task; what the worker printed is put in
    the log when its result is taken. *)
Fixpoint collect (w : world) (output_file : string) (chunk_size : Z)
         (n_files : nat) (completed : list task)
         (st : state) (total_sequences processed_files : nat)
  : state * result nat :=
  match completed with
  | [] => (st, Ok total_sequences)
  | (file_path, barcode) :: rest =>
      let (printed, res) := process_single_file w (file_path, barcode, chunk_size) in
      let st := print_all printed st in
      match res with
      | Ok sequences =>
          match sequences with
          | _ :: _ =>
              let st := write_sequences_to_file sequences output_file st in
              let total_sequences := total_sequences + length sequences in
              let processed_files := processed_files + 1 in
              let st := print ("✓ Processed " ++ path_name file_path ++ " ("
                               ++ str_nat (length sequences) ++ " sequences) - "
                               ++ str_nat processed_files ++ "/"
                               ++ str_nat n_files ++ " files")%string st in
              collect w output_file chunk_size n_files rest st
                      total_sequences processed_files
          | [] =>
              let st := print ("⚠ No sequences found in " ++ path_name file_path)%string st in
              collect w output_file chunk_size n_files rest st
                      total_sequences processed_files
          end
      | Raise e =>
          if is_Exception e then
            let st := print ("✗ Error processing " ++ path_name file_path ++ ": "
                             ++ str_exn e)%string st in
            collect w output_file chunk_size n_files rest st
                    total_sequences processed_files
          else (st, Raise e)
      end
  end.

Definition process_files_parallel (w : world) (order : list nat)
           (fastq_files : list Path) (barcodes : list string)
           (output_file : string) (num_cores chunk_size : Z) (st : state)
  : state * result nat :=
  (* Create output file *)
  let st := mkState (write_file (files st) output_file (GzMember "")) (stdout st) in
  let st := print ("Processing " ++ str_nat (length fastq_files) ++ " files using "
                   ++ str_int num_cores ++ " cores...")%string st in
  let st := print ("Chunk size: " ++ str_int chunk_size ++ " sequences per chunk")%string st in
  (* ProcessPoolExecutor(max_workers=num_cores) *)
  if (num_cores <=? 0)%Z
  then (st, Raise (mkExn ValueError "max_workers must be greater than 0"))
  else
    let future_to_file := combine fastq_files barcodes in
    collect w output_file chunk_size (length fastq_files)
            (as_completed future_to_file order) st 0 0.

(* ================================================================== *)
(** * Entry point *)
(* ================================================================== *)

(** [input_path.glob(pattern)] for a pattern ["*" ++ suffix], over the
    entries of the input directory in the order the system lists them. *)
Definition glob (input_dir : string) (listing : list string) (suffix : string)
  : list Path :=
  map (mkPath input_dir) (filter (fun name => endswith name suffix) listing).

(** The [for pattern in ...] loop of [get_file_stats]: the value of its
    [fastq_files] when the loop ends. *)
Definition glob_patterns (input_dir : string) (listing : list string) : list Path :=
  flat_map (glob input_dir listing) [".fastq"; ".fastq.gz"; ".fq"; ".fq.gz"].

(** [f.stat().st_size]: the size of the file, or the message of the
    [OSError] that [stat] raises, a [FileNotFoundError] for a link whose
    target is missing. *)
Definition stat_fn : Type := Path -> string + Z.

(** [sum(f.stat().st_size for f in fastq_files)], from the running
    [total]: the first [stat] that fails ends the sum. *)
Fixpoint sum_sizes (stat : stat_fn) (fastq_files : list Path) (total : Z) : result Z :=
  match fastq_files with
  | [] => Ok total
  | f :: rest =>
      match stat f with
      | inl msg => Raise (mkExn (IOFailure OSError) msg)
      | inr st_size => sum_sizes stat rest (total + st_size)
      end
  end.

(** [get_file_stats]: the files found, their total size and their
    average size. *)
Definition get_file_stats (stat : stat_fn) (input_dir : string) (listing : list string)
  : result (list Path * Z * Q) :=
  let fastq_files := glob_patterns input_dir listing in
  match fastq_files with
  | [] => Ok ([], 0%Z, 0%Q)
  | _ :: _ =>
      total_size <- sum_sizes stat fastq_files 0 ;;
      let avg_size := (inject_Z total_size / inject_Z (Z.of_nat (length fastq_files)))%Q in
      Ok (fastq_files, total_size, avg_size)
  end.

(** [estimate_processing_time]: the division by the number of cores
    raises when there is none. *)
Definition estimate_processing_time (num_files : Z) (total_size_gb : Q) (num_cores : Z)
  : result Q :=
  let base_time_per_gb := 10%Z in
  if (num_cores =? 0)%Z then Raise (mkExn ZeroDivisionError "division by zero")
  else
    let time_per_gb := (inject_Z base_time_per_gb / inject_Z num_cores)%Q in
    let estimated_time := (total_size_gb * time_per_gb)%Q in
    Ok estimated_time.

(** The [for i, file_path in enumerate(fastq_files)] loop of [main]. *)
Fixpoint assign_loop (i : nat) (fastq_files : list Path) (barcodes : list string)
         (barcode_mapping : dict string) : result (dict string) :=
  match fastq_files with
  | [] => Ok barcode_mapping
  | file_path :: rest =>
      b <- index barcodes i ;;
      assign_loop (S i) rest barcodes (dict_set barcode_mapping (path_name file_path) b)
  end.

(** The text written to the mapping file. *)
Definition mapping_text (barcode_mapping : dict string) : string :=
  (("Original_File" ++ tab ++ "Barcode" ++ nl)
   ++ join (map (fun kv => fst kv ++ tab ++ snd kv ++ nl) barcode_mapping))%string.

(** Auto-detect CPU cores if not specified. *)
Definition effective_cores (cpu_count : Z) (cores : option Z) : Z :=
  match cores with
  | None => Z.min cpu_count 16
  | Some c => c
  end.

(** Ensure output file has .fastq.gz extension. *)
Definition normalize_output (output_file : string) : string :=
  if endswith output_file ".fastq.gz" then output_file
  else (output_file ++ ".fastq.gz")%string.

Definition mapping_file_of (output_file : string) : string :=
  replace output_file ".fastq.gz" "_barcode_mapping.txt".

Record arguments : Type := mkArgs {
  input_dir : string;
  output_file : string;
  barcode_length : Z;
  cores : option Z;
  chunk_size : Z
}.

Inductive exit_status : Type :=
| Returned
| SysExit (code : Z)
| Uncaught (e : exn).

(** [main], from the parsed arguments.  [cpu_count] is [mp.cpu_count()],
    [listing] the entries of the input directory, [stat] the sizes of
    its files and [processing_time] the difference [end_time - start_time]
    of the two readings of the clock.  Only the messages about the run's
    outcome are logged; the banner, the list of assignments and the
    statistics are left out, but for the divisions that compute them,
    which can raise. *)
Definition main (cpu_count : Z) (listing : list string) (stat : stat_fn) (w : world)
           (order : list nat) (processing_time : Q) (args : arguments) (st : state)
  : state * exit_status :=
  let cores := effective_cores cpu_count (cores args) in
  let output_file := normalize_output (output_file args) in
  match get_file_stats stat (input_dir args) listing with
  | Raise e => (st, Uncaught e)
  | Ok (fastq_files, total_size, avg_size) =>
  match fastq_files with
  | [] => (print ("No FASTQ files found in " ++ input_dir args)%string st, Returned)
  | _ :: _ =>
      let total_size_gb := (inject_Z total_size / inject_Z (1024 ^ 3))%Q in
      match estimate_processing_time (Z.of_nat (length fastq_files)) total_size_gb cores with
      | Raise e => (st, Uncaught e)
      | Ok estimated_time =>
      match generate_barcodes (Z.of_nat (length fastq_files)) (barcode_length args) with
      | Raise e => (st, Uncaught e)
      | Ok barcodes =>
          match assign_loop 0 fastq_files barcodes [] with
          | Raise e => (st, Uncaught e)
          | Ok barcode_mapping =>
              let mapping_file := mapping_file_of output_file in
              let st := mkState (write_file (files st) mapping_file
                                            (Raw (mapping_text barcode_mapping)))
                                (stdout st) in
              match process_files_parallel w order fastq_files barcodes output_file
                                           cores (chunk_size args) st with
              | (st, Ok total_sequences) =>
                  (* total_sequences/processing_time, inside the try *)
                  if Qeq_bool processing_time 0
                  then (print (nl ++ "Error during processing: "
                                  ++ "float division by zero")%string st,
                        SysExit 1)
                  else (st, Returned)
              | (st, Raise e) =>
                  match exn_cls e with
                  | KeyboardInterrupt =>
                      (print (nl ++ "Processing interrupted by user")%string st, SysExit 1)
                  | _ =>
                      (print (nl ++ "Error during processing: " ++ str_exn e)%string st,
                       SysExit 1)
                  end
              end
          end
      end
      end
  end
  end.

(* ================================================================== *)
(** * Notions the properties are stated with *)
(* ================================================================== *)

(** ** Barcodes and their order *)

Definition alphabet : list ascii := ["A"; "T"; "C"; "G"]%char.

(** The symbol order A < T < C < G. *)
Definition rank (c : ascii) : nat :=
  if Ascii.eqb c "A" then 0
  else if Ascii.eqb c "T" then 1
  else if Ascii.eqb c "C" then 2
  else if Ascii.eqb c "G" then 3
  else 4.

(** The lexicographic order on strings that [rank] induces. *)
Fixpoint lex_lt (s t : string) : Prop :=
  match s, t with
  | EmptyString, String _ _ => True
  | String a s', String b t' => rank a < rank b \/ (a = b /\ lex_lt s' t')
  | _, EmptyString => False
  end.

Fixpoint over_alphabet (s : string) : Prop :=
  match s with
  | EmptyString => True
  | String c s' => In c alphabet /\ over_alphabet s'
  end.

(** A barcode of length [L]. *)
Definition is_barcode (L : nat) (s : string) : Prop :=
  String.length s = L /\ over_alphabet s.

(** The lexicographic enumeration of the barcodes of length [L]. *)
Fixpoint lex_enumeration (L : nat) : list string :=
  match L with
  | O => [EmptyString]
  | S L' => flat_map (fun c => map (String c) (lex_enumeration L')) alphabet
  end.

(** ** Input records *)

(** The four lines of a record, as [readline] returns them. *)
Definition raw_record : Type := (string * string * string * string)%type.

Definition raw_header (r : raw_record) : string := fst (fst (fst r)).

(** The line the [i]-th [readline] on a readable file returns (counting
    from 0): empty past the end of the input. *)
Definition line_at (ls : list string) (i : nat) : string := nth i ls "".

(** The lines a handle gives before its first failure. *)
Fixpoint leading_lines (f : handle) : list string :=
  match f with
  | Line s :: f' => s :: leading_lines f'
  | _ => []
  end.

(** The lines of an input file: those read before the first failure,
    none when the file cannot be opened. *)
Definition input_lines (w : world) (p : Path) : list string :=
  match open_input w p with
  | Ok f => leading_lines f
  | Raise _ => []
  end.

(** The lines at the positions of record [j]. *)
Definition frame_at (ls : list string) (j : nat) : raw_record :=
  (line_at ls (4 * j), line_at ls (4 * j + 1), line_at ls (4 * j + 2), line_at ls (4 * j + 3)).

(** The lines of a file cut in groups of four; the last group is filled
    with empty lines, as reading past the end does. *)
Fixpoint frames (ls : list string) : list raw_record :=
  match ls with
  | [] => []
  | h :: [] => [(h, "", "", "")]
  | h :: s :: [] => [(h, s, "", "")]
  | h :: s :: qh :: [] => [(h, s, qh, "")]
  | h :: s :: qh :: q :: rest => (h, s, qh, q) :: frames rest
  end.

Definition lines_of (rs : list raw_record) : list string :=
  flat_map (fun r : raw_record => let '(h, s, qh, q) := r in [h; s; qh; q]) rs.

Definition blank (line : string) : Prop := strip line = "".

Definition header_present (r : raw_record) : bool :=
  negb (str_is_empty (strip (raw_header r))).

(** A record of a well-formed file: four lines, none of them blank. *)
Definition well_formed_record (r : raw_record) : Prop :=
  let '(h, s, qh, q) := r in
  ~ blank h /\ ~ blank s /\ ~ blank qh /\ ~ blank q.

Fixpoint take_while {A} (f : A -> bool) (l : list A) : list A :=
  match l with
  | [] => []
  | x :: l' => if f x then x :: take_while f l' else []
  end.

(** What tagging makes of the four lines of a record. *)
Definition tag (barcode : string) (r : raw_record) : record :=
  let '(h, s, qh, q) := r in
  (strip h, (barcode ++ strip s)%string, strip qh,
   (str_mul "I" (String.length barcode) ++ strip q)%string).

(** The records [process_single_file] returns for a readable file. *)
Definition emitted (barcode : string) (chunk_size : Z) (ls : list string) : list record :=
  map (tag barcode) (firstn (Z.to_nat chunk_size) (take_while header_present (frames ls))).

(** Record [j] is the first one whose header line is blank. *)
Definition first_blank_header (ls : list string) (j : nat) : Prop :=
  blank (line_at ls (4 * j)) /\ forall i, i < j -> ~ blank (line_at ls (4 * i)).

(** ** Sample inputs *)

Definition ln (s : string) : string := (s ++ nl)%string.

Definition read1 : raw_record := (ln "@r1", ln "ACGT", ln "+", ln "FFFF").
Definition read2 : raw_record := (ln "@r2", ln "GGA", ln "+", ln "F:F").
Definition read3 : raw_record := (ln "@r3", ln "TT", ln "+", ln "##").

Definition three_reads : list string := lines_of [read1; read2; read3].

(** One record and two more lines. *)
Definition six_lines : list string := lines_of [read1] ++ [ln "@r2"; ln "GGA"].

Definition sample_path : Path := mkPath "in" "a.fastq".

(** A world where every path opens on the given lines. *)
Definition world_of (ls : list string) : world := fun _ _ _ => inr (map Line ls).

(** A record, a record whose last three lines are empty, a line of
    spaces where a header is expected, and one more record. *)
Definition blank_header_file : list string :=
  lines_of [read1; (ln "@e", ln "", ln "", ln "")] ++ [ln "   "] ++ lines_of [read2].

(** ** Work units and batches *)

(** The records the worker of a task returns. *)
Definition returned (w : world) (chunk_size : Z) (t : task) : list record :=
  match snd (process_single_file w (fst t, snd t, chunk_size)) with
  | Ok sequences => sequences
  | Raise _ => []
  end.

(** The gzip member that the result of a task adds to the output: none
    for an empty result. *)
Definition batch (w : world) (chunk_size : Z) (t : task) : list segment :=
  match returned w chunk_size t with
  | [] => []
  | sequences => [GzMember (join (map record_text sequences))]
  end.

Definition is_gzip_member (sg : segment) : Prop := exists text, sg = GzMember text.

(** The records of a readable file: its groups of four lines up to the
    first one whose header line is blank. *)
Definition file_records (ls : list string) : list raw_record :=
  take_while header_present (frames ls).

(** The file has no more records than one chunk holds. *)
Definition fits_in_chunk (w : world) (chunk_size : Z) (p : Path) : Prop :=
  forall ls, open_input w p = Ok (map Line ls) ->
             length (file_records ls) <= Z.to_nat chunk_size.

(** The rows of the mapping file, for the files in their input order. *)
Definition mapping_rows (fastq_files : list Path) (barcodes : list string) : list string :=
  map (fun t : task => (path_name (fst t) ++ tab ++ snd t ++ nl)%string)
      (combine fastq_files barcodes).

(** [f.stat()] returns for the file. *)
Definition has_size (stat : stat_fn) (p : Path) : bool :=
  match stat p with
  | inr _ => true
  | inl _ => false
  end.

Definition empty_state : state := mkState (fun _ => None) [].

(** ** Sample runs *)

(** A directory of four entries, three of them FASTQ files: one with
    three records, one that cannot be opened, one whose reading fails
    after its first line. *)
Definition sample_listing : list string := ["a.fastq"; "notes.txt"; "c.fastq.gz"; "b.fq"].

Definition sample_world : world := fun _ p _ =>
  if String.eqb (path_name p) "a.fastq" then inr (map Line three_reads)
  else if String.eqb (path_name p) "b.fq"
       then inr [Line (ln "@x"); ReadError (mkIOError OSError "Input/output error")]
       else inl (mkIOError OSError "Permission denied").

(** Every file of the directory has a size. *)
Definition sample_stat : stat_fn := fun _ => inr 1000%Z.

(** The same directory when [b.fq] is a link whose target is missing. *)
Definition dangling_stat : stat_fn := fun p =>
  if String.eqb (path_name p) "b.fq"
  then inl "[Errno 2] No such file or directory: 'in/b.fq'"
  else inr 1000%Z.

Definition sample_args : arguments := mkArgs "in" "out" 2 None 10000.

(** Five files, and barcodes of one letter. *)
Definition listing5 : list string :=
  ["a.fastq"; "b.fastq"; "c.fastq"; "d.fastq"; "e.fastq"].

Definition args5 : arguments := mkArgs "in" "out" 1 None 10000.

(** ** Further notions *)

(** The barcode at position [i] of the enumeration: the [L] digits of
    [i] in base 4, most significant first, written A, T, C, G for 0, 1,
    2, 3. *)
Fixpoint barcode_of_index (L : nat) (i : nat) : string :=
  match L with
  | O => EmptyString
  | S L' => String (nth (i / 4 ^ L') alphabet "A"%char) (barcode_of_index L' (i mod 4 ^ L'))
  end.

(** The lines that reading a text file gives, for a text without carriage
    return: each line ends with its line feed, except a last line that
    has none. *)
Fixpoint text_lines (s : string) : list string :=
  match s with
  | EmptyString => []
  | String c s' =>
      if Ascii.eqb c (ascii_of_nat 10) then String c EmptyString :: text_lines s'
      else match text_lines s' with
           | [] => [String c EmptyString]
           | l :: ls => String c l :: ls
           end
  end.

(** The character [c] does not occur in [s]. *)
Fixpoint lacks (c : ascii) (s : string) : Prop :=
  match s with
  | EmptyString => True
  | String d s' => d <> c /\ lacks c s'
  end.

Definition no_line_break (s : string) : Prop :=
  lacks (ascii_of_nat 10) s /\ lacks (ascii_of_nat 13) s.

(** No whitespace anywhere in [s]. *)
Fixpoint no_space (s : string) : Prop :=
  match s with
  | EmptyString => True
  | String c s' => is_space c = false /\ no_space s'
  end.

(** A field of a record as it stands on one line of a file: no line
    break in it and no whitespace around it. *)
Definition clean (s : string) : Prop := no_line_break s /\ strip s = s.

Definition clean_record (r : record) : Prop :=
  let '(header, sequence, quality_header, quality) := r in
  header <> "" /\ clean header /\ clean sequence /\ clean quality_header /\ clean quality.

(** The four lines that [write_sequences_to_file] writes for a record. *)
Definition written_lines (r : record) : raw_record :=
  let '(header, sequence, quality_header, quality) := r in
  ((header ++ nl)%string, (sequence ++ nl)%string,
   (quality_header ++ nl)%string, (quality ++ nl)%string).

(** The name ends as one of the four patterns of [get_file_stats] asks. *)
Definition is_fastq_name (name : string) : bool :=
  endswith name ".fastq" || endswith name ".fastq.gz"
  || endswith name ".fq" || endswith name ".fq.gz".

(** What a call of [open] or [gzip.open] gives, as [open_input] returns
    or raises it. *)
Definition opened (r : io_error + handle) : result handle :=
  match r with
  | inl err => Raise (exn_of_io err)
  | inr f => Ok f
  end.

(* ================================================================== *)
(** * Strings and lists *)
(* ================================================================== *)

Lemma append_empty_r (s : string) : (s ++ "")%string = s.
Proof. induction s as [|c s IH]; simpl; [reflexivity | now rewrite IH]. Qed.

Lemma append_length (s t : string) :
  String.length (s ++ t) = String.length s + String.length t.
Proof. induction s as [|c s IH]; simpl; [reflexivity | now rewrite IH]. Qed.

Lemma append_assoc (s t u : string) : ((s ++ t) ++ u = s ++ (t ++ u))%string.
Proof. induction s as [|c s IH]; simpl; [reflexivity | now rewrite IH]. Qed.

Lemma join_cons (x : string) (xs : list string) :
  join (x :: xs) = (x ++ join xs)%string.
Proof.
  unfold join. destruct xs as [|y ys]; simpl.
  - now rewrite append_empty_r.
  - reflexivity.
Qed.

Lemma join_app (xs ys : list string) :
  join (xs ++ ys) = (join xs ++ join ys)%string.
Proof.
  induction xs as [|x xs IH].
  - reflexivity.
  - rewrite <- app_comm_cons, !join_cons, IH. now rewrite append_assoc.
Qed.

Lemma str_mul_length (s : string) (n : nat) :
  String.length (str_mul s n) = n * String.length s.
Proof. induction n as [|n IH]; simpl; [reflexivity | now rewrite append_length, IH]. Qed.

Lemma in_firstn {A} (n : nat) (l : list A) (x : A) :
  In x (firstn n l) -> In x l.
Proof.
  revert l. induction n as [|n IH]; intros [|a l]; simpl; try tauto.
  intros [H|H]; [now left | right; now apply IH].
Qed.

Lemma StronglySorted_app {A} (R : A -> A -> Prop) (l1 l2 : list A) :
  StronglySorted R l1 -> StronglySorted R l2 ->
  (forall x y, In x l1 -> In y l2 -> R x y) ->
  StronglySorted R (l1 ++ l2).
Proof.
  induction l1 as [|a l1 IH]; intros H1 H2 H12; simpl.
  - exact H2.
  - inversion H1 as [|? ? Hs Hf]; subst. constructor.
    + apply IH; auto. intros x y Hx Hy. apply H12; [now right | exact Hy].
    + apply Forall_app. split; [exact Hf|].
      apply Forall_forall. intros y Hy. apply H12; [now left | exact Hy].
Qed.

(* ================================================================== *)
(** * The barcode generator *)
(* ================================================================== *)

Section Generator.

(** The product of the source, joined, is the enumeration. *)
Lemma join_product (L : nat) :
  map join (product_nat nucleotides L) = lex_enumeration L.
Proof.
  induction L as [|L IH]; [reflexivity|].
  cbn [product_nat lex_enumeration nucleotides alphabet flat_map].
  rewrite !map_app, !map_map. cbn [map app].
  rewrite <- IH, !map_map.
  repeat (f_equal; [apply map_ext; intro a; now rewrite join_cons|]).
  f_equal. apply map_ext. intro a. now rewrite join_cons.
Qed.

Lemma lex_enumeration_length (L : nat) : length (lex_enumeration L) = 4 ^ L.
Proof.
  induction L as [|L IH]; [reflexivity|].
  cbn [lex_enumeration alphabet flat_map].
  rewrite !length_app, !length_map, IH. cbn [length Nat.pow]. lia.
Qed.

Lemma lex_enumeration_sound (L : nat) (s : string) :
  In s (lex_enumeration L) -> is_barcode L s.
Proof.
  revert s. induction L as [|L IH]; intros s Hs.
  - destruct Hs as [<-|[]]. split; exact I || reflexivity.
  - cbn [lex_enumeration] in Hs. apply in_flat_map in Hs.
    destruct Hs as (c & Hc & Hs). apply in_map_iff in Hs.
    destruct Hs as (s' & <- & Hs'). destruct (IH _ Hs') as [Hl Ho].
    split; simpl; [now rewrite Hl | now split].
Qed.

Lemma lex_enumeration_complete (L : nat) (s : string) :
  is_barcode L s -> In s (lex_enumeration L).
Proof.
  revert s. induction L as [|L IH]; intros s [Hl Ho].
  - destruct s; [now left | discriminate].
  - destruct s as [|c s]; [discriminate|]. simpl in Hl.
    cbn [over_alphabet] in Ho. destruct Ho as [Hc Ho].
    cbn [lex_enumeration]. apply in_flat_map. exists c. split; [exact Hc|].
    apply in_map, IH. split; [lia | exact Ho].
Qed.

Lemma lex_lt_irrefl (s : string) : ~ lex_lt s s.
Proof. induction s as [|c s IH]; simpl; [tauto|]. intros [H|[_ H]]; [lia | auto]. Qed.

Lemma lex_lt_asym (s t : string) : lex_lt s t -> lex_lt t s -> False.
Proof.
  revert t. induction s as [|c s IH]; intros [|d t]; simpl; try tauto.
  intros [H1|[-> H1]] [H2|[E H2]]; subst; try lia. eauto.
Qed.

Lemma lex_lt_map_cons (c : ascii) (l : list string) :
  StronglySorted lex_lt l -> StronglySorted lex_lt (map (String c) l).
Proof.
  induction 1 as [|a l Hs IH Hf]; simpl; constructor; [exact IH|].
  apply Forall_map. revert Hf. apply Forall_impl. intros b Hb. simpl. now right.
Qed.

Lemma lex_enumeration_sorted (L : nat) : StronglySorted lex_lt (lex_enumeration L).
Proof.
  induction L as [|L IH]; [repeat constructor|].
  cbn [lex_enumeration alphabet flat_map].
  repeat (apply StronglySorted_app;
          [now apply lex_lt_map_cons | |
           intros x y Hx Hy; apply in_map_iff in Hx; destruct Hx as (x' & <- & _);
           repeat (apply in_app_or in Hy; destruct Hy as [Hy|Hy];
                   [apply in_map_iff in Hy; destruct Hy as (y' & <- & _);
                    left; vm_compute; lia|]);
           destruct Hy]).
  constructor.
Qed.

Lemma StronglySorted_NoDup {A} (R : A -> A -> Prop) (l : list A) :
  (forall x, ~ R x x) -> StronglySorted R l -> NoDup l.
Proof.
  intros Hirr. induction 1 as [|a l Hs IH Hf]; constructor; [|exact IH].
  intro Hin. rewrite Forall_forall in Hf. exact (Hirr a (Hf a Hin)).
Qed.

Lemma StronglySorted_firstn {A} (R : A -> A -> Prop) (n : nat) (l : list A) :
  StronglySorted R l -> StronglySorted R (firstn n l).
Proof.
  intros H. revert n. induction H as [|a l Hs IH Hf]; intros [|n]; simpl;
    try constructor; [apply IH|].
  apply Forall_forall. intros x Hx. rewrite Forall_forall in Hf.
  apply Hf. eapply in_firstn; eauto.
Qed.

(** A prefix of a sorted list is closed downwards within the list. *)
Lemma sorted_prefix_closed {A} (R : A -> A -> Prop) (n : nat) (l : list A) (x y : A) :
  (forall a b, R a b -> R b a -> False) ->
  StronglySorted R l -> In x l -> In y (firstn n l) -> R x y -> In x (firstn n l).
Proof.
  intros Hasym Hs. revert n. induction Hs as [|a l Hs IH Hf]; intros n Hx Hy Hxy.
  - destruct Hx.
  - destruct n as [|n]; [destruct Hy|]. simpl in *.
    destruct Hx as [->|Hx]; [now left|].
    destruct Hy as [->|Hy].
    + exfalso. rewrite Forall_forall in Hf. exact (Hasym _ _ Hxy (Hf _ Hx)).
    + right. now apply IH.
Qed.

(** The loop stops as soon as [num_files] barcodes are collected, and
    collects at least one when there is one. *)
Lemma generate_loop_spec (N : nat) (combos : list (list string)) (acc : list string) :
  generate_loop (Z.of_nat N) combos acc
  = acc ++ firstn (Nat.max 1 (N - length acc)) (map join combos).
Proof.
  revert acc. induction combos as [|combo rest IH]; intro acc.
  - simpl. now rewrite firstn_nil, app_nil_r.
  - cbn [generate_loop map]. rewrite length_app. cbn [length].
    destruct (Z.geb_spec (Z.of_nat (length acc + 1)) (Z.of_nat N)) as [Hge|Hlt].
    + replace (Nat.max 1 (N - length acc)) with 1 by lia. reflexivity.
    + rewrite IH, length_app. cbn [length].
      replace (Nat.max 1 (N - length acc)) with (S (Nat.max 1 (N - (length acc + 1)))) by lia.
      cbn [firstn]. now rewrite <- app_assoc.
Qed.

Lemma generate_barcodes_prefix (N L : nat) :
  generate_barcodes (Z.of_nat N) (Z.of_nat L) = Ok (firstn N (lex_enumeration L)).
Proof.
  unfold generate_barcodes, product.
  destruct (Z.ltb_spec (Z.of_nat L) 0) as [H|_]; [lia|].
  cbn [bind]. rewrite Nat2Z.id, generate_loop_spec, join_product.
  cbn [app length]. unfold slice_to.
  destruct (Z.leb_spec 0 (Z.of_nat N)) as [_|H]; [|lia].
  rewrite Nat2Z.id, firstn_firstn. f_equal. f_equal. lia.
Qed.

End Generator.

(** C1.  For every count [N] and length [L] with [N <= 4^L],
    [generate_barcodes(N, L)] returns, without raising, exactly [N]
    pairwise distinct strings of length [L] over {A,T,C,G}; they are the
    first [N] elements of the lexicographic enumeration for A<T<C<G (the
    list is strictly increasing and holds every barcode below one of its
    elements); and a second call with the same arguments returns the same
    list. *)
Theorem generate_barcodes_first_N (N L : nat) :
  N <= 4 ^ L ->
  exists out,
    generate_barcodes (Z.of_nat N) (Z.of_nat L) = Ok out /\
    length out = N /\
    NoDup out /\
    Forall (is_barcode L) out /\
    out = firstn N (lex_enumeration L) /\
    StronglySorted lex_lt out /\
    (forall s t, is_barcode L s -> In t out -> lex_lt s t -> In s out) /\
    (forall again, generate_barcodes (Z.of_nat N) (Z.of_nat L) = again -> again = Ok out).
Proof.
  intro HN. exists (firstn N (lex_enumeration L)).
  assert (Hsorted : StronglySorted lex_lt (firstn N (lex_enumeration L)))
    by apply StronglySorted_firstn, lex_enumeration_sorted.
  repeat split.
  - apply generate_barcodes_prefix.
  - rewrite length_firstn, lex_enumeration_length. lia.
  - eapply StronglySorted_NoDup; [exact lex_lt_irrefl | exact Hsorted].
  - apply Forall_forall. intros s Hs. apply lex_enumeration_sound.
    eapply in_firstn; eauto.
  - exact Hsorted.
  - intros s t Hs Ht Hlt.
    eapply sorted_prefix_closed; eauto using lex_lt_asym, lex_enumeration_sorted.
    now apply lex_enumeration_complete.
  - intros again <-. apply generate_barcodes_prefix.
Qed.

Lemma generate_barcodes_first_N_witness :
  5 <= 4 ^ 2 /\
  exists out,
    generate_barcodes 5 2 = Ok out /\
    length out = 5 /\
    NoDup out /\
    Forall (is_barcode 2) out /\
    out = firstn 5 (lex_enumeration 2) /\
    StronglySorted lex_lt out /\
    (forall s t, is_barcode 2 s -> In t out -> lex_lt s t -> In s out) /\
    (forall again, generate_barcodes 5 2 = again -> again = Ok out).
Proof.
  split; [simpl; lia|].
  apply (generate_barcodes_first_N 5 2). simpl; lia.
Defined.

(** Asked for more barcodes than there are, the generator raises
    nothing: it returns the whole lexicographic enumeration, that is
    [4^L] pairwise distinct barcodes of length [L], fewer than [N]. *)
Lemma generate_barcodes_caps_at_all_barcodes (N L : nat) :
  4 ^ L < N ->
  generate_barcodes (Z.of_nat N) (Z.of_nat L) = Ok (lex_enumeration L) /\
  length (lex_enumeration L) = 4 ^ L /\
  length (lex_enumeration L) < N /\
  NoDup (lex_enumeration L) /\
  Forall (is_barcode L) (lex_enumeration L).
Proof.
  intro HN. assert (Hlen := lex_enumeration_length L). repeat split.
  - rewrite generate_barcodes_prefix, firstn_all2; [reflexivity | lia].
  - exact Hlen.
  - lia.
  - eapply StronglySorted_NoDup; [exact lex_lt_irrefl | apply lex_enumeration_sorted].
  - apply Forall_forall. intros s Hs. now apply lex_enumeration_sound.
Qed.

(** C2, at an input where the code departs from it.  Five barcodes of
    length 1 are asked for and there are four: [generate_barcodes]
    returns the four and raises no error; a run over five files with
    barcodes of length 1 then stops in [main] with an uncaught
    [IndexError], when the fifth file is given its barcode. *)
Theorem generate_barcodes_reports_no_error :
  4 ^ 1 < 5 /\
  generate_barcodes 5 1 = Ok ["A"; "T"; "C"; "G"] /\
  ~ (exists e, generate_barcodes 5 1 = Raise e) /\
  (exists fastq_files total_size avg_size,
      get_file_stats sample_stat "in" listing5 = Ok (fastq_files, total_size, avg_size) /\
      length fastq_files = 5) /\
  snd (main 4 listing5 sample_stat (world_of three_reads) [0; 1; 2; 3; 4] 1 args5 empty_state)
  = Uncaught (mkExn IndexError "list index out of range").
Proof.
  split; [simpl; lia|]. split; [reflexivity|]. split.
  - intros [e He]. vm_compute in He. discriminate He.
  - split; [|reflexivity]. do 3 eexists. split; reflexivity.
Qed.

(* ================================================================== *)
(** * The record tagger *)
(* ================================================================== *)

Section Tagger.

Lemma take_while_app {A} (f : A -> bool) (l1 l2 : list A) :
  forallb f l1 = true -> take_while f (l1 ++ l2) = l1 ++ take_while f l2.
Proof.
  induction l1 as [|x l1 IH]; simpl; [reflexivity|].
  intro H. apply andb_prop in H. destruct H as [-> H]. now rewrite IH.
Qed.

Lemma take_while_all {A} (f : A -> bool) (l : list A) :
  forallb f l = true -> take_while f l = l.
Proof.
  intro H. rewrite <- (app_nil_r l) at 1. rewrite take_while_app by exact H.
  apply app_nil_r.
Qed.

Lemma take_while_prefix {A} (f : A -> bool) (l : list A) :
  exists r, l = take_while f l ++ r.
Proof.
  induction l as [|x l [r IH]]; simpl; [now exists []|].
  destruct (f x); [exists r; simpl; now rewrite <- IH | now exists (x :: l)].
Qed.

Lemma take_while_length_le {A} (f : A -> bool) (l : list A) :
  length (take_while f l) <= length l.
Proof.
  destruct (take_while_prefix f l) as [r H]. rewrite H at 2.
  rewrite length_app. lia.
Qed.

(** Below its length, [take_while] holds the elements of the list, and
    they pass the test. *)
Lemma take_while_nth {A} (f : A -> bool) (l : list A) (i : nat) :
  i < length (take_while f l) ->
  nth_error (take_while f l) i = nth_error l i /\
  exists x, nth_error l i = Some x /\ f x = true.
Proof.
  revert i. induction l as [|x l IH]; simpl; intros i Hi; [lia|].
  destruct (f x) eqn:Hf; simpl in Hi; [|lia].
  destruct i as [|i]; simpl; [eauto|]. apply IH. lia.
Qed.

(** At its length, [take_while] has met the end of the list or an
    element that fails the test. *)
Lemma take_while_stop {A} (f : A -> bool) (l : list A) :
  match nth_error l (length (take_while f l)) with
  | Some x => f x = false
  | None => True
  end.
Proof.
  induction l as [|x l IH]; simpl; [exact I|].
  destruct (f x) eqn:Hf; simpl; [exact IH | exact Hf].
Qed.

Lemma frames_lines_of (rs : list raw_record) (rest : list string) :
  frames (lines_of rs ++ rest) = rs ++ frames rest.
Proof.
  induction rs as [|[[[h s] qh] q] rs IH]; [reflexivity|].
  cbn [lines_of flat_map app frames]. fold (lines_of rs). now rewrite IH.
Qed.

Lemma nth_error_frames (ls : list string) (j : nat) :
  nth_error (frames ls) j
  = if (4 * j <? length ls)%nat then Some (frame_at ls j) else None.
Proof.
  revert ls. induction j as [|j IH]; intro ls.
  - destruct ls as [|h [|s [|qh [|q rest]]]]; reflexivity.
  - replace (4 * S j) with (S (S (S (S (4 * j))))) by lia.
    destruct ls as [|h [|s [|qh [|q rest]]]];
      try (cbn [frames nth_error length]; rewrite ?nth_error_nil; reflexivity).
    cbn [frames nth_error]. rewrite IH. cbn [length].
    change (S (S (S (S (4 * j)))) <? S (S (S (S (length rest)))))%nat
      with (4 * j <? length rest)%nat.
    destruct (4 * j <? length rest)%nat; [|reflexivity].
    unfold frame_at, line_at.
    replace (4 * S j) with (S (S (S (S (4 * j))))) by lia.
    reflexivity.
Qed.

(** Reading a readable file: the loop returns the tagged groups of four
    lines up to the first group with a blank first line, and at most
    [remaining] of them. *)
Lemma read_chunk_lines (barcode : string) (n : nat) (ls : list string) (acc : list record) :
  read_chunk n (map Line ls) barcode acc
  = Ok (acc ++ map (tag barcode) (firstn n (take_while header_present (frames ls)))).
Proof.
  revert ls acc. induction n as [|n IH]; intros ls acc.
  - simpl. now rewrite app_nil_r.
  - destruct ls as [|h ls].
    { simpl. now rewrite app_nil_r. }
    cbn [read_chunk map readline bind fst snd].
    assert (Hhp : forall s qh q, header_present (h, s, qh, q) = negb (str_is_empty (strip h)))
      by reflexivity.
    destruct ls as [|s [|qh [|q rest]]];
      cbn [frames take_while]; rewrite Hhp;
      destruct (str_is_empty (strip h)); cbn [negb];
      try (simpl; now rewrite app_nil_r).
    + cbn [map readline bind fst snd]. rewrite (IH []).
      cbn [frames take_while firstn map]. rewrite !firstn_nil. simpl.
      now rewrite ?app_nil_r.
    + cbn [map readline bind fst snd]. rewrite (IH []).
      cbn [frames take_while firstn map]. rewrite !firstn_nil. simpl.
      now rewrite ?app_nil_r.
    + cbn [map readline bind fst snd]. rewrite (IH []).
      cbn [frames take_while firstn map]. rewrite !firstn_nil. simpl.
      now rewrite ?app_nil_r.
    + cbn [map readline bind fst snd]. rewrite IH.
      cbn [firstn map tag]. now rewrite <- app_assoc.
Qed.

Lemma process_single_file_lines (w : world) (p : Path) (barcode : string)
      (chunk_size : Z) (ls : list string) :
  open_input w p = Ok (map Line ls) ->
  process_single_file w (p, barcode, chunk_size) = ([], Ok (emitted barcode chunk_size ls)).
Proof.
  intro Hopen. unfold process_single_file, read_file. rewrite Hopen.
  cbn [bind]. now rewrite read_chunk_lines.
Qed.

Lemma emitted_length_le (barcode : string) (chunk_size : Z) (ls : list string) :
  length (emitted barcode chunk_size ls) <= Z.to_nat chunk_size.
Proof. unfold emitted. rewrite length_map, length_firstn. lia. Qed.

(** The [i]-th record returned is the tagged [i]-th group of lines. *)
Lemma emitted_nth (barcode : string) (chunk_size : Z) (ls : list string) (i : nat) :
  i < length (emitted barcode chunk_size ls) ->
  nth_error (emitted barcode chunk_size ls) i = Some (tag barcode (frame_at ls i)) /\
  ~ blank (line_at ls (4 * i)).
Proof.
  unfold emitted. rewrite length_map. intro Hi.
  assert (Hi' : i < length (take_while header_present (frames ls))).
  { rewrite length_firstn in Hi. lia. }
  rewrite nth_error_map.
  assert (Hn : nth_error (firstn (Z.to_nat chunk_size) (take_while header_present (frames ls))) i
               = nth_error (take_while header_present (frames ls)) i).
  { rewrite length_firstn in Hi. rewrite nth_error_firstn.
    destruct (Nat.ltb_spec i (Z.to_nat chunk_size)); [reflexivity | lia]. }
  rewrite Hn. destruct (take_while_nth header_present (frames ls) i Hi') as (-> & x & Hx & Hf).
  rewrite nth_error_frames in Hx |- *.
  destruct (4 * i <? length ls)%nat; [|discriminate]. injection Hx as <-.
  split; [reflexivity|].
  unfold header_present, frame_at, raw_header in Hf. cbn [fst] in Hf.
  unfold blank. intro Hb. rewrite Hb in Hf. discriminate.
Qed.

(** The number of records returned: up to the first blank header line,
    within the chunk. *)
Lemma emitted_length (barcode : string) (chunk_size : Z) (ls : list string) (j : nat) :
  first_blank_header ls j ->
  length (emitted barcode chunk_size ls) = Nat.min j (Z.to_nat chunk_size).
Proof.
  intros [Hj Hbefore]. unfold emitted. rewrite length_map, length_firstn.
  enough (length (take_while header_present (frames ls)) = j) by lia.
  set (m := length (take_while header_present (frames ls))).
  destruct (Nat.lt_trichotomy m j) as [Hlt|[Heq|Hgt]]; [exfalso | exact Heq | exfalso].
  - assert (Hstop := take_while_stop header_present (frames ls)). fold m in Hstop.
    rewrite nth_error_frames in Hstop.
    destruct (Nat.ltb_spec (4 * m) (length ls)) as [Hin|Hout].
    + apply (Hbefore m Hlt). unfold blank.
      unfold header_present, frame_at, raw_header in Hstop. cbn [fst] in Hstop.
      destruct (strip (line_at ls (4 * m))); [reflexivity | discriminate].
    + apply (Hbefore m Hlt). unfold blank, line_at.
      rewrite nth_overflow by lia. reflexivity.
  - destruct (take_while_nth header_present (frames ls) j Hgt) as (_ & x & Hx & Hf).
    rewrite nth_error_frames in Hx.
    destruct (4 * j <? length ls)%nat; [|discriminate]. injection Hx as <-.
    unfold header_present, frame_at, raw_header in Hf. cbn [fst] in Hf.
    unfold blank in Hj. rewrite Hj in Hf. discriminate.
Qed.

Lemma well_formed_headers (rs : list raw_record) :
  Forall well_formed_record rs -> forallb header_present rs = true.
Proof.
  induction 1 as [|[[[h s] qh] q] rs (Hh & _) _ IH]; [reflexivity|].
  cbn [forallb]. rewrite IH, andb_true_r.
  unfold header_present, raw_header. cbn [fst]. unfold blank in Hh.
  destruct (strip h); [contradiction | reflexivity].
Qed.

(** A well-formed file: every record is returned, up to the chunk size. *)
Lemma emitted_well_formed (barcode : string) (chunk_size : Z) (rs : list raw_record) :
  Forall well_formed_record rs ->
  emitted barcode chunk_size (lines_of rs)
  = map (tag barcode) (firstn (Z.to_nat chunk_size) rs).
Proof.
  intro Hwf. unfold emitted.
  rewrite <- (app_nil_r (lines_of rs)), frames_lines_of. cbn [frames].
  rewrite app_nil_r, take_while_all by now apply well_formed_headers.
  reflexivity.
Qed.

End Tagger.

(** A well-formed file within the chunk size: one tagged record for each
    record of the file. *)
Lemma process_single_file_well_formed (w : world) (p : Path) (barcode : string)
      (chunk_size : Z) (rs : list raw_record) :
  Forall well_formed_record rs ->
  open_input w p = Ok (map Line (lines_of rs)) ->
  process_single_file w (p, barcode, chunk_size)
  = ([], Ok (map (tag barcode) (firstn (Z.to_nat chunk_size) rs))).
Proof.
  intros Hwf Hopen. rewrite (process_single_file_lines _ _ _ _ _ Hopen).
  now rewrite emitted_well_formed.
Qed.

(** C3, at a file the code cuts short.  The file [three_reads] holds
    three well-formed records; with a chunk size of 2 the tagger returns
    the first two and drops the third, without any report. *)
Theorem process_single_file_drops_records_past_chunk :
  Forall well_formed_record [read1; read2; read3] /\
  three_reads = lines_of [read1; read2; read3] /\
  process_single_file (world_of three_reads) (sample_path, "AC", 2%Z)
  = ([], Ok [("@r1", "ACACGT", "+", "IIFFFF"); ("@r2", "ACGGA", "+", "IIF:F")]) /\
  length [("@r1", "ACACGT", "+", "IIFFFF"); ("@r2", "ACGGA", "+", "IIF:F")]
  <> length [read1; read2; read3].
Proof.
  split.
  - repeat constructor; intro H; vm_compute in H; discriminate H.
  - split; [reflexivity|]. split; [reflexivity | discriminate].
Qed.

(** C4, as the code has it.  A file of [k] well-formed records followed
    by one to three more lines, read with a chunk size above [k]: no
    error is raised or reported; when the first extra line is not blank
    the extra lines are emitted as one more tagged record, their missing
    lines read as empty, so [k + 1] records are returned; when it is
    blank, the [k] records are returned. *)
Theorem trailing_partial_record_is_emitted (w : world) (p : Path) (barcode : string)
        (chunk_size : Z) (rs : list raw_record) (partial : list string) :
  Forall well_formed_record rs ->
  1 <= length partial <= 3 ->
  (Z.of_nat (length rs) < chunk_size)%Z ->
  open_input w p = Ok (map Line (lines_of rs ++ partial)) ->
  exists out,
    process_single_file w (p, barcode, chunk_size) = ([], Ok out) /\
    (~ blank (line_at partial 0) ->
     out = map (tag barcode) rs
           ++ [tag barcode (line_at partial 0, line_at partial 1, line_at partial 2, "")] /\
     length out = S (length rs)) /\
    (blank (line_at partial 0) ->
     out = map (tag barcode) rs /\ length out = length rs).
Proof.
  intros Hwf Hlen Hchunk Hopen.
  exists (emitted barcode chunk_size (lines_of rs ++ partial)).
  split; [now apply process_single_file_lines|].
  unfold emitted. rewrite frames_lines_of.
  rewrite take_while_app by now apply well_formed_headers.
  assert (Hfr : frames partial
                = [(line_at partial 0, line_at partial 1, line_at partial 2, "")]).
  { destruct partial as [|a [|b [|c [|d rest]]]]; simpl in Hlen; try lia; reflexivity. }
  rewrite Hfr. cbn [take_while]. unfold header_present, raw_header, blank. cbn [fst].
  split; intro Hb.
  - destruct (strip (line_at partial 0)) eqn:E; [contradiction|]. cbn [str_is_empty negb].
    rewrite firstn_all2 by (rewrite length_app; simpl; lia).
    rewrite map_app. split; [reflexivity|].
    rewrite length_app, length_map. simpl. lia.
  - rewrite Hb. cbn [str_is_empty negb]. rewrite app_nil_r.
    rewrite firstn_all2 by lia. split; [reflexivity | apply length_map].
Qed.

Lemma trailing_partial_record_is_emitted_witness :
  exists out,
    process_single_file (world_of six_lines) (sample_path, "AC", 10000%Z) = ([], Ok out) /\
    (~ blank (line_at [ln "@r2"; ln "GGA"] 0) ->
     out = map (tag "AC") [read1]
           ++ [tag "AC" (line_at [ln "@r2"; ln "GGA"] 0, line_at [ln "@r2"; ln "GGA"] 1,
                         line_at [ln "@r2"; ln "GGA"] 2, "")] /\
     length out = S (length [read1])) /\
    (blank (line_at [ln "@r2"; ln "GGA"] 0) ->
     out = map (tag "AC") [read1] /\ length out = length [read1]).
Proof.
  apply (trailing_partial_record_is_emitted (world_of six_lines) sample_path "AC" 10000%Z
           [read1] [ln "@r2"; ln "GGA"]).
  - repeat constructor; intro H; vm_compute in H; discriminate H.
  - simpl; lia.
  - simpl; lia.
  - reflexivity.
Defined.

(** A six-line file, one record and two more lines, gives two tagged
    records and not one: the second is made of the two extra lines. *)
Lemma six_lines_give_two_records :
  six_lines = lines_of [read1] ++ [ln "@r2"; ln "GGA"] /\
  process_single_file (world_of six_lines) (sample_path, "AC", 10000%Z)
  = ([], Ok [("@r1", "ACACGT", "+", "IIFFFF"); ("@r2", "ACGGA", "", "II")]) /\
  ~ (exists out,
       process_single_file (world_of six_lines) (sample_path, "AC", 10000%Z) = ([], Ok out) /\
       length out = 1).
Proof.
  assert (H : process_single_file (world_of six_lines) (sample_path, "AC", 10000%Z)
              = ([], Ok [("@r1", "ACACGT", "+", "IIFFFF"); ("@r2", "ACGGA", "", "II")])).
  { rewrite (process_single_file_lines _ _ _ _ six_lines) by reflexivity.
    vm_compute. reflexivity. }
  split; [reflexivity|]. split; [exact H|].
  intros (out & Hout & Hlen). rewrite H in Hout. injection Hout as <-. discriminate Hlen.
Qed.

Lemma str_mul_I_chars (n : nat) (c : ascii) :
  In c (list_ascii_of_string (str_mul "I" n)) -> c = "I"%char.
Proof.
  induction n as [|n IH]; simpl; [tauto|]. intros [H|H]; [now symmetry | now apply IH].
Qed.

(** What the tagger raises while reading is an I/O failure, which
    [except Exception] catches. *)
Lemma read_chunk_raises (n : nat) (f : handle) (barcode : string)
      (acc : list record) (e : exn) :
  read_chunk n f barcode acc = Raise e -> is_Exception e = true.
Proof.
  revert f acc. induction n as [|n IH]; intros f acc; [discriminate|].
  cbn [read_chunk].
  assert (Hrl : forall g, match readline g with
                          | Ok _ => True
                          | Raise e' => is_Exception e' = true
                          end).
  { intros [|[s|err] g]; simpl; auto. }
  repeat match goal with
         | |- context [readline ?g] =>
             let H := fresh in
             assert (H := Hrl g); destruct (readline g) as [[? ?]|?];
             cbn [bind fst snd];
             [clear H | intro Heq; injection Heq as <-; exact H]
         | |- context [str_is_empty ?s] => destruct (str_is_empty s); [discriminate|]
         end.
  apply IH.
Qed.

Lemma read_file_raises (w : world) (p : Path) (barcode : string) (chunk_size : Z)
      (e : exn) :
  read_file w p barcode chunk_size = Raise e -> is_Exception e = true.
Proof.
  unfold read_file, open_input.
  destruct (if endswith (str_path p) ".gz" then _ else _) as [o m].
  destruct (w o p m) as [err|f]; cbn [bind].
  - intro H. injection H as <-. reflexivity.
  - apply read_chunk_raises.
Qed.

(** A handle that fails somewhere: either the loop meets the failure,
    or it reads as if the file ended before it. *)
Lemma read_chunk_leading_lines (barcode : string) (n : nat) (f : handle)
      (acc : list record) :
  (exists e, read_chunk n f barcode acc = Raise e) \/
  read_chunk n f barcode acc = read_chunk n (map Line (leading_lines f)) barcode acc.
Proof.
  revert f acc. induction n as [|n IH]; intros f acc; [now right|].
  cbn [read_chunk].
  destruct f as [|[h|err] f]; [now right | | left; now eexists].
  cbn [leading_lines map readline bind fst snd].
  destruct (str_is_empty (strip h)); [now right|].
  destruct f as [|[s|err] f]; [now right | | left; now eexists].
  cbn [leading_lines map readline bind fst snd].
  destruct f as [|[qh|err] f]; [now right | | left; now eexists].
  cbn [leading_lines map readline bind fst snd].
  destruct f as [|[q|err] f]; [now right | | left; now eexists].
  cbn [leading_lines map readline bind fst snd].
  apply IH.
Qed.

(** Whatever the file does, the worker returns no record or the records
    of the lines read before the first failure. *)
Lemma process_single_file_any (w : world) (p : Path) (barcode : string) (chunk_size : Z) :
  exists printed out,
    process_single_file w (p, barcode, chunk_size) = (printed, Ok out) /\
    (out = [] \/ out = emitted barcode chunk_size (input_lines w p)).
Proof.
  unfold process_single_file, read_file, input_lines.
  destruct (open_input w p) as [f|e] eqn:Hopen; cbn [bind].
  - destruct (read_chunk_leading_lines barcode (Z.to_nat chunk_size) f []) as [[e He]|Heq].
    + rewrite He.
      assert (Hexn : is_Exception e = true) by (eapply read_chunk_raises; eauto).
      rewrite Hexn. do 2 eexists. split; [reflexivity | now left].
    + rewrite Heq, read_chunk_lines. do 2 eexists. split; [reflexivity | now right].
  - assert (Hexn : is_Exception e = true).
    { unfold open_input in Hopen.
      destruct (if endswith (str_path p) ".gz" then _ else _) as [o m].
      destruct (w o p m); [injection Hopen as <-; reflexivity | discriminate]. }
    rewrite Hexn. do 2 eexists. split; [reflexivity | now left].
Qed.

(** C5.  For every file and every record that the tagger returns for it,
    with [sequence] and [quality] the record's sequence and quality
    lines without their line end and surrounding whitespace, as the code
    takes them: the tagged sequence is the barcode followed by
    [sequence]; the tagged quality is the symbol I repeated
    barcode-length times followed by [quality]; and when [sequence] and
    [quality] have the same length, the tagged sequence and the tagged
    quality have the same length, which is that length plus the barcode
    length. *)
Theorem tagging_keeps_sequence_and_quality_aligned
        (w : world) (p : Path) (barcode : string) (chunk_size : Z) :
  exists printed out,
    process_single_file w (p, barcode, chunk_size) = (printed, Ok out) /\
    forall i, i < length out ->
      let sequence := strip (line_at (input_lines w p) (4 * i + 1)) in
      let quality := strip (line_at (input_lines w p) (4 * i + 3)) in
      let padding := str_mul "I" (String.length barcode) in
      exists header tagged_sequence quality_header tagged_quality,
        nth_error out i = Some (header, tagged_sequence, quality_header, tagged_quality) /\
        tagged_sequence = (barcode ++ sequence)%string /\
        tagged_quality = (padding ++ quality)%string /\
        String.length padding = String.length barcode /\
        (forall c, In c (list_ascii_of_string padding) -> c = "I"%char) /\
        (String.length sequence = String.length quality ->
         String.length tagged_sequence = String.length tagged_quality /\
         String.length tagged_quality = String.length sequence + String.length barcode).
Proof.
  destruct (process_single_file_any w p barcode chunk_size) as (printed & out & Hp & Hout).
  exists printed, out. split; [exact Hp|].
  intros i Hi. destruct Hout as [->| ->]; [simpl in Hi; lia|].
  destruct (emitted_nth _ _ _ _ Hi) as [Hnth _].
  cbv zeta. unfold frame_at, tag in Hnth.
  do 4 eexists. split; [exact Hnth|].
  split; [reflexivity|]. split; [reflexivity|].
  assert (Hpad : String.length (str_mul "I" (String.length barcode)) = String.length barcode).
  { rewrite str_mul_length. simpl. lia. }
  split; [exact Hpad|]. split; [apply str_mul_I_chars|].
  intro Heq. rewrite !append_length, Hpad. lia.
Qed.

(** The first record of the sample file, tagged with ACGT: sequence and
    quality of length 4 give a sequence and a quality of length 8. *)
Lemma tagging_keeps_sequence_and_quality_aligned_witness :
  exists printed out,
    process_single_file (world_of three_reads) (sample_path, "ACGT", 10000%Z)
    = (printed, Ok out) /\
    nth_error out 0 = Some ("@r1", "ACGTACGT", "+", "IIIIFFFF") /\
    String.length "ACGTACGT" = String.length "IIIIFFFF" /\
    String.length "IIIIFFFF" = String.length "ACGT" + String.length "ACGT".
Proof.
  destruct (tagging_keeps_sequence_and_quality_aligned
              (world_of three_reads) sample_path "ACGT" 10000%Z)
    as (printed & out & Hp & Hrec).
  exists printed, out. split; [exact Hp|].
  assert (Hout : out = emitted "ACGT" 10000 three_reads).
  { rewrite (process_single_file_lines (world_of three_reads) sample_path "ACGT" 10000
               three_reads eq_refl) in Hp.
    now injection Hp as _ <-. }
  assert (H0 : 0 < length out) by (rewrite Hout; vm_compute; lia).
  destruct (Hrec 0 H0) as (h & ts & qh & tq & Hnth & Hts & Htq & _ & _ & Hlen).
  rewrite Hout in Hnth. vm_compute in Hnth. injection Hnth as <- <- <- <-.
  split; [now rewrite Hout|]. apply Hlen. reflexivity.
Defined.

(** Every readable file has a first blank header position: the end of
    the input reads as an empty line. *)
Lemma first_blank_header_exists (ls : list string) : exists j, first_blank_header ls j.
Proof.
  exists (length (take_while header_present (frames ls))). split.
  - assert (Hstop := take_while_stop header_present (frames ls)).
    rewrite nth_error_frames in Hstop. unfold blank.
    destruct (Nat.ltb_spec (4 * length (take_while header_present (frames ls))) (length ls)).
    + unfold header_present, frame_at, raw_header in Hstop. cbn [fst] in Hstop.
      destruct (strip (line_at ls _)); [reflexivity | discriminate].
    + unfold line_at. now rewrite nth_overflow by lia.
  - intros i Hi.
    destruct (take_while_nth header_present (frames ls) i Hi) as (_ & x & Hx & Hf).
    rewrite nth_error_frames in Hx.
    destruct (4 * i <? length ls)%nat; [|discriminate]. injection Hx as <-.
    unfold header_present, frame_at, raw_header in Hf. cbn [fst] in Hf.
    unfold blank. intro Hb. rewrite Hb in Hf. discriminate.
Qed.

(** C10, as the code has it.  On a readable file, let [j] be the first
    record position whose header line is blank once stripped (the end of
    the input reads as an empty line, so there is one).  When the [j]
    records before it fit in the chunk, the tagger returns, without any
    report, exactly these [j] records: reading stops at position [j] and
    nothing from there on is returned.  Only the header line is tested:
    each returned record is made of the four lines at its position,
    stripped, whatever the sequence, quality header and quality lines
    are; when they are blank the record carries them as empty strings. *)
Theorem reading_stops_at_first_blank_header
        (w : world) (p : Path) (barcode : string) (chunk_size : Z) (ls : list string) :
  open_input w p = Ok (map Line ls) ->
  exists out,
    process_single_file w (p, barcode, chunk_size) = ([], Ok out) /\
    (exists j, first_blank_header ls j) /\
    (forall j, first_blank_header ls j -> (Z.of_nat j <= chunk_size)%Z ->
       length out = j) /\
    (forall i, i < length out ->
       nth_error out i
       = Some (strip (line_at ls (4 * i)),
               (barcode ++ strip (line_at ls (4 * i + 1)))%string,
               strip (line_at ls (4 * i + 2)),
               (str_mul "I" (String.length barcode) ++ strip (line_at ls (4 * i + 3)))%string)) /\
    (forall i, i < length out ->
       blank (line_at ls (4 * i + 1)) ->
       blank (line_at ls (4 * i + 2)) ->
       blank (line_at ls (4 * i + 3)) ->
       nth_error out i
       = Some (strip (line_at ls (4 * i)), barcode, "", str_mul "I" (String.length barcode))).
Proof.
  intro Hopen. exists (emitted barcode chunk_size ls).
  split; [now apply process_single_file_lines|].
  split; [apply first_blank_header_exists|].
  split; [intros j Hj Hfit; rewrite (emitted_length _ _ _ _ Hj); lia|].
  split.
  - intros i Hi. now destruct (emitted_nth _ _ _ _ Hi) as [-> _].
  - intros i Hi Hs Hqh Hq. destruct (emitted_nth _ _ _ _ Hi) as [-> _].
    unfold frame_at, tag. unfold blank in Hs, Hqh, Hq.
    now rewrite Hs, Hqh, Hq, !append_empty_r.
Qed.

Lemma reading_stops_at_first_blank_header_witness :
  exists out,
    process_single_file (world_of blank_header_file) (sample_path, "AC", 10000%Z)
    = ([], Ok out) /\
    (exists j, first_blank_header blank_header_file j) /\
    (forall j, first_blank_header blank_header_file j -> (Z.of_nat j <= 10000)%Z ->
       length out = j) /\
    (forall i, i < length out ->
       nth_error out i
       = Some (strip (line_at blank_header_file (4 * i)),
               ("AC" ++ strip (line_at blank_header_file (4 * i + 1)))%string,
               strip (line_at blank_header_file (4 * i + 2)),
               (str_mul "I" (String.length "AC")
                ++ strip (line_at blank_header_file (4 * i + 3)))%string)) /\
    (forall i, i < length out ->
       blank (line_at blank_header_file (4 * i + 1)) ->
       blank (line_at blank_header_file (4 * i + 2)) ->
       blank (line_at blank_header_file (4 * i + 3)) ->
       nth_error out i
       = Some (strip (line_at blank_header_file (4 * i)), "AC", "",
               str_mul "I" (String.length "AC"))).
Proof.
  apply (reading_stops_at_first_blank_header
           (world_of blank_header_file) sample_path "AC" 10000%Z blank_header_file).
  reflexivity.
Defined.

(** Three records, none of them with a blank header line, and a chunk
    size of 2: reading stops after the second record, at a header
    position that is never read; the first blank header line is the end
    of the input, at position 3. *)
Lemma reading_stops_at_chunk_size_too :
  first_blank_header three_reads 3 /\
  process_single_file (world_of three_reads) (sample_path, "AC", 2%Z)
  = ([], Ok [("@r1", "ACACGT", "+", "IIFFFF"); ("@r2", "ACGGA", "+", "IIF:F")]) /\
  ~ (exists out,
       process_single_file (world_of three_reads) (sample_path, "AC", 2%Z) = ([], Ok out) /\
       length out = 3).
Proof.
  split; [|split].
  - split; [reflexivity|]. intros i Hi Hb.
    destruct i as [|[|[|i]]]; [| | |lia]; vm_compute in Hb; discriminate Hb.
  - reflexivity.
  - intros (out & Hout & Hlen). vm_compute in Hout. injection Hout as <-.
    discriminate Hlen.
Qed.

(** The sample file with a blank line at the third header position: the
    record after it is lost, the record of empty lines before it is kept. *)
Example blank_header_file_result :
  process_single_file (world_of blank_header_file) (sample_path, "AC", 10000%Z)
  = ([], Ok [("@r1", "ACACGT", "+", "IIFFFF"); ("@e", "AC", "", "II")]).
Proof.
  rewrite (process_single_file_lines _ _ _ _ blank_header_file) by reflexivity.
  vm_compute. reflexivity.
Qed.

(* ================================================================== *)
(** * The coordinator and the writer *)
(* ================================================================== *)

Section Coordinator.

Variable w : world.

Lemma store_set_same (fs : store) (path : string) (c : content) :
  store_set fs path c path = Some c.
Proof. unfold store_set. now rewrite String.eqb_refl. Qed.

Lemma store_set_other (fs : store) (path q : string) (c : content) :
  q <> path -> store_set fs path c q = fs q.
Proof.
  intro H. unfold store_set. destruct (String.eqb_spec q path); [contradiction | reflexivity].
Qed.

(** A worker returns a list of records, whatever its file does. *)
Lemma process_single_file_returns (t : task) (chunk_size : Z) :
  exists printed,
    process_single_file w (fst t, snd t, chunk_size) = (printed, Ok (returned w chunk_size t)).
Proof.
  unfold returned, process_single_file.
  destruct (read_file w (fst t) (snd t) chunk_size) as [seqs|e] eqn:E.
  - now exists [].
  - rewrite (read_file_raises w _ _ _ _ E). eexists. reflexivity.
Qed.

(** The collecting loop: it never raises, it appends one gzip member for
    each non-empty result, in the order of completion, and it touches no
    other file. *)
Lemma collect_spec (output_file : string) (chunk_size : Z) (n_files : nat)
      (completed : list task) (st : state) (total processed : nat) (c0 : content) :
  files st output_file = Some c0 ->
  exists st',
    collect w output_file chunk_size n_files completed st total processed
    = (st', Ok (total + length (flat_map (returned w chunk_size) completed))) /\
    files st' output_file = Some (c0 ++ flat_map (batch w chunk_size) completed) /\
    (forall q, q <> output_file -> files st' q = files st q).
Proof.
  revert st total processed c0.
  induction completed as [|[file_path barcode] rest IH]; intros st total processed c0 Hc0.
  - exists st. cbn [collect flat_map length]. rewrite Nat.add_0_r, app_nil_r. auto.
  - cbn [collect flat_map].
    destruct (process_single_file_returns (file_path, barcode) chunk_size) as [printed Hp].
    cbn [fst snd] in Hp. rewrite Hp. unfold batch at 1.
    destruct (returned w chunk_size (file_path, barcode)) as [|r rs] eqn:Hret.
    + edestruct (IH (print ("⚠ No sequences found in " ++ path_name file_path)%string
                           (print_all printed st)) total processed c0) as (st' & H1 & H2 & H3);
        [exact Hc0|].
      exists st'. cbn [app]. repeat split; assumption.
    + set (st1 := write_sequences_to_file (r :: rs) output_file (print_all printed st)).
      assert (Hst1 : files st1 output_file
                     = Some (c0 ++ [GzMember (join (map record_text (r :: rs)))])).
      { unfold st1, write_sequences_to_file, append_file. cbn [files print_all].
        rewrite Hc0. apply store_set_same. }
      assert (Hst1' : forall q, q <> output_file -> files st1 q = files st q).
      { intros q Hq. unfold st1, write_sequences_to_file, append_file. cbn [files print_all].
        rewrite Hc0. now apply store_set_other. }
      edestruct (IH (print ("✓ Processed " ++ path_name file_path ++ " ("
                               ++ str_nat (length (r :: rs)) ++ " sequences) - "
                               ++ str_nat (processed + 1) ++ "/"
                               ++ str_nat n_files ++ " files")%string st1)
                    (total + length (r :: rs)) (processed + 1) _ Hst1)
        as (st' & H1 & H2 & H3).
      exists st'. split; [|split].
      * rewrite H1. rewrite length_app. f_equal. f_equal. lia.
      * rewrite H2. now rewrite <- app_assoc.
      * intros q Hq. rewrite (H3 q Hq). now apply Hst1'.
Qed.

(** [process_files_parallel] with at least one worker. *)
Lemma process_files_parallel_spec (order : list nat) (fastq_files : list Path)
      (barcodes : list string) (output_file : string) (num_cores chunk_size : Z)
      (st : state) :
  (0 < num_cores)%Z ->
  let completed := as_completed (combine fastq_files barcodes) order in
  exists st',
    process_files_parallel w order fastq_files barcodes output_file num_cores chunk_size st
    = (st', Ok (length (flat_map (returned w chunk_size) completed))) /\
    files st' output_file = Some (GzMember "" :: flat_map (batch w chunk_size) completed) /\
    (forall q, q <> output_file -> files st' q = files st q).
Proof.
  intros Hcores completed. unfold process_files_parallel.
  destruct (Z.leb_spec num_cores 0) as [H|_]; [lia|].
  match goal with
  | |- context [collect w output_file chunk_size ?n ?c ?s 0 0] =>
      destruct (collect_spec output_file chunk_size n c s 0 0 [GzMember ""])
        as (st' & H1 & H2 & H3)
  end.
  { cbn [print files]. apply store_set_same. }
  exists st'. split; [exact H1|]. split; [exact H2|].
  intros q Hq. rewrite (H3 q Hq). cbn [print files]. now apply store_set_other.
Qed.

(** [process_files_parallel] with no worker: the pool cannot be made. *)
Lemma process_files_parallel_no_worker (order : list nat) (fastq_files : list Path)
      (barcodes : list string) (output_file : string) (num_cores chunk_size : Z)
      (st : state) :
  (num_cores <= 0)%Z ->
  exists st',
    process_files_parallel w order fastq_files barcodes output_file num_cores chunk_size st
    = (st', Raise (mkExn ValueError "max_workers must be greater than 0")) /\
    files st' output_file = Some [GzMember ""] /\
    (forall q, q <> output_file -> files st' q = files st q).
Proof.
  intro Hcores. unfold process_files_parallel.
  destruct (Z.leb_spec num_cores 0) as [_|H]; [|lia].
  eexists. split; [reflexivity|]. cbn [print files].
  split; [apply store_set_same | intros q Hq; now apply store_set_other].
Qed.

Lemma batch_is_gzip (chunk_size : Z) (ts : list task) :
  Forall is_gzip_member (flat_map (batch w chunk_size) ts).
Proof.
  apply Forall_flat_map, Forall_forall. intros t _. unfold batch.
  destruct (returned w chunk_size t); repeat constructor. now eexists.
Qed.

Lemma batch_text (chunk_size : Z) (ts : list task) :
  join (map segment_text (flat_map (batch w chunk_size) ts))
  = join (map record_text (flat_map (returned w chunk_size) ts)).
Proof.
  induction ts as [|t ts IH]; [reflexivity|].
  cbn [flat_map]. rewrite !map_app, !join_app, IH. f_equal.
  unfold batch. destruct (returned w chunk_size t); [reflexivity|].
  cbn [map segment_text]. rewrite join_cons. apply append_empty_r.
Qed.

Lemma batch_nil (chunk_size : Z) (ts : list task) :
  (forall t, In t ts -> returned w chunk_size t = []) ->
  flat_map (batch w chunk_size) ts = [].
Proof.
  induction ts as [|t ts IH]; intro H; [reflexivity|].
  cbn [flat_map]. unfold batch at 1. rewrite (H t) by now left.
  apply IH. intros t' Ht'. apply H. now right.
Qed.

Lemma as_completed_incl (submitted : list task) (order : list nat) (t : task) :
  In t (as_completed submitted order) -> In t submitted.
Proof.
  unfold as_completed. intro H. apply in_flat_map in H. destruct H as (i & _ & H).
  destruct (nth_error submitted i) eqn:E; [|destruct H].
  destruct H as [<-|[]]. eapply nth_error_In; eauto.
Qed.

End Coordinator.

(* ================================================================== *)
(** * The entry point *)
(* ================================================================== *)

Section Paths.

Lemma chars_append (s t : string) :
  list_ascii_of_string (s ++ t) = list_ascii_of_string s ++ list_ascii_of_string t.
Proof. induction s as [|c s IH]; simpl; [reflexivity | now rewrite IH]. Qed.

Lemma endswith_inv (s suffix : string) :
  endswith s suffix = true -> exists pre, s = (pre ++ suffix)%string.
Proof.
  induction s as [|c s IH]; cbn [endswith].
  - destruct suffix; [now exists "" | discriminate].
  - intro H. apply orb_prop in H. destruct H as [H|H].
    + apply String.eqb_eq in H. now exists "".
    + destruct (IH H) as [pre ->]. now exists (String c pre).
Qed.

Lemma endswith_append (s suffix : string) : endswith (s ++ suffix) suffix = true.
Proof.
  induction s as [|c s IH]; cbn [append endswith].
  - destruct suffix; cbn [endswith str_is_empty]; [reflexivity|].
    now rewrite String.eqb_refl.
  - rewrite IH. apply orb_true_r.
Qed.

(** Two suffixes whose last characters differ somewhere cannot both end
    a name: compare the reversed characters. *)
Lemma suffix_clash (a b : string) :
  (forall x y, rev (list_ascii_of_string a) ++ x <> rev (list_ascii_of_string b) ++ y) ->
  forall name, endswith name a = true -> endswith name b = true -> False.
Proof.
  intros Hab name Ha Hb.
  destruct (endswith_inv _ _ Ha) as [p1 E1]. destruct (endswith_inv _ _ Hb) as [p2 E2].
  apply (Hab (rev (list_ascii_of_string p1)) (rev (list_ascii_of_string p2))).
  rewrite <- !rev_app_distr, <- !chars_append. now rewrite <- E1, <- E2.
Qed.

Lemma glob_names (dir : string) (listing : list string) (suffix : string) :
  map path_name (glob dir listing suffix) = filter (fun name => endswith name suffix) listing.
Proof. unfold glob. rewrite map_map. cbn [path_name]. apply map_id. Qed.

(** The four patterns select different entries, so a directory, whose
    entries have different names, gives files with different names. *)
Lemma glob_patterns_names_NoDup (dir : string) (listing : list string) :
  NoDup listing -> NoDup (map path_name (glob_patterns dir listing)).
Proof.
  intro Hnd. unfold glob_patterns. cbn [flat_map].
  rewrite !map_app, !glob_names. cbn [map]. rewrite app_nil_r.
  repeat (apply NoDup_app;
          [now apply NoDup_filter| |
           intros name Hin Hin2; apply filter_In in Hin; destruct Hin as [_ Hin];
           repeat (apply in_app_or in Hin2;
                   destruct Hin2 as [Hin2|Hin2];
                   [apply filter_In in Hin2; destruct Hin2 as [_ Hin2];
                    revert Hin Hin2; apply suffix_clash; intros x y; simpl; congruence|]);
           try (apply filter_In in Hin2; destruct Hin2 as [_ Hin2];
                revert Hin Hin2; apply suffix_clash; intros x y; simpl; congruence)]).
  now apply NoDup_filter.
Qed.

Lemma glob_patterns_NoDup (dir : string) (listing : list string) :
  NoDup listing -> NoDup (glob_patterns dir listing).
Proof. intro H. eapply NoDup_map_inv. apply glob_patterns_names_NoDup, H. Qed.

(** ** The sizes of the files *)

Lemma sum_sizes_ok (stat : stat_fn) (fastq_files : list Path) (total : Z) :
  forallb (has_size stat) fastq_files = true ->
  exists total_size, sum_sizes stat fastq_files total = Ok total_size.
Proof.
  revert total. induction fastq_files as [|f rest IH]; intros total H; simpl.
  - now exists total.
  - simpl in H. apply andb_true_iff in H. destruct H as [Hf Hrest].
    unfold has_size in Hf. destruct (stat f) as [msg|size]; [discriminate|].
    now apply IH.
Qed.

Lemma sum_sizes_fails (stat : stat_fn) (fastq_files : list Path) (total : Z) :
  forallb (has_size stat) fastq_files = false ->
  exists msg, sum_sizes stat fastq_files total = Raise (mkExn (IOFailure OSError) msg).
Proof.
  revert total. induction fastq_files as [|f rest IH]; intros total H; simpl in *.
  - discriminate.
  - unfold has_size in H at 1. destruct (stat f) as [msg|size].
    + now exists msg.
    + now apply IH.
Qed.

(** [get_file_stats] returns when every file found has a size, and then
    its first result is the files found. *)
Lemma get_file_stats_ok (stat : stat_fn) (dir : string) (listing : list string) :
  forallb (has_size stat) (glob_patterns dir listing) = true ->
  exists total_size avg_size,
    get_file_stats stat dir listing = Ok (glob_patterns dir listing, total_size, avg_size).
Proof.
  intro H. unfold get_file_stats.
  destruct (glob_patterns dir listing) as [|p0 rest] eqn:E.
  - now exists 0%Z, 0%Q.
  - destruct (sum_sizes_ok stat (p0 :: rest) 0 H) as [total Htotal].
    rewrite Htotal. cbn [Py.bind]. eauto.
Qed.

Lemma get_file_stats_fails (stat : stat_fn) (dir : string) (listing : list string) :
  forallb (has_size stat) (glob_patterns dir listing) = false ->
  exists msg, get_file_stats stat dir listing = Raise (mkExn (IOFailure OSError) msg).
Proof.
  intro H. unfold get_file_stats.
  destruct (glob_patterns dir listing) as [|p0 rest] eqn:E; [discriminate|].
  destruct (sum_sizes_fails stat (p0 :: rest) 0 H) as [msg Hmsg].
  rewrite Hmsg. now exists msg.
Qed.

Lemma get_file_stats_inv (stat : stat_fn) (dir : string) (listing : list string)
      (fastq_files : list Path) (total_size : Z) (avg_size : Q) :
  get_file_stats stat dir listing = Ok (fastq_files, total_size, avg_size) ->
  fastq_files = glob_patterns dir listing /\
  forallb (has_size stat) fastq_files = true.
Proof.
  intro H. destruct (forallb (has_size stat) (glob_patterns dir listing)) eqn:E.
  - destruct (get_file_stats_ok stat dir listing E) as (t & a & Hok).
    rewrite Hok in H. injection H as <- _ _. now split.
  - destruct (get_file_stats_fails stat dir listing E) as (msg & Hmsg).
    rewrite Hmsg in H. discriminate.
Qed.

Lemma estimate_processing_time_ok (num_files : Z) (total_size_gb : Q) (num_cores : Z) :
  num_cores <> 0%Z ->
  exists estimated_time,
    estimate_processing_time num_files total_size_gb num_cores = Ok estimated_time.
Proof.
  intro H. unfold estimate_processing_time.
  destruct (Z.eqb_spec num_cores 0) as [E|E]; [contradiction|]. eauto.
Qed.

Lemma startswith_length (s prefix : string) :
  startswith s prefix = true -> String.length prefix <= String.length s.
Proof.
  revert s. induction prefix as [|c prefix IH]; intros [|d s]; simpl; try lia; try discriminate.
  intro H. apply andb_prop in H. destruct H as [_ H]. apply IH in H. lia.
Qed.

Lemma startswith_refl (s : string) : startswith s s = true.
Proof. induction s as [|c s IH]; simpl; [reflexivity|]. now rewrite Ascii.eqb_refl. Qed.

Lemma replace_go_length_ge (old new : string) (skip : nat) (s : string) :
  1 <= String.length old -> String.length old <= String.length new ->
  String.length s <= String.length (replace_go old new skip s) + skip.
Proof.
  intros Hold Hon. revert skip. induction s as [|c s IH]; intro skip; [simpl; lia|].
  cbn [replace_go]. destruct skip as [|k].
  - destruct (startswith (String c s) old) eqn:Hsw.
    + apply startswith_length in Hsw. rewrite append_length.
      specialize (IH (String.length old - 1)). simpl in *. lia.
    + specialize (IH 0). simpl in *. lia.
  - specialize (IH k). simpl. lia.
Qed.

(** Replacing a suffix by a longer text makes the string longer. *)
Lemma replace_suffix_longer (old new s : string) :
  1 <= String.length old -> String.length old < String.length new ->
  endswith s old = true ->
  String.length s < String.length (replace s old new).
Proof.
  intros Hold Hon. unfold replace. induction s as [|c s IH]; cbn [endswith].
  - destruct old; simpl in *; [lia | discriminate].
  - intro H. cbn [replace_go].
    destruct (startswith (String c s) old) eqn:Hsw.
    + apply startswith_length in Hsw. rewrite append_length.
      assert (Hge := replace_go_length_ge old new (String.length old - 1) s Hold).
      simpl in *. lia.
    + apply orb_prop in H. destruct H as [H|H].
      * apply String.eqb_eq in H. rewrite H, startswith_refl in Hsw. discriminate.
      * apply IH in H. simpl. lia.
Qed.

Lemma normalize_output_endswith (output_file : string) :
  endswith (normalize_output output_file) ".fastq.gz" = true.
Proof.
  unfold normalize_output. destruct (endswith output_file ".fastq.gz") eqn:E; [exact E|].
  apply endswith_append.
Qed.

(** The mapping file is not the output file. *)
Lemma mapping_file_differs (output_file : string) :
  mapping_file_of (normalize_output output_file) <> normalize_output output_file.
Proof.
  intro H.
  assert (Hl := replace_suffix_longer ".fastq.gz" "_barcode_mapping.txt"
                  (normalize_output output_file)).
  unfold mapping_file_of in H. rewrite H in Hl.
  specialize (Hl ltac:(simpl; lia) ltac:(simpl; lia) (normalize_output_endswith _)). lia.
Qed.

End Paths.

Section Run.

Lemma as_completed_in_order {A} (pre l : list A) :
  flat_map (fun i => match nth_error (pre ++ l) i with
                     | Some t => [t]
                     | None => []
                     end) (seq (length pre) (length l)) = l.
Proof.
  revert pre. induction l as [|x l IH]; intro pre; [reflexivity|].
  cbn [length seq flat_map]. rewrite nth_error_app2, Nat.sub_diag by lia.
  cbn [nth_error app]. f_equal.
  specialize (IH (pre ++ [x])). rewrite <- app_assoc, length_app in IH.
  cbn [app length] in IH. rewrite Nat.add_1_r in IH. exact IH.
Qed.

(** When every submitted future completes once, the results are taken
    once for each task. *)
Lemma as_completed_Permutation (submitted : list task) (order : list nat) :
  Permutation order (seq 0 (length submitted)) ->
  Permutation (as_completed submitted order) submitted.
Proof.
  intro Hp. unfold as_completed.
  rewrite (Permutation_flat_map _ Hp).
  change submitted with ([] ++ submitted) at 1.
  change 0 with (length (@nil task)).
  now rewrite as_completed_in_order.
Qed.

Lemma dict_set_fresh {V} (d : dict V) (k : string) (v : V) :
  ~ In k (map fst d) -> dict_set d k v = d ++ [(k, v)].
Proof.
  induction d as [|[k' v'] d IH]; cbn [dict_set map fst In app]; [reflexivity|].
  intro H. destruct (String.eqb_spec k' k) as [->|_]; [tauto|].
  rewrite IH; tauto.
Qed.

Lemma skipn_nth_error {A} (l : list A) (i : nat) (x : A) :
  nth_error l i = Some x -> skipn i l = x :: skipn (S i) l.
Proof.
  revert l. induction i as [|i IH]; intros [|a l]; simpl; try discriminate.
  - now intros [= ->].
  - apply IH.
Qed.

(** With a barcode for each file and files of different names, the
    assignment loop gives the pairs in the order of the files. *)
Lemma assign_loop_ok (fastq_files : list Path) (barcodes : list string) (i : nat)
      (acc : dict string) :
  NoDup (map fst acc ++ map path_name fastq_files) ->
  i + length fastq_files <= length barcodes ->
  assign_loop i fastq_files barcodes acc
  = Ok (acc ++ combine (map path_name fastq_files) (skipn i barcodes)).
Proof.
  revert i acc. induction fastq_files as [|p rest IH]; intros i acc Hnd Hlen.
  - simpl. now rewrite app_nil_r.
  - cbn [assign_loop length map] in *. unfold index.
    destruct (nth_error barcodes i) as [b|] eqn:Hb;
      [|apply nth_error_None in Hb; lia].
    cbn [bind]. rewrite dict_set_fresh.
    2:{ apply NoDup_remove_2 in Hnd. intro Hin. apply Hnd, in_or_app. now left. }
    rewrite IH.
    + rewrite <- app_assoc. cbn [app]. do 3 f_equal.
      assert (Hsk := skipn_nth_error _ _ _ Hb).
      now rewrite Hsk.
    + rewrite map_app, <- app_assoc. exact Hnd.
    + lia.
Qed.

Lemma mapping_rows_combine (fastq_files : list Path) (barcodes : list string) :
  map (fun kv : string * string => (fst kv ++ tab ++ snd kv ++ nl)%string)
      (combine (map path_name fastq_files) barcodes)
  = mapping_rows fastq_files barcodes.
Proof.
  unfold mapping_rows. revert barcodes.
  induction fastq_files as [|p rest IH]; intros [|b barcodes]; try reflexivity.
  cbn [map combine fst snd]. now rewrite IH.
Qed.

Lemma mapping_text_rows (fastq_files : list Path) (barcodes : list string) :
  mapping_text (combine (map path_name fastq_files) barcodes)
  = ("Original_File" ++ tab ++ "Barcode" ++ nl
     ++ join (mapping_rows fastq_files barcodes))%string.
Proof. unfold mapping_text. rewrite mapping_rows_combine. reflexivity. Qed.

Lemma mapping_rows_length (fastq_files : list Path) (barcodes : list string) :
  length fastq_files <= length barcodes ->
  length (mapping_rows fastq_files barcodes) = length fastq_files.
Proof. intro H. unfold mapping_rows, task. rewrite length_map, length_combine. lia. Qed.

Lemma generate_barcodes_enough (k : nat) (L : Z) :
  (0 <= L)%Z -> k <= 4 ^ Z.to_nat L ->
  generate_barcodes (Z.of_nat k) L = Ok (firstn k (lex_enumeration (Z.to_nat L))) /\
  length (firstn k (lex_enumeration (Z.to_nat L))) = k.
Proof.
  intros HL Hk. split.
  - rewrite <- (Z2Nat.id L HL) at 1. apply generate_barcodes_prefix.
  - rewrite length_firstn, lex_enumeration_length. lia.
Qed.

Variables (cpu_count : Z) (listing : list string) (w : world) (order : list nat).

(** A run with files that all have a size, a barcode for each of them
    and at least one worker: the mapping file holds the header and one
    row for each file in input order; the output file holds the empty
    member and the batches in the order of completion; no other file is
    written; and the run returns normally, unless no time has passed,
    when the division of the last statistic is caught. *)
Lemma main_valid_run (stat : stat_fn) (processing_time : Q) (args : arguments)
      (st : state) (fastq_files : list Path) (total_size : Z) (avg_size : Q)
      (barcodes : list string) :
  let out := normalize_output (output_file args) in
  NoDup listing ->
  get_file_stats stat (input_dir args) listing = Ok (fastq_files, total_size, avg_size) ->
  fastq_files <> [] ->
  generate_barcodes (Z.of_nat (length fastq_files)) (barcode_length args) = Ok barcodes ->
  length fastq_files <= length barcodes ->
  (0 < effective_cores cpu_count (cores args))%Z ->
  exists st',
    main cpu_count listing stat w order processing_time args st
    = (st', if Qeq_bool processing_time 0 then SysExit 1 else Returned) /\
    files st' out
    = Some (GzMember ""
            :: flat_map (batch w (chunk_size args))
                        (as_completed (combine fastq_files barcodes) order)) /\
    files st' (mapping_file_of out)
    = Some [Raw ("Original_File" ++ tab ++ "Barcode" ++ nl
                 ++ join (mapping_rows fastq_files barcodes))%string] /\
    (forall q, q <> out -> q <> mapping_file_of out -> files st' q = files st q).
Proof.
  intros out Hnd Hstat Hne Hgen Hlen Hcores. unfold main. rewrite Hstat.
  apply get_file_stats_inv in Hstat. destruct Hstat as [Hff _].
  fold out.
  destruct fastq_files as [|p0 rest] eqn:Hfiles; [contradiction|].
  rewrite <- Hfiles in *.
  match goal with
  | |- context [estimate_processing_time ?n ?g ?c] =>
      destruct (estimate_processing_time_ok n g c) as [estimated_time ->]; [lia|]
  end.
  rewrite Hgen.
  rewrite (assign_loop_ok fastq_files barcodes 0 []).
  2:{ cbn [map app]. rewrite Hff. now apply glob_patterns_names_NoDup. }
  2:{ lia. }
  cbn [app skipn].
  match goal with
  | |- context [process_files_parallel w order fastq_files barcodes out ?c ?k ?s] =>
      destruct (process_files_parallel_spec w order fastq_files barcodes out c k s Hcores)
        as (st' & H1 & H2 & H3)
  end.
  rewrite H1.
  assert (Hm : files st' (mapping_file_of out)
               = Some [Raw ("Original_File" ++ tab ++ "Barcode" ++ nl
                            ++ join (mapping_rows fastq_files barcodes))%string]).
  { rewrite H3 by apply mapping_file_differs. cbn [files]. unfold write_file.
    rewrite store_set_same, mapping_text_rows. reflexivity. }
  assert (Hq : forall q, q <> out -> q <> mapping_file_of out -> files st' q = files st q).
  { intros q Hq Hqm. rewrite (H3 q Hq). cbn [files]. unfold write_file.
    now apply store_set_other. }
  destruct (Qeq_bool processing_time 0).
  - eexists. split; [reflexivity|]. cbn [print files]. auto.
  - exists st'. auto.
Qed.

End Run.

(* ================================================================== *)
(** * Properties of a run *)
(* ================================================================== *)

Lemma map_fst_combine {A B} (l : list A) (l' : list B) :
  length l <= length l' -> map fst (combine l l') = l.
Proof.
  revert l'. induction l as [|a l IH]; intros [|b l'] H; simpl in *;
    try lia; try reflexivity.
  f_equal. apply IH. lia.
Qed.

Lemma returned_readable (w : world) (chunk_size : Z) (p : Path) (b : string)
      (ls : list string) :
  open_input w p = Ok (map Line ls) ->
  returned w chunk_size (p, b) = emitted b chunk_size ls.
Proof.
  intro Hopen. unfold returned. cbn [fst snd].
  now rewrite (process_single_file_lines _ _ _ _ _ Hopen).
Qed.

Lemma process_single_file_failure (w : world) (p : Path) (b : string)
      (chunk_size : Z) (e : exn) :
  read_file w p b chunk_size = Raise e ->
  process_single_file w (p, b, chunk_size)
  = ([("Error processing " ++ str_path p ++ ": " ++ str_exn e)%string], Ok []).
Proof.
  intro H. unfold process_single_file. rewrite H.
  now rewrite (read_file_raises _ _ _ _ _ H).
Qed.

(** What a run leaves in the mapping file, whatever else it does. *)
Lemma main_mapping_file (cpu_count : Z) (listing : list string) (stat : stat_fn)
      (w : world) (order : list nat) (processing_time : Q) (args : arguments)
      (st : state) :
  let m := mapping_file_of (normalize_output (output_file args)) in
  files (fst (main cpu_count listing stat w order processing_time args st)) m
  = match get_file_stats stat (input_dir args) listing with
    | Raise _ => files st m
    | Ok (fastq_files, _, _) =>
        match fastq_files with
        | [] => files st m
        | _ :: _ =>
            if (effective_cores cpu_count (cores args) =? 0)%Z then files st m
            else
              match generate_barcodes (Z.of_nat (length fastq_files))
                                      (barcode_length args) with
              | Raise _ => files st m
              | Ok barcodes =>
                  match assign_loop 0 fastq_files barcodes [] with
                  | Raise _ => files st m
                  | Ok barcode_mapping => Some [Raw (mapping_text barcode_mapping)]
                  end
              end
        end
    end.
Proof.
  intro m. unfold main.
  destruct (get_file_stats stat (input_dir args) listing)
    as [[[fastq_files total_size] avg_size]|e]; [|reflexivity].
  destruct fastq_files as [|p0 rest] eqn:Hff; [reflexivity|]. rewrite <- Hff.
  unfold estimate_processing_time.
  destruct (effective_cores cpu_count (cores args) =? 0)%Z; [reflexivity|].
  destruct (generate_barcodes _ _) as [barcodes|e]; [|reflexivity].
  destruct (assign_loop 0 fastq_files barcodes []) as [mapping|e]; [|reflexivity].
  match goal with
  | |- context [process_files_parallel w order fastq_files barcodes ?o ?c ?k ?s] =>
      destruct (Z.leb_spec c 0) as [Hc|Hc];
      [destruct (process_files_parallel_no_worker w order fastq_files barcodes o c k s Hc)
        as (st' & H1 & _ & H3)
      |destruct (process_files_parallel_spec w order fastq_files barcodes o c k s Hc)
        as (st' & H1 & _ & H3)]
  end; rewrite H1; try destruct (Qeq_bool processing_time 0);
    cbn [fst files exn_cls print];
    (rewrite H3 by apply mapping_file_differs); cbn [files]; unfold write_file;
    apply store_set_same.
Qed.

(** C9.  In every call of [process_files_parallel], whatever the output
    path held before: after the call the output file exists and is a
    sequence of gzip members, the first of them the empty member written
    when the file is created, followed only by what the results of this
    call appended; what the file held before is gone; and when every
    work unit gives no record (its file failed or was empty) the file is
    exactly the empty member, whose text is empty. *)
Theorem output_file_is_created_empty (w : world) (order : list nat)
        (fastq_files : list Path) (barcodes : list string) (output_file : string)
        (num_cores chunk_size : Z) (st : state) :
  exists appended,
    files (fst (process_files_parallel w order fastq_files barcodes output_file
                                       num_cores chunk_size st)) output_file
    = Some (GzMember "" :: appended) /\
    Forall is_gzip_member (GzMember "" :: appended) /\
    appended = (if (0 <? num_cores)%Z
                then flat_map (batch w chunk_size)
                              (as_completed (combine fastq_files barcodes) order)
                else []) /\
    (forall earlier : state,
        files (fst (process_files_parallel w order fastq_files barcodes output_file
                                           num_cores chunk_size earlier)) output_file
        = Some (GzMember "" :: appended)) /\
    ((forall t, In t (combine fastq_files barcodes) -> returned w chunk_size t = []) ->
     appended = [] /\ content_text (GzMember "" :: appended) = "").
Proof.
  destruct (Z.ltb_spec 0 num_cores) as [Hc|Hc].
  - exists (flat_map (batch w chunk_size) (as_completed (combine fastq_files barcodes) order)).
    destruct (process_files_parallel_spec w order fastq_files barcodes output_file
                num_cores chunk_size st Hc) as (st' & H1 & H2 & _).
    rewrite H1. split; [exact H2|]. split.
    { constructor; [now exists "" | apply batch_is_gzip]. }
    split; [reflexivity|]. split.
    + intro earlier.
      destruct (process_files_parallel_spec w order fastq_files barcodes output_file
                  num_cores chunk_size earlier Hc) as (st2 & H1' & H2' & _).
      rewrite H1'. exact H2'.
    + intro Hall. rewrite batch_nil; [split; reflexivity|].
      intros t Ht. apply Hall. eapply as_completed_incl; eauto.
  - exists [].
    destruct (process_files_parallel_no_worker w order fastq_files barcodes output_file
                num_cores chunk_size st Hc) as (st' & H1 & H2 & _).
    rewrite H1. split; [exact H2|]. split.
    { constructor; [now exists "" | constructor]. }
    split; [reflexivity|]. split.
    + intro earlier.
      destruct (process_files_parallel_no_worker w order fastq_files barcodes output_file
                  num_cores chunk_size earlier Hc) as (st2 & H1' & H2' & _).
      rewrite H1'. exact H2'.
    + intros _. split; reflexivity.
Qed.

(** Two files that cannot be read, and an output path that holds text
    from before: the call leaves the empty member there. *)
Lemma output_file_is_created_empty_witness :
  files (fst (process_files_parallel
                (fun _ _ _ => inl (mkIOError OSError "No such file or directory"))
                [1; 0] [mkPath "in" "a.fastq"; mkPath "in" "b.fq"] ["AA"; "AT"]
                "out.fastq.gz" 4 10000
                (mkState (fun _ => Some [Raw "old"]) []))) "out.fastq.gz"
  = Some [GzMember ""].
Proof.
  destruct (output_file_is_created_empty
              (fun _ _ _ => inl (mkIOError OSError "No such file or directory"))
              [1; 0] [mkPath "in" "a.fastq"; mkPath "in" "b.fq"] ["AA"; "AT"]
              "out.fastq.gz" 4 10000
              (mkState (fun _ => Some [Raw "old"]) []))
    as (appended & Hfile & _ & _ & _ & Hempty).
  rewrite Hfile. destruct Hempty as [-> _]; [|reflexivity].
  intros t Ht. simpl in Ht. destruct Ht as [<-|[<-|[]]]; reflexivity.
Defined.

(** C8, as the code has it.  Two runs on the same directory, output
    path and barcode length, each with a worker count other than 0, with
    any chunk sizes, file contents, orders of completion and clocks.
    They leave the same mapping file, from the same state of that file;
    and when [get_file_stats] returns files and there are barcodes
    enough for them, both write the header row and one row for each
    input file with its barcode, in input order, whatever was there
    before. *)
Theorem mapping_file_is_reproducible
        (listing : list string) (stat : stat_fn) (dir outf : string) (L : Z)
        (cpu1 cpu2 : Z) (w1 w2 : world) (order1 order2 : list nat) (time1 time2 : Q)
        (cores1 cores2 : option Z) (chunk1 chunk2 : Z) (st1 st2 : state) :
  let m := mapping_file_of (normalize_output outf) in
  let run1 := main cpu1 listing stat w1 order1 time1 (mkArgs dir outf L cores1 chunk1) st1 in
  let run2 := main cpu2 listing stat w2 order2 time2 (mkArgs dir outf L cores2 chunk2) st2 in
  effective_cores cpu1 cores1 <> 0%Z ->
  effective_cores cpu2 cores2 <> 0%Z ->
  (files st1 m = files st2 m -> files (fst run1) m = files (fst run2) m) /\
  (forall fastq_files total_size avg_size,
      get_file_stats stat dir listing = Ok (fastq_files, total_size, avg_size) ->
      let k := length fastq_files in
      NoDup listing -> 1 <= k -> (0 <= L)%Z -> k <= 4 ^ Z.to_nat L ->
      exists barcodes,
        generate_barcodes (Z.of_nat k) L = Ok barcodes /\
        length (mapping_rows fastq_files barcodes) = k /\
        files (fst run1) m
        = Some [Raw ("Original_File" ++ tab ++ "Barcode" ++ nl
                     ++ join (mapping_rows fastq_files barcodes))%string] /\
        files (fst run2) m = files (fst run1) m).
Proof.
  intros m run1 run2 Hc1 Hc2.
  assert (H1 := main_mapping_file cpu1 listing stat w1 order1 time1
                  (mkArgs dir outf L cores1 chunk1) st1).
  assert (H2 := main_mapping_file cpu2 listing stat w2 order2 time2
                  (mkArgs dir outf L cores2 chunk2) st2).
  cbn [input_dir output_file barcode_length cores] in H1, H2.
  fold m in H1, H2. fold run1 in H1. fold run2 in H2.
  apply Z.eqb_neq in Hc1, Hc2. rewrite Hc1 in H1. rewrite Hc2 in H2.
  split.
  - intro Hsame. rewrite H1, H2, Hsame. reflexivity.
  - intros fastq_files total_size avg_size Hstat k Hnd Hk HL Hk4.
    destruct (generate_barcodes_enough k L HL Hk4) as [Hgen Hlen].
    exists (firstn k (lex_enumeration (Z.to_nat L))).
    rewrite Hstat in H1, H2.
    apply get_file_stats_inv in Hstat. destruct Hstat as [Hff _].
    assert (Hassign : assign_loop 0 fastq_files (firstn k (lex_enumeration (Z.to_nat L))) []
                      = Ok (combine (map path_name fastq_files)
                                    (firstn k (lex_enumeration (Z.to_nat L))))).
    { rewrite assign_loop_ok; [reflexivity | | fold k; lia].
      cbn [map app]. rewrite Hff. now apply glob_patterns_names_NoDup. }
    fold k in H1, H2.
    rewrite H1, H2, Hgen, Hassign, mapping_text_rows.
    destruct fastq_files as [|p0 rest] eqn:Hfiles; [simpl in k; lia|].
    split; [reflexivity|]. split; [|split; reflexivity].
    apply mapping_rows_length. fold k. lia.
Qed.

(** Two runs on the sample directory, with 4 workers and with 1, with
    different file contents, chunk sizes, orders of completion and
    clocks. *)
Lemma mapping_file_is_reproducible_witness :
  let run1 := main 4 sample_listing sample_stat sample_world [2; 0; 1] 1
                   (mkArgs "in" "out" 2 None 10000) empty_state in
  let run2 := main 16 sample_listing sample_stat (world_of three_reads) [0; 1; 2] 3
                   (mkArgs "in" "out" 2 (Some 1%Z) 5) empty_state in
  files (fst run1) "out_barcode_mapping.txt" = files (fst run2) "out_barcode_mapping.txt" /\
  exists barcodes,
    generate_barcodes 3 2 = Ok barcodes /\
    length (mapping_rows (glob_patterns "in" sample_listing) barcodes) = 3 /\
    files (fst run1) "out_barcode_mapping.txt"
    = Some [Raw ("Original_File" ++ tab ++ "Barcode" ++ nl
                 ++ join (mapping_rows (glob_patterns "in" sample_listing) barcodes))%string] /\
    files (fst run2) "out_barcode_mapping.txt" = files (fst run1) "out_barcode_mapping.txt".
Proof.
  destruct (mapping_file_is_reproducible sample_listing sample_stat "in" "out" 2
              4 16 sample_world (world_of three_reads) [2; 0; 1] [0; 1; 2] 1 3
              None (Some 1%Z) 10000 5 empty_state empty_state) as [Hsame Hrows].
  - simpl; lia.
  - simpl; lia.
  - split.
    + apply Hsame. reflexivity.
    + apply (Hrows (glob_patterns "in" sample_listing) 3000%Z
                   (inject_Z 3000 / inject_Z 3)%Q).
      * reflexivity.
      * unfold sample_listing. repeat constructor; simpl; intuition discriminate.
      * simpl; lia.
      * lia.
      * simpl; lia.
Defined.

(** C8, at an input where the code departs from it.  Two runs on the
    sample directory that differ in the worker count only: asked for 2
    workers the run writes the mapping file; asked for 0 it stops with
    an uncaught [ZeroDivisionError] in [estimate_processing_time],
    before the barcodes are generated, and writes no mapping file. *)
Lemma mapping_file_depends_on_worker_count :
  let run0 := main 4 sample_listing sample_stat sample_world [2; 0; 1] 1
                   (mkArgs "in" "out" 2 (Some 0%Z) 10000) empty_state in
  let run2 := main 4 sample_listing sample_stat sample_world [2; 0; 1] 1
                   (mkArgs "in" "out" 2 (Some 2%Z) 10000) empty_state in
  estimate_processing_time 3 (inject_Z 3000 / inject_Z (1024 ^ 3))%Q 0
  = Raise (mkExn ZeroDivisionError "division by zero") /\
  run0 = (empty_state, Uncaught (mkExn ZeroDivisionError "division by zero")) /\
  files (fst run0) "out_barcode_mapping.txt" = None /\
  snd run2 = Returned /\
  files (fst run2) "out_barcode_mapping.txt"
  = Some [Raw (("Original_File" ++ tab ++ "Barcode" ++ nl)
               ++ ("a.fastq" ++ tab ++ "AA" ++ nl)
               ++ ("c.fastq.gz" ++ tab ++ "AT" ++ nl)
               ++ ("b.fq" ++ tab ++ "AC" ++ nl))%string] /\
  files (fst run0) "out_barcode_mapping.txt" <> files (fst run2) "out_barcode_mapping.txt".
Proof.
  split; [reflexivity|]. split; [reflexivity|]. split; [reflexivity|].
  split; [vm_compute; reflexivity|]. split; [vm_compute; reflexivity|].
  vm_compute. discriminate.
Qed.

(** The mapping file of the sample run. *)
Example sample_mapping_file :
  files (fst (main 4 sample_listing sample_stat sample_world [2; 0; 1] 1
                   sample_args empty_state))
        "out_barcode_mapping.txt"
  = Some [Raw (("Original_File" ++ tab ++ "Barcode" ++ nl)
               ++ ("a.fastq" ++ tab ++ "AA" ++ nl)
               ++ ("c.fastq.gz" ++ tab ++ "AT" ++ nl)
               ++ ("b.fq" ++ tab ++ "AC" ++ nl))%string].
Proof. vm_compute. reflexivity. Qed.

Section ValidRun.

Variables (cpu_count : Z) (listing : list string) (stat : stat_fn) (w : world).
Variables (order : list nat) (processing_time : Q) (args : arguments) (st : state).
Variables (fastq_files : list Path) (total_size : Z) (avg_size : Q).

Let k := length fastq_files.
Let out := normalize_output (output_file args).
Let barcodes := firstn k (lex_enumeration (Z.to_nat (barcode_length args))).
Let completed := as_completed (combine fastq_files barcodes) order.

Hypothesis listing_NoDup : NoDup listing.
Hypothesis files_found :
  get_file_stats stat (input_dir args) listing = Ok (fastq_files, total_size, avg_size).
Hypothesis some_file : 1 <= k.
Hypothesis length_ok : (0 <= barcode_length args)%Z.
Hypothesis barcodes_enough : k <= 4 ^ Z.to_nat (barcode_length args).
Hypothesis some_worker : (1 <= effective_cores cpu_count (cores args))%Z.

Lemma valid_run_barcodes :
  generate_barcodes (Z.of_nat k) (barcode_length args) = Ok barcodes /\ length barcodes = k.
Proof. apply generate_barcodes_enough; assumption. Qed.

Lemma valid_run_state :
  exists st',
    main cpu_count listing stat w order processing_time args st
    = (st', if Qeq_bool processing_time 0 then SysExit 1 else Returned) /\
    files st' out = Some (GzMember "" :: flat_map (batch w (chunk_size args)) completed) /\
    files st' (mapping_file_of out)
    = Some [Raw ("Original_File" ++ tab ++ "Barcode" ++ nl
                 ++ join (mapping_rows fastq_files barcodes))%string].
Proof.
  destruct valid_run_barcodes as [Hgen Hlen].
  destruct (main_valid_run cpu_count listing w order stat processing_time args st
              fastq_files total_size avg_size barcodes)
    as (st' & H1 & H2 & H3 & _); try assumption.
  - intro E. unfold k in some_file. rewrite E in some_file.
    simpl in some_file. lia.
  - fold k. lia.
  - lia.
  - exists st'. auto.
Qed.

Lemma valid_run_completed :
  Permutation order (seq 0 k) -> Permutation completed (combine fastq_files barcodes).
Proof.
  intro Hp. apply as_completed_Permutation.
  destruct valid_run_barcodes as [_ Hlen].
  unfold task. rewrite length_combine. fold k. rewrite Hlen, Nat.min_id. exact Hp.
Qed.

End ValidRun.

Lemma map_Line_inj (l1 l2 : list string) : map Line l1 = map Line l2 -> l1 = l2.
Proof.
  revert l2. induction l1 as [|x l1 IH]; intros [|y l2]; simpl; try discriminate;
    [reflexivity|].
  intros [= -> H]. f_equal. now apply IH.
Qed.

Lemma nth_error_combine {A B} (l : list A) (l' : list B) (i : nat) (a : A) (b : B) :
  nth_error l i = Some a -> nth_error l' i = Some b ->
  nth_error (combine l l') i = Some (a, b).
Proof.
  revert l l'. induction i as [|i IH]; intros [|x l] [|y l']; simpl; try discriminate.
  - now intros [= ->] [= ->].
  - apply IH.
Qed.

Lemma batch_of_result (w : world) (chunk_size : Z) (ts : list task) (t : task) :
  In t ts -> returned w chunk_size t <> [] ->
  In (GzMember (join (map record_text (returned w chunk_size t))))
     (flat_map (batch w chunk_size) ts).
Proof.
  intros Hin Hne. apply in_flat_map. exists t. split; [exact Hin|].
  unfold batch. destruct (returned w chunk_size t); [contradiction | now left].
Qed.

(** C7.  In a run that reaches the tagging of its files ([get_file_stats]
    returns, so every file found has a size; there are barcodes enough
    and at least one worker) and measures a processing time other than
    0, let the reading of file number [i], [p], fail with [e], an I/O or
    decoding error raised when the file is opened or at any of its lines.
    Then [process_single_file] raises nothing: it prints the error with
    the path of the file and returns no record.  The run returns
    normally; the result of every other work unit that has records is in
    the output file; and the mapping file, written before, has the row
    of [p] with its barcode at position [i]. *)
Theorem read_failure_is_isolated
        (cpu_count : Z) (listing : list string) (stat : stat_fn) (w : world)
        (order : list nat) (processing_time : Q) (args : arguments) (st : state)
        (fastq_files : list Path) (total_size : Z) (avg_size : Q)
        (i : nat) (p : Path) (b : string) (e : exn) :
  let k := length fastq_files in
  let out := normalize_output (output_file args) in
  let barcodes := firstn k (lex_enumeration (Z.to_nat (barcode_length args))) in
  let completed := as_completed (combine fastq_files barcodes) order in
  NoDup listing ->
  get_file_stats stat (input_dir args) listing = Ok (fastq_files, total_size, avg_size) ->
  Permutation order (seq 0 k) ->
  (0 <= barcode_length args)%Z ->
  k <= 4 ^ Z.to_nat (barcode_length args) ->
  (1 <= effective_cores cpu_count (cores args))%Z ->
  Qeq_bool processing_time 0 = false ->
  nth_error fastq_files i = Some p ->
  nth_error barcodes i = Some b ->
  read_file w p b (chunk_size args) = Raise e ->
  process_single_file w (p, b, chunk_size args)
  = ([("Error processing " ++ str_path p ++ ": " ++ str_exn e)%string], Ok []) /\
  exists st',
    main cpu_count listing stat w order processing_time args st = (st', Returned) /\
    files st' out = Some (GzMember "" :: flat_map (batch w (chunk_size args)) completed) /\
    (forall t, In t (combine fastq_files barcodes) ->
               returned w (chunk_size args) t <> [] ->
               In (GzMember (join (map record_text (returned w (chunk_size args) t))))
                  (flat_map (batch w (chunk_size args)) completed)) /\
    files st' (mapping_file_of out)
    = Some [Raw ("Original_File" ++ tab ++ "Barcode" ++ nl
                 ++ join (mapping_rows fastq_files barcodes))%string] /\
    nth_error (mapping_rows fastq_files barcodes) i
    = Some (path_name p ++ tab ++ b ++ nl)%string.
Proof.
  intros k out barcodes completed Hnd Hstat Hperm HL Hk Hcores Htime Hp Hb Hfail.
  split; [now apply process_single_file_failure|].
  assert (Hk1 : 1 <= k).
  { unfold k. destruct fastq_files; [destruct i; discriminate | simpl; lia]. }
  destruct (valid_run_state cpu_count listing stat w order processing_time args st
              fastq_files total_size avg_size Hnd Hstat Hk1 HL Hk Hcores)
    as (st' & H1 & H2 & H3).
  rewrite Htime in H1.
  exists st'. split; [exact H1|]. split; [exact H2|]. split; [|split; [exact H3|]].
  - intros t Ht Hne. apply batch_of_result; [|exact Hne].
    eapply Permutation_in; [|exact Ht]. apply Permutation_sym.
    now apply (valid_run_completed order args fastq_files).
  - unfold mapping_rows, task. rewrite nth_error_map.
    now rewrite (nth_error_combine _ _ _ _ _ Hp Hb).
Qed.

Lemma read_failure_is_isolated_witness :
  process_single_file sample_world (mkPath "in" "b.fq", "AC", 10000%Z)
  = (["Error processing in/b.fq: Input/output error"], Ok []) /\
  exists st',
    main 4 sample_listing sample_stat sample_world [2; 0; 1] 1 sample_args empty_state
    = (st', Returned) /\
    files st' "out.fastq.gz"
    = Some (GzMember ""
            :: flat_map (batch sample_world 10000)
                 (as_completed
                    (combine (glob_patterns "in" sample_listing)
                             (firstn 3 (lex_enumeration 2))) [2; 0; 1])) /\
    (forall t, In t (combine (glob_patterns "in" sample_listing)
                             (firstn 3 (lex_enumeration 2))) ->
               returned sample_world 10000 t <> [] ->
               In (GzMember (join (map record_text (returned sample_world 10000 t))))
                  (flat_map (batch sample_world 10000)
                     (as_completed
                        (combine (glob_patterns "in" sample_listing)
                                 (firstn 3 (lex_enumeration 2))) [2; 0; 1]))) /\
    files st' "out_barcode_mapping.txt"
    = Some [Raw ("Original_File" ++ tab ++ "Barcode" ++ nl
                 ++ join (mapping_rows (glob_patterns "in" sample_listing)
                                       (firstn 3 (lex_enumeration 2))))%string] /\
    nth_error (mapping_rows (glob_patterns "in" sample_listing)
                            (firstn 3 (lex_enumeration 2))) 2
    = Some ("b.fq" ++ tab ++ "AC" ++ nl)%string.
Proof.
  apply (read_failure_is_isolated 4 sample_listing sample_stat sample_world [2; 0; 1] 1
           sample_args empty_state (glob_patterns "in" sample_listing) 3000%Z
           (inject_Z 3000 / inject_Z 3)%Q 2 (mkPath "in" "b.fq") "AC"
           (exn_of_io (mkIOError OSError "Input/output error"))).
  - unfold sample_listing. repeat constructor; simpl; intuition discriminate.
  - reflexivity.
  - apply (perm_trans (l' := [0; 2; 1])).
    + apply (Permutation_cons_app [0] [1] 2). apply Permutation_refl.
    + apply perm_skip. apply perm_swap.
  - simpl; lia.
  - simpl; lia.
  - simpl; lia.
  - reflexivity.
  - reflexivity.
  - reflexivity.
  - reflexivity.
Defined.

(** C6, as the code has it.  A run over [k >= 1] files, which all have a
    size, with a valid configuration (a barcode length [L >= 0] with
    [k <= 4^L], at least one worker), every file within one chunk.
    Every file is submitted once and its result taken once; the output
    file is the empty member followed by one member for each non-empty
    result, in the order of completion, so that its text is the records
    of each work unit, as a block and in their order in the file; their
    number is the sum over the files of the number of records of each,
    which for a readable file is the number of records of the file; and
    the mapping file holds the header and [k] rows, one for each file in
    input order.  The run returns normally, but for a measured
    processing time of 0, when it exits with status 1 after both files
    are written. *)
Theorem valid_run_processes_every_file_once
        (cpu_count : Z) (listing : list string) (stat : stat_fn) (w : world)
        (order : list nat) (processing_time : Q) (args : arguments) (st : state)
        (fastq_files : list Path) (total_size : Z) (avg_size : Q) :
  let k := length fastq_files in
  let out := normalize_output (output_file args) in
  let barcodes := firstn k (lex_enumeration (Z.to_nat (barcode_length args))) in
  let completed := as_completed (combine fastq_files barcodes) order in
  let records := flat_map (returned w (chunk_size args)) completed in
  NoDup listing ->
  get_file_stats stat (input_dir args) listing = Ok (fastq_files, total_size, avg_size) ->
  Permutation order (seq 0 k) ->
  1 <= k ->
  (0 <= barcode_length args)%Z ->
  k <= 4 ^ Z.to_nat (barcode_length args) ->
  (1 <= effective_cores cpu_count (cores args))%Z ->
  (forall p, In p fastq_files -> fits_in_chunk w (chunk_size args) p) ->
  generate_barcodes (Z.of_nat k) (barcode_length args) = Ok barcodes /\
  NoDup fastq_files /\
  map fst (combine fastq_files barcodes) = fastq_files /\
  Permutation completed (combine fastq_files barcodes) /\
  (forall p b ls, In (p, b) (combine fastq_files barcodes) ->
                  open_input w p = Ok (map Line ls) ->
                  returned w (chunk_size args) (p, b) = map (tag b) (file_records ls)) /\
  length records
  = list_sum (map (fun t => length (returned w (chunk_size args) t))
                  (combine fastq_files barcodes)) /\
  exists st' members,
    main cpu_count listing stat w order processing_time args st
    = (st', if Qeq_bool processing_time 0 then SysExit 1 else Returned) /\
    files st' out = Some (GzMember "" :: members) /\
    members = flat_map (batch w (chunk_size args)) completed /\
    content_text (GzMember "" :: members) = join (map record_text records) /\
    files st' (mapping_file_of out)
    = Some [Raw ("Original_File" ++ tab ++ "Barcode" ++ nl
                 ++ join (mapping_rows fastq_files barcodes))%string] /\
    length (mapping_rows fastq_files barcodes) = k.
Proof.
  intros k out barcodes completed records
         Hnd Hstat Hperm Hk1 HL Hk Hcores Hfits.
  destruct (valid_run_barcodes args fastq_files HL Hk) as [Hgen Hlen].
  fold k barcodes in Hgen, Hlen.
  assert (Hcompleted : Permutation completed (combine fastq_files barcodes))
    by now apply (valid_run_completed order args fastq_files).
  split; [exact Hgen|].
  split.
  { destruct (get_file_stats_inv _ _ _ _ _ _ Hstat) as [-> _].
    now apply glob_patterns_NoDup. }
  split; [apply map_fst_combine; fold k; lia|].
  split; [exact Hcompleted|]. split; [|split].
  - intros p b ls Hin Hopen. rewrite (returned_readable _ _ _ _ _ Hopen).
    unfold emitted, file_records. rewrite firstn_all2; [reflexivity|].
    apply (Hfits p); [|exact Hopen]. now apply in_combine_l in Hin.
  - unfold records. rewrite length_flat_map.
    apply Permutation_list_sum, Permutation_map, Hcompleted.
  - destruct (valid_run_state cpu_count listing stat w order processing_time args st
                fastq_files total_size avg_size Hnd Hstat Hk1 HL Hk Hcores)
      as (st' & H1 & H2 & H3).
    exists st', (flat_map (batch w (chunk_size args)) completed).
    split; [exact H1|]. split; [exact H2|]. split; [reflexivity|].
    split; [|split; [exact H3|]].
    + unfold content_text. cbn [map segment_text]. rewrite join_cons. cbn [append].
      apply batch_text.
    + apply mapping_rows_length. fold k. lia.
Qed.

Lemma valid_run_processes_every_file_once_witness :
  exists st' members,
    main 4 sample_listing sample_stat sample_world [2; 0; 1] 1 sample_args empty_state
    = (st', Returned) /\
    files st' "out.fastq.gz" = Some (GzMember "" :: members) /\
    members = flat_map (batch sample_world 10000)
                (as_completed
                   (combine (glob_patterns "in" sample_listing)
                            (firstn 3 (lex_enumeration 2))) [2; 0; 1]) /\
    content_text (GzMember "" :: members)
    = join (map record_text
              (flat_map (returned sample_world 10000)
                 (as_completed
                    (combine (glob_patterns "in" sample_listing)
                             (firstn 3 (lex_enumeration 2))) [2; 0; 1]))) /\
    files st' "out_barcode_mapping.txt"
    = Some [Raw ("Original_File" ++ tab ++ "Barcode" ++ nl
                 ++ join (mapping_rows (glob_patterns "in" sample_listing)
                                       (firstn 3 (lex_enumeration 2))))%string] /\
    length (mapping_rows (glob_patterns "in" sample_listing)
                         (firstn 3 (lex_enumeration 2))) = 3.
Proof.
  apply (valid_run_processes_every_file_once 4 sample_listing sample_stat sample_world
           [2; 0; 1] 1 sample_args empty_state (glob_patterns "in" sample_listing)
           3000%Z (inject_Z 3000 / inject_Z 3)%Q).
  - unfold sample_listing. repeat constructor; simpl; intuition discriminate.
  - reflexivity.
  - apply (perm_trans (l' := [0; 2; 1])).
    + apply (Permutation_cons_app [0] [1] 2). apply Permutation_refl.
    + apply perm_skip. apply perm_swap.
  - simpl; lia.
  - simpl; lia.
  - simpl; lia.
  - simpl; lia.
  - intros p Hp ls Hopen. simpl in Hp. destruct Hp as [<-|[<-|[<-|[]]]].
    + change (open_input sample_world (mkPath "in" "a.fastq"))
        with (@Ok handle (map Line three_reads)) in Hopen.
      injection Hopen as Hls. apply (map_Line_inj three_reads ls) in Hls. subst ls.
      vm_compute. lia.
    + discriminate Hopen.
    + change (open_input sample_world (mkPath "in" "b.fq"))
        with (@Ok handle [Line (ln "@x");
                          ReadError (mkIOError OSError "Input/output error")]) in Hopen.
      destruct ls as [|x [|y ls]]; discriminate Hopen.
Defined.

(** The sample run: the three records of [a.fastq] are written, the two
    files that fail give nothing, and the run returns normally. *)
Example sample_run_output :
  snd (main 4 sample_listing sample_stat sample_world [2; 0; 1] 1 sample_args empty_state)
  = Returned /\
  files (fst (main 4 sample_listing sample_stat sample_world [2; 0; 1] 1
                   sample_args empty_state))
        "out.fastq.gz"
  = Some [GzMember "";
          GzMember (join (map record_text
                            [("@r1", "AAACGT", "+", "IIFFFF");
                             ("@r2", "AAGGA", "+", "IIF:F");
                             ("@r3", "AATT", "+", "II##")]))].
Proof. split; vm_compute; reflexivity. Qed.

(** Five well-formed files of three records, which all have a size, and
    barcodes of one letter, of which there are four.  The run stops with
    an uncaught [IndexError] in the assignment loop: no file is read,
    nothing is written, neither the output nor the mapping file. *)
Lemma five_files_four_barcodes :
  NoDup listing5 /\
  (exists fastq_files total_size avg_size,
      get_file_stats sample_stat "in" listing5 = Ok (fastq_files, total_size, avg_size) /\
      length fastq_files = 5 /\
      forall p, In p fastq_files ->
                open_input (world_of three_reads) p = Ok (map Line three_reads) /\
                length (file_records three_reads) = 3) /\
  Permutation [0; 1; 2; 3; 4] (seq 0 5) /\
  main 4 listing5 sample_stat (world_of three_reads) [0; 1; 2; 3; 4] 1 args5 empty_state
  = (empty_state, Uncaught (mkExn IndexError "list index out of range")) /\
  files (fst (main 4 listing5 sample_stat (world_of three_reads) [0; 1; 2; 3; 4] 1
                   args5 empty_state))
        "out.fastq.gz" = None /\
  files (fst (main 4 listing5 sample_stat (world_of three_reads) [0; 1; 2; 3; 4] 1
                   args5 empty_state))
        "out_barcode_mapping.txt" = None.
Proof.
  split.
  { unfold listing5. repeat constructor; simpl; intuition discriminate. }
  split.
  { do 3 eexists. split; [reflexivity|]. split; [reflexivity|].
    intros p Hp. simpl in Hp.
    destruct Hp as [<-|[<-|[<-|[<-|[<-|[]]]]]]; split; reflexivity. }
  split; [apply Permutation_refl|].
  split; [|split]; reflexivity.
Qed.

(** A run asked for no worker: the estimate of the processing time
    divides by the number of workers, and the run stops with an uncaught
    [ZeroDivisionError] before anything is written. *)
Example run_without_worker :
  main 4 sample_listing sample_stat sample_world [2; 0; 1] 1
       (mkArgs "in" "out" 2 (Some 0%Z) 10000) empty_state
  = (empty_state, Uncaught (mkExn ZeroDivisionError "division by zero")).
Proof. reflexivity. Qed.

(** A run asked for a negative number of workers: the pool cannot be
    made, no file is read, the output file is left with its empty member
    and the run exits with status 1. *)
Example run_with_negative_workers :
  let run := main 4 sample_listing sample_stat sample_world [2; 0; 1] 1
                  (mkArgs "in" "out" 2 (Some (-1)%Z) 10000) empty_state in
  snd run = SysExit 1 /\
  files (fst run) "out.fastq.gz" = Some [GzMember ""] /\
  last (stdout (fst run)) ""
  = (nl ++ "Error during processing: max_workers must be greater than 0")%string.
Proof. repeat split; vm_compute; reflexivity. Qed.

(** A directory where [b.fq] is a link whose target is missing: the run
    stops in [get_file_stats] with the error of [stat], before anything
    is written. *)
Example run_with_dangling_link :
  main 4 sample_listing dangling_stat sample_world [2; 0; 1] 1 sample_args empty_state
  = (empty_state,
     Uncaught (mkExn (IOFailure OSError) "[Errno 2] No such file or directory: 'in/b.fq'")).
Proof. reflexivity. Qed.

(** A directory without FASTQ files: the run says so and writes nothing. *)
Example run_without_files :
  let run := main 4 ["notes.txt"; "reads.bam"] sample_stat sample_world [] 1
                  sample_args empty_state in
  snd run = Returned /\
  stdout (fst run) = ["No FASTQ files found in in"] /\
  files (fst run) "out.fastq.gz" = None /\
  files (fst run) "out_barcode_mapping.txt" = None.
Proof. repeat split; vm_compute; reflexivity. Qed.

(** A negative barcode length: [itertools.product] refuses it and the
    run stops before anything is written. *)
Example run_with_negative_length :
  main 4 sample_listing sample_stat sample_world [2; 0; 1] 1
       (mkArgs "in" "out" (-1) None 10000) empty_state
  = (empty_state, Uncaught (mkExn ValueError "repeat argument cannot be negative")).
Proof. reflexivity. Qed.

(* ================================================================== *)
(** * More on the barcode generator *)
(* ================================================================== *)

Lemma product_nat_cons (L : nat) :
  exists combo rest, product_nat nucleotides L = combo :: rest.
Proof.
  destruct (product_nat nucleotides L) as [|combo rest] eqn:E; [|eauto].
  assert (H := lex_enumeration_length L). rewrite <- join_product, E in H.
  simpl in H. assert (0 < 4 ^ L) by (apply Nat.neq_0_lt_0, Nat.pow_nonzero; lia). lia.
Qed.

(** Asked for no barcode, or for a negative number of them, the
    generator returns the empty list: the one barcode that the loop
    collects before it stops is cut off by the final slice. *)
Theorem generate_barcodes_nonpositive_count (N L : Z) :
  (N <= 0)%Z -> (0 <= L)%Z -> generate_barcodes N L = Ok [].
Proof.
  intros HN HL. unfold generate_barcodes, product.
  destruct (Z.ltb_spec L 0) as [H|_]; [lia|]. cbn [bind].
  destruct (product_nat_cons (Z.to_nat L)) as (combo & rest & ->).
  cbn [generate_loop app length].
  destruct (Z.geb_spec (Z.of_nat 1) N) as [_|H]; [|lia].
  unfold slice_to. destruct (Z.leb_spec 0 N) as [H0|H0].
  - replace N with 0%Z by lia. reflexivity.
  - cbn [length]. replace (1 - Z.to_nat (- N)) with 0 by lia. reflexivity.
Qed.

Lemma generate_barcodes_nonpositive_count_witness :
  generate_barcodes (-3) 2 = Ok [].
Proof. apply (generate_barcodes_nonpositive_count (-3) 2); lia. Defined.

(** The barcodes of the first files do not depend on how many files
    follow: the list for [N] files is the beginning of the list for any
    larger number of files. *)
Theorem generate_barcodes_prefix_stable (N M L : nat) :
  N <= M ->
  exists few many,
    generate_barcodes (Z.of_nat N) (Z.of_nat L) = Ok few /\
    generate_barcodes (Z.of_nat M) (Z.of_nat L) = Ok many /\
    few = firstn N many /\
    (forall i b, nth_error few i = Some b -> nth_error many i = Some b).
Proof.
  intro H. exists (firstn N (lex_enumeration L)), (firstn M (lex_enumeration L)).
  split; [apply generate_barcodes_prefix|]. split; [apply generate_barcodes_prefix|].
  assert (E : firstn N (lex_enumeration L) = firstn N (firstn M (lex_enumeration L))).
  { rewrite firstn_firstn. f_equal. lia. }
  split; [exact E|].
  intros i b Hi. rewrite E in Hi. rewrite nth_error_firstn in Hi.
  destruct (i <? N)%nat; [exact Hi | discriminate].
Qed.

Lemma generate_barcodes_prefix_stable_witness :
  exists few many,
    generate_barcodes 3 2 = Ok few /\
    generate_barcodes 7 2 = Ok many /\
    few = firstn 3 many /\
    (forall i b, nth_error few i = Some b -> nth_error many i = Some b).
Proof. apply (generate_barcodes_prefix_stable 3 7 2). lia. Defined.

Lemma nth_error_blocks {A B} (f : A -> B -> string) (E : list B) (cs : list A)
      (i : nat) (da : A) (db : B) :
  0 < length E -> i < length cs * length E ->
  nth_error (flat_map (fun c => map (f c) E) cs) i
  = Some (f (nth (i / length E) cs da) (nth (i mod length E) E db)).
Proof.
  intro Hm. revert i. induction cs as [|c cs IH]; intros i Hi; [simpl in Hi; lia|].
  cbn [flat_map]. destruct (Nat.lt_ge_cases i (length E)) as [Hlt|Hge].
  - rewrite nth_error_app1 by now rewrite length_map.
    rewrite Nat.div_small, Nat.mod_small by exact Hlt. cbn [nth].
    rewrite nth_error_map, (nth_error_nth' E db Hlt). reflexivity.
  - rewrite nth_error_app2 by now rewrite length_map.
    rewrite length_map, IH by (simpl in Hi; lia).
    replace i with ((i - length E) + 1 * length E) at 3 4 by lia.
    rewrite Nat.div_add, Nat.Div0.mod_add by lia.
    rewrite Nat.add_1_r. reflexivity.
Qed.

Lemma lex_enumeration_nth (L i : nat) :
  i < 4 ^ L -> nth_error (lex_enumeration L) i = Some (barcode_of_index L i).
Proof.
  revert i. induction L as [|L IH]; intros i Hi.
  - simpl in Hi. replace i with 0 by lia. reflexivity.
  - cbn [lex_enumeration barcode_of_index].
    assert (Hpos : 0 < 4 ^ L) by (apply Nat.neq_0_lt_0, Nat.pow_nonzero; lia).
    rewrite (nth_error_blocks String (lex_enumeration L) alphabet i "A"%char "");
      rewrite lex_enumeration_length; try exact Hpos.
    + f_equal. f_equal.
      assert (Hm : i mod 4 ^ L < 4 ^ L) by (apply Nat.mod_upper_bound; lia).
      specialize (IH _ Hm). apply (nth_error_nth _ _ "") in IH. exact IH.
    + cbn [alphabet length]. cbn [Nat.pow] in Hi. lia.
Qed.

(** The barcode of file number [i] (from 0) is [i] written in base 4 on
    [L] digits, with the letters A, T, C, G for the digits 0, 1, 2, 3. *)
Theorem generate_barcodes_nth (N L i : nat) :
  i < N -> N <= 4 ^ L ->
  exists out,
    generate_barcodes (Z.of_nat N) (Z.of_nat L) = Ok out /\
    nth_error out i = Some (barcode_of_index L i).
Proof.
  intros Hi HN. exists (firstn N (lex_enumeration L)).
  split; [apply generate_barcodes_prefix|].
  rewrite nth_error_firstn. destruct (Nat.ltb_spec i N); [|lia].
  apply lex_enumeration_nth. lia.
Qed.

(** File 27 of 100, with barcodes of length 4: 27 = 0*64 + 1*16 + 2*4 + 3. *)
Lemma generate_barcodes_nth_witness :
  exists out,
    generate_barcodes 100 4 = Ok out /\ nth_error out 27 = Some "ATCG".
Proof. apply (generate_barcodes_nth 100 4 27); simpl; lia. Defined.

(* ================================================================== *)
(** * More on the record tagger *)
(* ================================================================== *)

(** The two outcomes of a worker: a failure, reported, with no record;
    or the records of the lines of the file, with nothing printed. *)
Lemma process_single_file_outcome (w : world) (p : Path) (barcode : string)
      (chunk_size : Z) :
  (exists e,
      read_file w p barcode chunk_size = Raise e /\
      process_single_file w (p, barcode, chunk_size)
      = ([("Error processing " ++ str_path p ++ ": " ++ str_exn e)%string], Ok [])) \/
  process_single_file w (p, barcode, chunk_size)
  = ([], Ok (emitted barcode chunk_size (input_lines w p))).
Proof.
  destruct (read_file w p barcode chunk_size) as [out|e] eqn:Hread.
  - right. unfold process_single_file. rewrite Hread. do 2 f_equal.
    unfold read_file, input_lines in *.
    destruct (open_input w p) as [f|e]; cbn [bind] in Hread; [|discriminate].
    destruct (read_chunk_leading_lines barcode (Z.to_nat chunk_size) f []) as [[e He]|Heq].
    + rewrite He in Hread. discriminate.
    + rewrite Heq, read_chunk_lines in Hread. now injection Hread as <-.
  - left. exists e. split; [reflexivity|]. now apply process_single_file_failure.
Qed.

(** Whatever the file does, [process_single_file] raises nothing and
    returns at most [chunk_size] records, none for a chunk size of 0 or
    less; it prints at most one line, the report of a failure, and then
    it returns no record at all. *)
Theorem process_single_file_bounded (w : world) (p : Path) (barcode : string)
        (chunk_size : Z) :
  exists printed out,
    process_single_file w (p, barcode, chunk_size) = (printed, Ok out) /\
    length out <= Z.to_nat chunk_size /\
    ((chunk_size <= 0)%Z -> out = []) /\
    (printed = [] \/
     out = [] /\
     exists e, printed = [("Error processing " ++ str_path p ++ ": " ++ str_exn e)%string]).
Proof.
  destruct (process_single_file_outcome w p barcode chunk_size) as [(e & _ & H)|H];
    rewrite H; do 2 eexists; (split; [reflexivity|]).
  - split; [simpl; lia|]. split; [reflexivity|]. right. split; [reflexivity | now exists e].
  - split; [apply emitted_length_le|]. split; [|now left].
    intro Hc. assert (Hl := emitted_length_le barcode chunk_size (input_lines w p)).
    destruct (emitted barcode chunk_size (input_lines w p)); [reflexivity|].
    simpl in Hl. lia.
Qed.

Lemma process_single_file_bounded_witness :
  exists printed,
    process_single_file (world_of three_reads) (sample_path, "AC", 0%Z) = (printed, Ok []).
Proof.
  destruct (process_single_file_bounded (world_of three_reads) sample_path "AC" 0)
    as (printed & out & H & _ & Hzero & _).
  exists printed. rewrite H. rewrite Hzero; [reflexivity | lia].
Defined.

Lemma read_chunk_meets_failure (barcode : string) (n : nat) (ls : list string)
      (err : io_error) (rest : handle) (acc : list record) :
  (forall i, 4 * i < length ls -> ~ blank (line_at ls (4 * i))) ->
  length ls < 4 * n ->
  read_chunk n (map Line ls ++ ReadError err :: rest) barcode acc = Raise (exn_of_io err).
Proof.
  revert ls acc. induction n as [|n IH]; intros ls acc Hhead Hlen; [lia|].
  cbn [read_chunk].
  destruct ls as [|h ls]; [reflexivity|].
  cbn [map app readline bind fst snd].
  assert (Hh : str_is_empty (strip h) = false).
  { specialize (Hhead 0 ltac:(simpl; lia)). unfold blank, line_at in Hhead. simpl in Hhead.
    destruct (strip h); [contradiction | reflexivity]. }
  rewrite Hh.
  destruct ls as [|s ls]; [reflexivity|]. cbn [map app readline bind fst snd].
  destruct ls as [|qh ls]; [reflexivity|]. cbn [map app readline bind fst snd].
  destruct ls as [|q ls]; [reflexivity|]. cbn [map app readline bind fst snd].
  apply IH.
  - intros i Hi. specialize (Hhead (S i) ltac:(simpl in *; lia)).
    unfold line_at in *. replace (4 * S i) with (S (S (S (S (4 * i))))) in Hhead by lia.
    exact Hhead.
  - simpl in Hlen. lia.
Qed.

(** A failure met while the file is read discards what was read before
    it.  When the lines before the failure have no blank header line and
    the chunk reaches past them, the worker returns no record, however
    many complete records it had read, and reports the failure. *)
Theorem failure_discards_records_read (w : world) (p : Path) (barcode : string)
        (chunk_size : Z) (ls : list string) (err : io_error) (rest : handle) :
  open_input w p = Ok (map Line ls ++ ReadError err :: rest) ->
  (forall i, 4 * i < length ls -> ~ blank (line_at ls (4 * i))) ->
  (Z.of_nat (length ls) < 4 * chunk_size)%Z ->
  process_single_file w (p, barcode, chunk_size)
  = ([("Error processing " ++ str_path p ++ ": " ++ io_msg err)%string], Ok []).
Proof.
  intros Hopen Hhead Hlen.
  apply (process_single_file_failure w p barcode chunk_size (exn_of_io err)).
  unfold read_file. rewrite Hopen. cbn [bind].
  apply read_chunk_meets_failure; [exact Hhead | lia].
Qed.

Lemma failure_discards_records_read_witness :
  process_single_file
    (fun _ _ _ => inr (map Line three_reads
                       ++ [ReadError (mkIOError EOFError "Compressed file ended early")]))
    (mkPath "in" "c.fastq.gz", "AC", 10000%Z)
  = (["Error processing in/c.fastq.gz: Compressed file ended early"], Ok []).
Proof.
  apply (failure_discards_records_read
           (fun _ _ _ => inr (map Line three_reads
                              ++ [ReadError (mkIOError EOFError "Compressed file ended early")]))
           (mkPath "in" "c.fastq.gz") "AC" 10000 three_reads
           (mkIOError EOFError "Compressed file ended early") []).
  - reflexivity.
  - intros i Hi Hb. simpl in Hi.
    destruct i as [|[|[|i]]]; [| | |lia]; vm_compute in Hb; discriminate Hb.
  - simpl; lia.
Defined.

Lemma read_chunk_stops_before (barcode : string) (n : nat) (ls : list string)
      (rest : handle) (acc : list record) :
  4 * n <= length ls \/ (exists j, 4 * j < length ls /\ blank (line_at ls (4 * j))) ->
  read_chunk n (map Line ls ++ rest) barcode acc = read_chunk n (map Line ls) barcode acc.
Proof.
  revert ls acc. induction n as [|n IH]; intros ls acc Hstop; [reflexivity|].
  cbn [read_chunk].
  destruct ls as [|h ls].
  { exfalso. destruct Hstop as [H|(j & H & _)]; simpl in H; lia. }
  cbn [map app readline bind fst snd].
  destruct (str_is_empty (strip h)) eqn:Hh; [reflexivity|].
  assert (Hlen : 4 <= length (h :: ls)).
  { destruct Hstop as [H|(j & Hj & Hb)]; [lia|].
    destruct j as [|j]; [|lia].
    unfold blank, line_at in Hb. simpl in Hb. rewrite Hb in Hh. discriminate. }
  destruct ls as [|s [|qh [|q ls]]]; simpl in Hlen; try lia.
  cbn [map app readline bind fst snd]. apply IH.
  destruct Hstop as [H|(j & Hj & Hb)]; [left; simpl in H; lia|].
  destruct j as [|j].
  - unfold blank, line_at in Hb. simpl in Hb. rewrite Hb in Hh. discriminate.
  - right. exists j. split; [simpl in Hj; lia|].
    unfold line_at in *. replace (4 * S j) with (S (S (S (S (4 * j))))) in Hb by lia.
    exact Hb.
Qed.

(** A failure that lies beyond the point where reading stops is never
    met.  When the chunk ends within the lines before the failure, or a
    blank header line comes before it, the worker returns the records as
    if the file ended at the failure, and reports nothing. *)
Theorem failure_beyond_reach_is_not_met (w : world) (p : Path) (barcode : string)
        (chunk_size : Z) (ls : list string) (rest : handle) :
  open_input w p = Ok (map Line ls ++ rest) ->
  (4 * chunk_size <= Z.of_nat (length ls))%Z \/
  (exists j, 4 * j < length ls /\ blank (line_at ls (4 * j))) ->
  process_single_file w (p, barcode, chunk_size)
  = ([], Ok (emitted barcode chunk_size ls)).
Proof.
  intros Hopen Hstop. unfold process_single_file, read_file. rewrite Hopen. cbn [bind].
  rewrite read_chunk_stops_before, read_chunk_lines; [reflexivity|].
  destruct Hstop as [H|H]; [left; lia | now right].
Qed.

(** With a chunk size of 2 the failure after the third record of the
    sample file is not met: two records are returned. *)
Lemma failure_beyond_reach_is_not_met_witness :
  process_single_file
    (fun _ _ _ => inr (map Line three_reads
                       ++ [ReadError (mkIOError EOFError "Compressed file ended early")]))
    (mkPath "in" "c.fastq.gz", "AC", 2%Z)
  = ([], Ok [("@r1", "ACACGT", "+", "IIFFFF"); ("@r2", "ACGGA", "+", "IIF:F")]).
Proof.
  rewrite (failure_beyond_reach_is_not_met
             (fun _ _ _ => inr (map Line three_reads
                                ++ [ReadError (mkIOError EOFError "Compressed file ended early")]))
             (mkPath "in" "c.fastq.gz") "AC" 2 three_reads
             [ReadError (mkIOError EOFError "Compressed file ended early")]).
  - reflexivity.
  - reflexivity.
  - left. simpl. lia.
Defined.

Lemma lstrip_head (s : string) :
  lstrip s = EmptyString \/ exists c t, lstrip s = String c t /\ is_space c = false.
Proof.
  induction s as [|c s IH]; [now left|]. cbn [lstrip].
  destruct (is_space c) eqn:E; [exact IH | right; eauto].
Qed.

Lemma rstrip_idempotent (s : string) : rstrip (rstrip s) = rstrip s.
Proof.
  induction s as [|c s IH]; [reflexivity|]. cbn [rstrip].
  destruct (rstrip s) as [|d r] eqn:E.
  - destruct (is_space c) eqn:Ec; [reflexivity|]. cbn [rstrip]. now rewrite Ec.
  - cbn [rstrip]. cbn [rstrip] in IH. rewrite IH. reflexivity.
Qed.

Lemma rstrip_head (c : ascii) (t : string) :
  is_space c = false -> exists r, rstrip (String c t) = String c r.
Proof.
  intro Hc. cbn [rstrip]. destruct (rstrip t); [rewrite Hc|]; eauto.
Qed.

Lemma strip_idempotent (s : string) : strip (strip s) = strip s.
Proof.
  unfold strip. destruct (lstrip_head s) as [->|(c & t & -> & Hc)]; [reflexivity|].
  destruct (rstrip_head c t Hc) as [r Hr].
  assert (Hl : lstrip (rstrip (String c t)) = rstrip (String c t)).
  { rewrite Hr. cbn [lstrip]. now rewrite Hc. }
  rewrite Hl. apply rstrip_idempotent.
Qed.

(** No record without a header is ever returned: whatever the file
    does, the header of every returned record is not empty and has no
    whitespace around it, and its quality header has none either. *)
Theorem returned_headers_are_stripped (w : world) (p : Path) (barcode : string)
        (chunk_size : Z) :
  exists printed out,
    process_single_file w (p, barcode, chunk_size) = (printed, Ok out) /\
    forall header sequence quality_header quality,
      In (header, sequence, quality_header, quality) out ->
      header <> "" /\ strip header = header /\ strip quality_header = quality_header.
Proof.
  destruct (process_single_file_outcome w p barcode chunk_size) as [(e & _ & H)|H];
    rewrite H; do 2 eexists; (split; [reflexivity|]); intros h s qh q Hin;
    [destruct Hin|].
  apply In_nth_error in Hin. destruct Hin as [i Hi].
  assert (Hlt : i < length (emitted barcode chunk_size (input_lines w p))).
  { apply nth_error_Some. intro Hn.
    assert (Hc : Some (h, s, qh, q) = None)
      by (etransitivity; [symmetry; exact Hi | exact Hn]).
    discriminate Hc. }
  destruct (emitted_nth _ _ _ _ Hlt) as [Hnth Hnb].
  assert (Heq : Some (tag barcode (frame_at (input_lines w p) i)) = Some (h, s, qh, q))
    by (etransitivity; [symmetry; exact Hnth | exact Hi]).
  unfold frame_at, tag in Heq. injection Heq as <- _ <- _.
  split; [exact Hnb|]. split; apply strip_idempotent.
Qed.

(** The chunk size decides how many records are returned, not which:
    on a readable file, the result for a chunk size is the beginning of
    the result for any larger chunk size. *)
Theorem smaller_chunk_gives_prefix (w : world) (p : Path) (barcode : string)
        (small large : Z) (ls : list string) :
  open_input w p = Ok (map Line ls) ->
  (small <= large)%Z ->
  exists few many,
    process_single_file w (p, barcode, small) = ([], Ok few) /\
    process_single_file w (p, barcode, large) = ([], Ok many) /\
    few = firstn (Z.to_nat small) many.
Proof.
  intros Hopen Hle. exists (emitted barcode small ls), (emitted barcode large ls).
  split; [now apply process_single_file_lines|].
  split; [now apply process_single_file_lines|].
  unfold emitted. rewrite <- firstn_map, <- firstn_map, firstn_firstn.
  f_equal. lia.
Qed.

Lemma smaller_chunk_gives_prefix_witness :
  exists few many,
    process_single_file (world_of three_reads) (sample_path, "AC", 1%Z) = ([], Ok few) /\
    process_single_file (world_of three_reads) (sample_path, "AC", 10000%Z) = ([], Ok many) /\
    few = firstn (Z.to_nat 1) many.
Proof.
  apply (smaller_chunk_gives_prefix (world_of three_reads) sample_path "AC" 1 10000
           three_reads); [reflexivity | lia].
Defined.

(* ================================================================== *)
(** * Reading back what was written *)
(* ================================================================== *)

Lemma text_lines_line (f rest : string) :
  lacks (ascii_of_nat 10) f ->
  text_lines (f ++ nl ++ rest) = (f ++ nl)%string :: text_lines rest.
Proof.
  induction f as [|c f IH]; intro Hf; [reflexivity|].
  destruct Hf as [Hc Hf]. cbn [append text_lines].
  apply Ascii.eqb_neq in Hc. rewrite Hc. cbn [append] in IH. now rewrite (IH Hf).
Qed.

Lemma text_lines_record (r : record) (rest : string) :
  clean_record r ->
  text_lines (record_text r ++ rest)
  = lines_of [written_lines r] ++ text_lines rest.
Proof.
  destruct r as [[[h s] qh] q]. intros (_ & [[Hh _] _] & [[Hs _] _] & [[Hqh _] _] & [[Hq _] _]).
  unfold record_text. rewrite !append_assoc.
  rewrite (text_lines_line h) by exact Hh. rewrite (text_lines_line s) by exact Hs.
  rewrite (text_lines_line qh) by exact Hqh. rewrite (text_lines_line q) by exact Hq.
  reflexivity.
Qed.

Lemma text_lines_records (rs : list record) :
  Forall clean_record rs ->
  text_lines (join (map record_text rs)) = lines_of (map written_lines rs).
Proof.
  induction 1 as [|r rs Hr _ IH]; [reflexivity|].
  cbn [map]. rewrite join_cons, text_lines_record by exact Hr. rewrite IH.
  unfold lines_of. cbn [flat_map]. now rewrite app_nil_r.
Qed.

Lemma lstrip_app (x y : string) :
  lstrip (x ++ y)
  = match lstrip x with
    | EmptyString => lstrip y
    | _ => (lstrip x ++ y)%string
    end.
Proof.
  induction x as [|c x IH]; [reflexivity|].
  cbn [append lstrip]. destruct (is_space c); [exact IH | reflexivity].
Qed.

Lemma rstrip_app_space (x : string) (c : ascii) :
  is_space c = true -> rstrip (x ++ String c "") = rstrip x.
Proof.
  intro Hc. induction x as [|d x IH]; cbn [append rstrip]; [now rewrite Hc|].
  now rewrite IH.
Qed.

Lemma strip_append_nl (x : string) : strip (x ++ nl) = strip x.
Proof.
  unfold strip. rewrite lstrip_app.
  destruct (lstrip x) as [|c t] eqn:E; [reflexivity|].
  apply rstrip_app_space. reflexivity.
Qed.

Lemma tag_written_lines (r : record) : clean_record r -> tag "" (written_lines r) = r.
Proof.
  destruct r as [[[h s] qh] q]. intros (_ & [_ Hh] & [_ Hs] & [_ Hqh] & [_ Hq]).
  unfold tag, written_lines. rewrite !strip_append_nl, Hh, Hs, Hqh, Hq. reflexivity.
Qed.

Lemma written_lines_header (r : record) :
  clean_record r -> header_present (written_lines r) = true.
Proof.
  destruct r as [[[h s] qh] q]. intros (Hne & [_ Hh] & _).
  unfold header_present, written_lines, raw_header. cbn [fst].
  rewrite strip_append_nl, Hh. destruct h; [contradiction | reflexivity].
Qed.

Lemma emitted_lines_of (barcode : string) (chunk_size : Z) (rs : list raw_record) :
  forallb header_present rs = true ->
  emitted barcode chunk_size (lines_of rs)
  = map (tag barcode) (firstn (Z.to_nat chunk_size) rs).
Proof.
  intro Hh. unfold emitted.
  rewrite <- (app_nil_r (lines_of rs)), frames_lines_of. cbn [frames].
  now rewrite app_nil_r, take_while_all.
Qed.

Lemma read_back (rs : list record) (chunk_size : Z) :
  Forall clean_record rs ->
  emitted "" chunk_size (text_lines (join (map record_text rs)))
  = firstn (Z.to_nat chunk_size) rs.
Proof.
  intro Hrs. rewrite text_lines_records by exact Hrs.
  rewrite emitted_lines_of.
  - rewrite firstn_map, map_map. rewrite <- (map_id (firstn _ rs)) at 2.
    apply map_ext_in. intros r Hr. apply tag_written_lines.
    rewrite Forall_forall in Hrs. apply Hrs. eapply in_firstn; eauto.
  - apply forallb_forall. intros x Hx. apply in_map_iff in Hx.
    destruct Hx as (r & <- & Hr). apply written_lines_header.
    rewrite Forall_forall in Hrs. now apply Hrs.
Qed.

(** What [write_sequences_to_file] writes, the tagger reads back.  For
    records whose fields are clean (no line break inside, no whitespace
    around) and whose headers are not empty, a file that holds the text
    written for them, read with the empty barcode, gives the same records
    again, as many as the chunk size allows. *)
Theorem written_records_are_read_back (w : world) (p : Path) (rs : list record)
        (chunk_size : Z) :
  Forall clean_record rs ->
  open_input w p = Ok (map Line (text_lines (join (map record_text rs)))) ->
  process_single_file w (p, "", chunk_size) = ([], Ok (firstn (Z.to_nat chunk_size) rs)).
Proof.
  intros Hrs Hopen. rewrite (process_single_file_lines _ _ _ _ _ Hopen).
  now rewrite read_back.
Qed.

Lemma written_records_are_read_back_witness :
  process_single_file
    (world_of (text_lines (join (map record_text
                                     [("@r1", "ACACGT", "+", "IIFFFF");
                                      ("@r2 lane 3", "ACGGA", "", "II")]))))
    (sample_path, "", 10000%Z)
  = ([], Ok (firstn (Z.to_nat 10000) [("@r1", "ACACGT", "+", "IIFFFF");
                                      ("@r2 lane 3", "ACGGA", "", "II")])).
Proof.
  apply (written_records_are_read_back
           (world_of (text_lines (join (map record_text
                                            [("@r1", "ACACGT", "+", "IIFFFF");
                                             ("@r2 lane 3", "ACGGA", "", "II")]))))
           sample_path [("@r1", "ACACGT", "+", "IIFFFF"); ("@r2 lane 3", "ACGGA", "", "II")]
           10000).
  - repeat constructor; try discriminate; try reflexivity;
      try (intro H; discriminate H).
  - reflexivity.
Defined.

Lemma lacks_app (c : ascii) (x y : string) : lacks c x -> lacks c y -> lacks c (x ++ y).
Proof. induction x as [|d x IH]; simpl; [tauto|]. intros [Hd Hx] Hy. auto. Qed.

Lemma lacks_lstrip (c : ascii) (s : string) : lacks c s -> lacks c (lstrip s).
Proof.
  induction s as [|d s IH]; [trivial|]. intros [Hd Hs]. cbn [lstrip].
  destruct (is_space d); [auto | now split].
Qed.

Lemma lacks_rstrip (c : ascii) (s : string) : lacks c s -> lacks c (rstrip s).
Proof.
  induction s as [|d s IH]; [trivial|]. intros [Hd Hs]. cbn [rstrip].
  specialize (IH Hs). destruct (rstrip s) as [|e r].
  - destruct (is_space d); simpl; auto.
  - now split.
Qed.

Lemma no_line_break_strip (s : string) : no_line_break s -> no_line_break (strip s).
Proof. intros [H1 H2]. split; apply lacks_rstrip, lacks_lstrip; assumption. Qed.

(** A line of a text: no line feed but at its end, and no carriage
    return when the text has none. *)
Lemma text_lines_shape (T : string) :
  lacks (ascii_of_nat 13) T ->
  Forall (fun l => exists body, no_line_break body /\ (l = body \/ l = (body ++ nl)%string))
         (text_lines T).
Proof.
  induction T as [|c T IH]; intro HT; [constructor|].
  destruct HT as [Hc HT]. specialize (IH HT). cbn [text_lines].
  destruct (Ascii.eqb_spec c (ascii_of_nat 10)) as [->|Hlf].
  - constructor; [|exact IH]. exists "". split; [repeat split | now right].
  - destruct (text_lines T) as [|l ls].
    + constructor; [|constructor]. exists (String c ""). split; [|now left].
      split; simpl; auto.
    + inversion IH as [|? ? (body & [Hb1 Hb2] & Hl) Hls]; subst.
      constructor; [|exact Hls]. exists (String c body). split.
      * split; simpl; auto.
      * destruct Hl as [->| ->]; [now left | now right].
Qed.

Lemma clean_strip_line (T : string) (ls : list string) (k : nat) :
  lacks (ascii_of_nat 13) T -> ls = text_lines T -> clean (strip (line_at ls k)).
Proof.
  intros HT ->. split; [|apply strip_idempotent].
  unfold line_at. destruct (nth_in_or_default k (text_lines T) "") as [Hin| ->].
  - assert (Hshape := text_lines_shape T HT). rewrite Forall_forall in Hshape.
    destruct (Hshape _ Hin) as (body & Hb & [->| ->]).
    + now apply no_line_break_strip.
    + rewrite strip_append_nl. now apply no_line_break_strip.
  - repeat split.
Qed.

Lemma no_space_lacks (s : string) (c : ascii) : is_space c = true -> no_space s -> lacks c s.
Proof.
  intro Hc. induction s as [|d s IH]; [trivial|]. intros [Hd Hs]. split; [|auto].
  intros ->. rewrite Hc in Hd. discriminate.
Qed.

Lemma rstrip_app_fixed (b x : string) : no_space b -> rstrip x = x -> rstrip (b ++ x) = (b ++ x)%string.
Proof.
  intros Hb Hx. induction b as [|c b IH]; [exact Hx|].
  destruct Hb as [Hc Hb]. cbn [append rstrip]. rewrite (IH Hb).
  destruct (b ++ x)%string; [now rewrite Hc | reflexivity].
Qed.

Lemma clean_app (b x : string) : no_space b -> clean x -> clean (b ++ x).
Proof.
  intros Hb [[Hx1 Hx2] Hx]. split.
  - split; apply lacks_app; try assumption; now apply no_space_lacks.
  - assert (Hr : rstrip x = x).
    { rewrite <- Hx at 1. unfold strip. rewrite rstrip_idempotent. exact Hx. }
    destruct b as [|c b]; [exact Hx|].
    unfold strip. destruct Hb as [Hc Hb]. cbn [append lstrip]. rewrite Hc.
    apply (rstrip_app_fixed (String c b) x); [now split | exact Hr].
Qed.

Lemma no_space_padding (n : nat) : no_space (str_mul "I" n).
Proof. induction n as [|n IH]; simpl; auto. Qed.

(** Every record the tagger returns can be written on four lines.  For
    a text file without carriage returns and a barcode without
    whitespace, each field of each returned record has no line break
    inside and no whitespace around it, and no header is empty. *)
Theorem returned_records_are_clean (w : world) (p : Path) (barcode : string)
        (chunk_size : Z) (T : string) :
  lacks (ascii_of_nat 13) T ->
  no_space barcode ->
  open_input w p = Ok (map Line (text_lines T)) ->
  exists out,
    process_single_file w (p, barcode, chunk_size) = ([], Ok out) /\
    Forall clean_record out.
Proof.
  intros HT Hb Hopen. exists (emitted barcode chunk_size (text_lines T)).
  split; [now apply process_single_file_lines|].
  apply Forall_forall. intros r Hr. apply In_nth_error in Hr. destruct Hr as [i Hi].
  assert (Hlt : i < length (emitted barcode chunk_size (text_lines T))).
  { apply nth_error_Some. intro Hn.
    assert (Hc : Some r = None) by (etransitivity; [symmetry; exact Hi | exact Hn]).
    discriminate Hc. }
  destruct (emitted_nth _ _ _ _ Hlt) as [Hnth Hnb].
  assert (Heq : Some (tag barcode (frame_at (text_lines T) i)) = Some r)
    by (etransitivity; [symmetry; exact Hnth | exact Hi]).
  injection Heq as <-. unfold frame_at, tag, clean_record.
  split; [exact Hnb|].
  split; [now apply (clean_strip_line T)|].
  split; [apply clean_app; [exact Hb | now apply (clean_strip_line T)]|].
  split; [now apply (clean_strip_line T)|].
  apply clean_app; [apply no_space_padding | now apply (clean_strip_line T)].
Qed.

Lemma returned_records_are_clean_witness :
  exists out,
    process_single_file (world_of (text_lines (join three_reads))) (sample_path, "AC", 10000%Z)
    = ([], Ok out) /\
    Forall clean_record out.
Proof.
  apply (returned_records_are_clean (world_of (text_lines (join three_reads)))
           sample_path "AC" 10000 (join three_reads)).
  - vm_compute. repeat split; discriminate.
  - simpl. auto.
  - reflexivity.
Defined.

(* ================================================================== *)
(** * More on the coordinator *)
(* ================================================================== *)

(** The order of completion only permutes the output.  With a worker
    and every future completing once, two orders of completion give the
    same total, which is the number of records of all work units, and
    output files whose members are the same up to their order. *)
Theorem completion_order_permutes_members
        (w : world) (order1 order2 : list nat) (fastq_files : list Path)
        (barcodes : list string) (output_file : string) (num_cores chunk_size : Z)
        (st : state) :
  let submitted := combine fastq_files barcodes in
  (0 < num_cores)%Z ->
  Permutation order1 (seq 0 (length submitted)) ->
  Permutation order2 (seq 0 (length submitted)) ->
  exists st1 st2 members1 members2,
    process_files_parallel w order1 fastq_files barcodes output_file num_cores chunk_size st
    = (st1, Ok (list_sum (map (fun t => length (returned w chunk_size t)) submitted))) /\
    process_files_parallel w order2 fastq_files barcodes output_file num_cores chunk_size st
    = (st2, Ok (list_sum (map (fun t => length (returned w chunk_size t)) submitted))) /\
    files st1 output_file = Some (GzMember "" :: members1) /\
    files st2 output_file = Some (GzMember "" :: members2) /\
    Permutation members1 members2.
Proof.
  intros submitted Hc H1 H2.
  apply as_completed_Permutation in H1. apply as_completed_Permutation in H2.
  fold submitted in H1, H2.
  destruct (process_files_parallel_spec w order1 fastq_files barcodes output_file
              num_cores chunk_size st Hc) as (st1 & Hr1 & Hf1 & _).
  destruct (process_files_parallel_spec w order2 fastq_files barcodes output_file
              num_cores chunk_size st Hc) as (st2 & Hr2 & Hf2 & _).
  fold submitted in Hr1, Hr2, Hf1, Hf2.
  exists st1, st2. do 2 eexists.
  assert (Hsum : forall completed, Permutation completed submitted ->
                   length (flat_map (returned w chunk_size) completed)
                   = list_sum (map (fun t => length (returned w chunk_size t)) submitted)).
  { intros completed Hp. rewrite length_flat_map.
    apply Permutation_list_sum, Permutation_map, Hp. }
  split; [rewrite Hr1, (Hsum _ H1); reflexivity|].
  split; [rewrite Hr2, (Hsum _ H2); reflexivity|].
  split; [exact Hf1|]. split; [exact Hf2|].
  rewrite (Permutation_flat_map _ H1), (Permutation_flat_map _ H2). apply Permutation_refl.
Qed.

Lemma completion_order_permutes_members_witness :
  exists st1 st2 members1 members2,
    process_files_parallel (world_of three_reads) [0; 1]
      [mkPath "in" "a.fastq"; mkPath "in" "b.fq"] ["AA"; "AT"] "out.fastq.gz" 2 10000
      empty_state
    = (st1, Ok 6) /\
    process_files_parallel (world_of three_reads) [1; 0]
      [mkPath "in" "a.fastq"; mkPath "in" "b.fq"] ["AA"; "AT"] "out.fastq.gz" 2 10000
      empty_state
    = (st2, Ok 6) /\
    files st1 "out.fastq.gz" = Some (GzMember "" :: members1) /\
    files st2 "out.fastq.gz" = Some (GzMember "" :: members2) /\
    Permutation members1 members2.
Proof.
  apply (completion_order_permutes_members (world_of three_reads) [0; 1] [1; 0]
           [mkPath "in" "a.fastq"; mkPath "in" "b.fq"] ["AA"; "AT"] "out.fastq.gz" 2 10000
           empty_state).
  - lia.
  - apply Permutation_refl.
  - apply perm_swap.
Defined.

Lemma process_single_file_ext (w1 w2 : world) (p : Path) (b : string) (chunk_size : Z) :
  (forall o m, w1 o p m = w2 o p m) ->
  process_single_file w1 (p, b, chunk_size) = process_single_file w2 (p, b, chunk_size).
Proof.
  intro H. unfold process_single_file, read_file, open_input.
  destruct (if endswith (str_path p) ".gz" then _ else _) as [o m]. now rewrite H.
Qed.

Lemma collect_ext (w1 w2 : world) (output_file : string) (chunk_size : Z) (n_files : nat)
      (completed : list task) (st : state) (total processed : nat) :
  (forall t, In t completed -> forall o m, w1 o (fst t) m = w2 o (fst t) m) ->
  collect w1 output_file chunk_size n_files completed st total processed
  = collect w2 output_file chunk_size n_files completed st total processed.
Proof.
  revert st total processed. induction completed as [|[p b] rest IH];
    intros st total processed H; [reflexivity|].
  cbn [collect]. rewrite (process_single_file_ext w1 w2 p b chunk_size)
    by (apply (H (p, b)); now left).
  assert (Hrest : forall t, In t rest -> forall o m, w1 o (fst t) m = w2 o (fst t) m)
    by (intros t Ht; apply H; now right).
  destruct (process_single_file w2 (p, b, chunk_size)) as [printed [[|r rs]|e]];
    try (now apply IH).
  destruct (is_Exception e); [now apply IH | reflexivity].
Qed.

(** A file without a barcode is never read.  The work units are the
    files paired with the barcodes in order, as many as the shorter list
    has: what [process_files_parallel] does and returns does not depend
    on the files beyond the last barcode. *)
Theorem files_without_barcode_are_not_read
        (w1 w2 : world) (order : list nat) (fastq_files : list Path)
        (barcodes : list string) (output_file : string) (num_cores chunk_size : Z)
        (st : state) :
  (forall p, In p (firstn (length barcodes) fastq_files) ->
             forall o m, w1 o p m = w2 o p m) ->
  process_files_parallel w1 order fastq_files barcodes output_file num_cores chunk_size st
  = process_files_parallel w2 order fastq_files barcodes output_file num_cores chunk_size st.
Proof.
  intro H. unfold process_files_parallel.
  destruct (num_cores <=? 0)%Z; [reflexivity|].
  apply collect_ext. intros [p b] Ht. cbn [fst]. apply H.
  apply as_completed_incl in Ht. rewrite combine_firstn_r in Ht.
  now apply in_combine_l in Ht.
Qed.

(** Two files and one barcode: the second file may hold anything. *)
Lemma files_without_barcode_are_not_read_witness :
  process_files_parallel
    (fun _ p _ => if String.eqb (path_name p) "a.fastq" then inr (map Line three_reads)
                  else inr (map Line six_lines))
    [0; 1] [mkPath "in" "a.fastq"; mkPath "in" "b.fq"] ["AA"] "out.fastq.gz" 2 10000
    empty_state
  = process_files_parallel
      (fun _ p _ => if String.eqb (path_name p) "a.fastq" then inr (map Line three_reads)
                    else inl (mkIOError OSError "Permission denied"))
      [0; 1] [mkPath "in" "a.fastq"; mkPath "in" "b.fq"] ["AA"] "out.fastq.gz" 2 10000
      empty_state.
Proof.
  apply (files_without_barcode_are_not_read
           (fun _ p _ => if String.eqb (path_name p) "a.fastq" then inr (map Line three_reads)
                         else inr (map Line six_lines))
           (fun _ p _ => if String.eqb (path_name p) "a.fastq" then inr (map Line three_reads)
                         else inl (mkIOError OSError "Permission denied"))).
  intros p Hp o m. simpl in Hp. destruct Hp as [<-|[]]. reflexivity.
Defined.

(* ================================================================== *)
(** * More on the entry point *)
(* ================================================================== *)

Lemma glob_In (dir : string) (listing : list string) (suffix : string) (p : Path) :
  In p (glob dir listing suffix)
  <-> path_parent p = dir /\ In (path_name p) listing /\ endswith (path_name p) suffix = true.
Proof.
  unfold glob. rewrite in_map_iff. split.
  - intros (name & <- & Hin). apply filter_In in Hin. cbn [path_parent path_name]. tauto.
  - intros (Hd & Hin & Hs). exists (path_name p). split.
    + destruct p as [d n]. cbn in *. now subst.
    + apply filter_In. tauto.
Qed.

Lemma glob_patterns_In (dir : string) (listing : list string) (p : Path) :
  In p (glob_patterns dir listing)
  <-> path_parent p = dir /\ In (path_name p) listing /\
      is_fastq_name (path_name p) = true.
Proof.
  unfold glob_patterns, is_fastq_name. cbn [flat_map].
  rewrite !in_app_iff, !glob_In, !orb_true_iff. cbn [In]. tauto.
Qed.

Lemma glob_patterns_length (dir : string) (listing : list string) :
  NoDup listing ->
  length (glob_patterns dir listing) = length (filter is_fastq_name listing).
Proof.
  intro Hnd. rewrite <- (length_map path_name). apply Permutation_length.
  apply NoDup_Permutation.
  - now apply glob_patterns_names_NoDup.
  - now apply NoDup_filter.
  - intro name. rewrite in_map_iff, filter_In. split.
    + intros (p & <- & Hp). apply glob_patterns_In in Hp. tauto.
    + intros [Hl Hf]. exists (mkPath dir name). split; [reflexivity|].
      apply glob_patterns_In. cbn. tauto.
Qed.

Lemma forallb_false_In {A} (f : A -> bool) (l : list A) (a : A) :
  In a l -> f a = false -> forallb f l = false.
Proof.
  intros Hin Hf. destruct (forallb f l) eqn:E; [|reflexivity].
  rewrite forallb_forall in E. rewrite (E a Hin) in Hf. discriminate.
Qed.

(** [get_file_stats] finds the entries of the directory whose names end
    in .fastq, .fastq.gz, .fq or .fq.gz and asks for the size of each.
    When it returns, its files are these entries, and only them, as
    paths under the input directory, every one with a size, and each of
    them once when the entries have different names.  It returns when
    every such entry has a size; when one has none, as a link whose
    target is missing, it raises the [OSError] of [stat]. *)
Theorem get_file_stats_finds_fastq_names
        (stat : stat_fn) (dir : string) (listing : list string) :
  (forall fastq_files total_size avg_size,
      get_file_stats stat dir listing = Ok (fastq_files, total_size, avg_size) ->
      (forall p, In p fastq_files
                 <-> path_parent p = dir /\ In (path_name p) listing /\
                     is_fastq_name (path_name p) = true) /\
      (forall p, In p fastq_files -> has_size stat p = true) /\
      (NoDup listing ->
       NoDup fastq_files /\
       length fastq_files = length (filter is_fastq_name listing))) /\
  ((forall name, In name listing -> is_fastq_name name = true ->
                 has_size stat (mkPath dir name) = true) ->
   exists fastq_files total_size avg_size,
     get_file_stats stat dir listing = Ok (fastq_files, total_size, avg_size)) /\
  (forall name, In name listing -> is_fastq_name name = true ->
                has_size stat (mkPath dir name) = false ->
                exists msg,
                  get_file_stats stat dir listing = Raise (mkExn (IOFailure OSError) msg)).
Proof.
  split; [|split].
  - intros fastq_files total_size avg_size Hstat.
    destruct (get_file_stats_inv _ _ _ _ _ _ Hstat) as [Hff Hsizes]. split; [|split].
    + intro p. rewrite Hff. apply glob_patterns_In.
    + intros p Hp. rewrite forallb_forall in Hsizes. now apply Hsizes.
    + intro Hnd. rewrite Hff. split; [now apply glob_patterns_NoDup|].
      now apply glob_patterns_length.
  - intro Hall. destruct (get_file_stats_ok stat dir listing) as (t & a & Hok); [|eauto].
    apply forallb_forall. intros p Hp. apply glob_patterns_In in Hp.
    destruct Hp as (Hd & Hl & Hf). destruct p as [d n]. cbn in *. subst d.
    now apply Hall.
  - intros name Hl Hf Hsize. apply get_file_stats_fails.
    apply (forallb_false_In _ _ (mkPath dir name)); [|exact Hsize].
    apply glob_patterns_In. cbn. tauto.
Qed.

(** The sample directory: its three FASTQ files are found, each once;
    when [b.fq] is a link whose target is missing the call raises. *)
Lemma get_file_stats_finds_fastq_names_witness :
  (NoDup (glob_patterns "in" sample_listing) /\
   length (glob_patterns "in" sample_listing) = length (filter is_fastq_name sample_listing)) /\
  exists msg,
    get_file_stats dangling_stat "in" sample_listing
    = Raise (mkExn (IOFailure OSError) msg).
Proof.
  split.
  - destruct (get_file_stats_finds_fastq_names sample_stat "in" sample_listing)
      as [H _].
    destruct (H (glob_patterns "in" sample_listing) 3000%Z (inject_Z 3000 / inject_Z 3)%Q)
      as (_ & _ & Hnd); [reflexivity|].
    apply Hnd. unfold sample_listing. repeat constructor; simpl; intuition discriminate.
  - destruct (get_file_stats_finds_fastq_names dangling_stat "in" sample_listing)
      as (_ & _ & H).
    apply (H "b.fq"); [simpl; tauto | reflexivity | reflexivity].
Defined.

Lemma endswith_app (a b suffix : string) :
  endswith b suffix = true -> endswith (a ++ b) suffix = true.
Proof.
  intro H. induction a as [|c a IH]; [exact H|].
  cbn [append endswith]. rewrite IH. apply orb_true_r.
Qed.

Lemma str_path_endswith (p : Path) (suffix : string) :
  endswith (path_name p) suffix = true -> endswith (str_path p) suffix = true.
Proof.
  intro H. unfold str_path. apply endswith_app. now apply (endswith_app "/").
Qed.

Lemma endswith_gz (name pre : string) :
  endswith name (pre ++ ".gz") = true -> endswith name ".gz" = true.
Proof.
  intro H. destruct (endswith_inv _ _ H) as [a ->].
  rewrite <- append_assoc. apply endswith_append.
Qed.

(** Compressed and plain files are told apart by the name.  A file
    whose name ends in .fastq.gz or .fq.gz is opened with [gzip.open] in
    mode rt, a file whose name ends in .fastq or .fq with [open] in mode
    r; every file that [get_file_stats] finds is of one of these kinds. *)
Theorem files_are_opened_by_suffix (w : world) (p : Path) :
  (endswith (path_name p) ".fastq.gz" = true \/ endswith (path_name p) ".fq.gz" = true ->
   open_input w p = opened (w gzip_open p "rt")) /\
  (endswith (path_name p) ".fastq" = true \/ endswith (path_name p) ".fq" = true ->
   open_input w p = opened (w builtin_open p "r")) /\
  (forall stat dir listing fastq_files total_size avg_size,
     get_file_stats stat dir listing = Ok (fastq_files, total_size, avg_size) ->
     In p fastq_files ->
     open_input w p = opened (w gzip_open p "rt") \/
     open_input w p = opened (w builtin_open p "r")).
Proof.
  assert (Hgz : endswith (path_name p) ".fastq.gz" = true \/
                endswith (path_name p) ".fq.gz" = true ->
                open_input w p = opened (w gzip_open p "rt")).
  { intro H. unfold open_input.
    assert (E : endswith (str_path p) ".gz" = true).
    { apply str_path_endswith.
      destruct H as [H|H]; [apply (endswith_gz _ ".fastq") | apply (endswith_gz _ ".fq")];
        exact H. }
    rewrite E. reflexivity. }
  assert (Hplain : endswith (path_name p) ".fastq" = true \/
                   endswith (path_name p) ".fq" = true ->
                   open_input w p = opened (w builtin_open p "r")).
  { intro H. unfold open_input.
    destruct (endswith (str_path p) ".gz") eqn:E; [exfalso | reflexivity].
    destruct H as [H|H]; apply str_path_endswith in H; revert H E;
      apply suffix_clash; intros x y; simpl; congruence. }
  split; [exact Hgz|]. split; [exact Hplain|].
  intros stat dir listing fastq_files total_size avg_size Hstat Hin.
  destruct (get_file_stats_inv _ _ _ _ _ _ Hstat) as [-> _].
  unfold glob_patterns in Hin. cbn [flat_map] in Hin.
  rewrite !in_app_iff, !glob_In in Hin. cbn [In] in Hin.
  destruct Hin as [H|[H|[H|[H|[]]]]]; destruct H as (_ & _ & H); auto.
Qed.

Lemma files_are_opened_by_suffix_witness :
  open_input sample_world (mkPath "in" "c.fastq.gz")
  = opened (sample_world gzip_open (mkPath "in" "c.fastq.gz") "rt").
Proof.
  destruct (files_are_opened_by_suffix sample_world (mkPath "in" "c.fastq.gz")) as [H _].
  apply H. left. reflexivity.
Defined.

Lemma glob_patterns_nil (dir : string) (listing : list string) :
  (forall name, In name listing -> is_fastq_name name = false) ->
  glob_patterns dir listing = [].
Proof.
  intro H. destruct (glob_patterns dir listing) as [|p rest] eqn:E; [reflexivity|].
  assert (Hin : In p (glob_patterns dir listing)) by (rewrite E; now left).
  apply glob_patterns_In in Hin. destruct Hin as (_ & Hl & Hf).
  rewrite (H _ Hl) in Hf. discriminate.
Qed.

(** A directory without FASTQ files.  When no entry has a FASTQ name,
    [main] prints that it found none and returns normally; it generates
    no barcode, writes no file and reads none. *)
Theorem run_on_directory_without_fastq
        (cpu_count : Z) (listing : list string) (stat : stat_fn) (w : world)
        (order : list nat) (processing_time : Q) (args : arguments) (st : state) :
  (forall name, In name listing -> is_fastq_name name = false) ->
  main cpu_count listing stat w order processing_time args st
  = (mkState (files st) (stdout st ++ [("No FASTQ files found in " ++ input_dir args)%string]),
     Returned).
Proof.
  intro H. unfold main, get_file_stats. rewrite (glob_patterns_nil _ _ H). reflexivity.
Qed.

Lemma run_on_directory_without_fastq_witness :
  main 4 ["notes.txt"; "reads.bam"; "a.fastq.bak"] sample_stat sample_world [] 1
       sample_args empty_state
  = (mkState (files empty_state) (stdout empty_state ++ ["No FASTQ files found in in"]),
     Returned).
Proof.
  apply (run_on_directory_without_fastq 4 ["notes.txt"; "reads.bam"; "a.fastq.bak"]
           sample_stat sample_world [] 1 sample_args empty_state).
  intros name Hin. simpl in Hin.
  destruct Hin as [<-|[<-|[<-|[]]]]; reflexivity.
Defined.

(** A negative barcode length.  When [get_file_stats] returns at least
    one file and the worker count is not 0, the run stops with the
    [ValueError] of [itertools.product], uncaught, before anything is
    written or read. *)
Theorem run_with_negative_barcode_length
        (cpu_count : Z) (listing : list string) (stat : stat_fn) (w : world)
        (order : list nat) (processing_time : Q) (args : arguments) (st : state)
        (fastq_files : list Path) (total_size : Z) (avg_size : Q) :
  get_file_stats stat (input_dir args) listing = Ok (fastq_files, total_size, avg_size) ->
  fastq_files <> [] ->
  effective_cores cpu_count (cores args) <> 0%Z ->
  (barcode_length args < 0)%Z ->
  main cpu_count listing stat w order processing_time args st
  = (st, Uncaught (mkExn ValueError "repeat argument cannot be negative")).
Proof.
  intros Hstat Hne Hcores HL. unfold main. rewrite Hstat.
  destruct fastq_files as [|p0 rest]; [contradiction|].
  match goal with
  | |- context [estimate_processing_time ?n ?g ?c] =>
      destruct (estimate_processing_time_ok n g c Hcores) as [estimated_time ->]
  end.
  unfold generate_barcodes, product.
  destruct (Z.ltb_spec (barcode_length args) 0) as [_|H]; [reflexivity | lia].
Qed.

Lemma run_with_negative_barcode_length_witness :
  main 4 sample_listing sample_stat sample_world [2; 0; 1] 1
       (mkArgs "in" "out" (-8) None 10000) empty_state
  = (empty_state, Uncaught (mkExn ValueError "repeat argument cannot be negative")).
Proof.
  apply (run_with_negative_barcode_length 4 sample_listing sample_stat sample_world
           [2; 0; 1] 1 (mkArgs "in" "out" (-8) None 10000) empty_state
           (glob_patterns "in" sample_listing) 3000%Z (inject_Z 3000 / inject_Z 3)%Q).
  - reflexivity.
  - discriminate.
  - simpl; lia.
  - simpl; lia.
Defined.

Lemma assign_loop_short (fastq_files : list Path) (barcodes : list string) (i : nat)
      (acc : dict string) :
  i <= length barcodes -> length barcodes < i + length fastq_files ->
  assign_loop i fastq_files barcodes acc
  = Raise (mkExn IndexError "list index out of range").
Proof.
  revert i acc. induction fastq_files as [|p rest IH]; intros i acc Hi Hlen;
    [simpl in Hlen; lia|].
  cbn [assign_loop]. unfold index.
  destruct (nth_error barcodes i) as [b|] eqn:Hb; [|reflexivity].
  cbn [bind]. apply IH.
  - assert (i < length barcodes) by (apply nth_error_Some; congruence). lia.
  - simpl in Hlen. lia.
Qed.

(** More files than barcodes.  With a barcode length [L >= 0], a worker
    count other than 0 and more than [4^L] files returned by
    [get_file_stats], the run stops with an uncaught [IndexError] in the
    assignment loop, whatever the names of the files: no mapping file is
    written, no output file is created, no file is read. *)
Theorem run_with_too_many_files
        (cpu_count : Z) (listing : list string) (stat : stat_fn) (w : world)
        (order : list nat) (processing_time : Q) (args : arguments) (st : state)
        (fastq_files : list Path) (total_size : Z) (avg_size : Q) :
  get_file_stats stat (input_dir args) listing = Ok (fastq_files, total_size, avg_size) ->
  effective_cores cpu_count (cores args) <> 0%Z ->
  (0 <= barcode_length args)%Z ->
  4 ^ Z.to_nat (barcode_length args) < length fastq_files ->
  main cpu_count listing stat w order processing_time args st
  = (st, Uncaught (mkExn IndexError "list index out of range")).
Proof.
  intros Hstat Hcores HL Hk.
  assert (Hgen : generate_barcodes (Z.of_nat (length fastq_files)) (barcode_length args)
                 = Ok (lex_enumeration (Z.to_nat (barcode_length args)))).
  { rewrite <- (Z2Nat.id _ HL) at 1.
    now apply generate_barcodes_caps_at_all_barcodes. }
  assert (Hassign : assign_loop 0 fastq_files
                      (lex_enumeration (Z.to_nat (barcode_length args))) []
                    = Raise (mkExn IndexError "list index out of range")).
  { rewrite assign_loop_short; [reflexivity | lia |].
    rewrite lex_enumeration_length. lia. }
  unfold main. rewrite Hstat.
  destruct fastq_files as [|p0 rest] eqn:Hff; [simpl in Hk; lia|]. rewrite <- Hff in *.
  match goal with
  | |- context [estimate_processing_time ?n ?g ?c] =>
      destruct (estimate_processing_time_ok n g c Hcores) as [estimated_time ->]
  end.
  rewrite Hgen, Hassign. reflexivity.
Qed.

Lemma run_with_too_many_files_witness :
  main 4 ["a.fq"; "b.fq"] sample_stat (world_of three_reads) [0; 1] 1
       (mkArgs "in" "out" 0 None 10000) empty_state
  = (empty_state, Uncaught (mkExn IndexError "list index out of range")).
Proof.
  apply (run_with_too_many_files 4 ["a.fq"; "b.fq"] sample_stat (world_of three_reads)
           [0; 1] 1 (mkArgs "in" "out" 0 None 10000) empty_state
           (glob_patterns "in" ["a.fq"; "b.fq"]) 2000%Z (inject_Z 2000 / inject_Z 2)%Q).
  - reflexivity.
  - simpl; lia.
  - simpl; lia.
  - simpl; lia.
Defined.

(** A worker count of 0.  When [get_file_stats] returns at least one
    file, [estimate_processing_time] divides by the number of workers:
    the run stops with an uncaught [ZeroDivisionError] before the
    barcodes are generated, whatever the barcode length; no file is
    written or read. *)
Theorem zero_worker_count_stops
        (cpu_count : Z) (listing : list string) (stat : stat_fn) (w : world)
        (order : list nat) (processing_time : Q) (args : arguments) (st : state)
        (fastq_files : list Path) (total_size : Z) (avg_size : Q) :
  get_file_stats stat (input_dir args) listing = Ok (fastq_files, total_size, avg_size) ->
  fastq_files <> [] ->
  effective_cores cpu_count (cores args) = 0%Z ->
  main cpu_count listing stat w order processing_time args st
  = (st, Uncaught (mkExn ZeroDivisionError "division by zero")).
Proof.
  intros Hstat Hne Hcores. unfold main. rewrite Hstat.
  destruct fastq_files as [|p0 rest]; [contradiction|].
  unfold estimate_processing_time. rewrite Hcores. reflexivity.
Qed.

Lemma zero_worker_count_stops_witness :
  main 4 sample_listing sample_stat sample_world [2; 0; 1] 1
       (mkArgs "in" "out" 2 (Some 0%Z) 10000) empty_state
  = (empty_state, Uncaught (mkExn ZeroDivisionError "division by zero")).
Proof.
  apply (zero_worker_count_stops 4 sample_listing sample_stat sample_world [2; 0; 1] 1
           (mkArgs "in" "out" 2 (Some 0%Z) 10000) empty_state
           (glob_patterns "in" sample_listing) 3000%Z (inject_Z 3000 / inject_Z 3)%Q).
  - reflexivity.
  - discriminate.
  - reflexivity.
Defined.

(** A negative worker count, in a run that is valid otherwise.  The
    mapping file is written in full and the output file is created, with
    its empty member; then the pool cannot be made: no file is read, the
    error is printed and the run exits with status 1. *)
Theorem negative_worker_count_exits
        (cpu_count : Z) (listing : list string) (stat : stat_fn) (w : world)
        (order : list nat) (processing_time : Q) (args : arguments) (st : state)
        (fastq_files : list Path) (total_size : Z) (avg_size : Q) :
  let k := length fastq_files in
  let out := normalize_output (output_file args) in
  let barcodes := firstn k (lex_enumeration (Z.to_nat (barcode_length args))) in
  NoDup listing ->
  get_file_stats stat (input_dir args) listing = Ok (fastq_files, total_size, avg_size) ->
  1 <= k ->
  (0 <= barcode_length args)%Z ->
  k <= 4 ^ Z.to_nat (barcode_length args) ->
  (effective_cores cpu_count (cores args) < 0)%Z ->
  exists st',
    main cpu_count listing stat w order processing_time args st = (st', SysExit 1) /\
    files st' out = Some [GzMember ""] /\
    files st' (mapping_file_of out)
    = Some [Raw ("Original_File" ++ tab ++ "Barcode" ++ nl
                 ++ join (mapping_rows fastq_files barcodes))%string] /\
    (forall q, q <> out -> q <> mapping_file_of out -> files st' q = files st q) /\
    last (stdout st') ""
    = (nl ++ "Error during processing: max_workers must be greater than 0")%string.
Proof.
  intros k out barcodes Hnd Hstat Hk1 HL Hk Hcores.
  destruct (generate_barcodes_enough k (barcode_length args) HL Hk) as [Hgen Hlen].
  fold barcodes in Hgen, Hlen. subst k. unfold main. rewrite Hstat. fold out.
  destruct (get_file_stats_inv _ _ _ _ _ _ Hstat) as [Hglob _].
  destruct fastq_files as [|p0 rest] eqn:Hff; [simpl in Hk1; lia|]. rewrite <- Hff in *.
  match goal with
  | |- context [estimate_processing_time ?n ?g ?c] =>
      destruct (estimate_processing_time_ok n g c) as [estimated_time ->]; [lia|]
  end.
  rewrite Hgen.
  rewrite (assign_loop_ok fastq_files barcodes 0 []).
  2:{ cbn [map app]. rewrite Hglob. now apply glob_patterns_names_NoDup. }
  2:{ lia. }
  cbn [app skipn].
  assert (Hcores' : (effective_cores cpu_count (cores args) <= 0)%Z) by lia.
  match goal with
  | |- context [process_files_parallel w order fastq_files barcodes out ?c ?n ?s] =>
      destruct (process_files_parallel_no_worker w order fastq_files barcodes out c n s Hcores')
        as (st' & H1 & H2 & H3)
  end.
  rewrite H1. cbn [exn_cls]. eexists. split; [reflexivity|].
  cbn [print files stdout]. split; [exact H2|]. split; [|split].
  - rewrite H3 by apply mapping_file_differs. cbn [files]. unfold write_file.
    rewrite store_set_same, mapping_text_rows. reflexivity.
  - intros q Hq Hqm. rewrite (H3 q Hq). cbn [files]. unfold write_file.
    now apply store_set_other.
  - apply last_last.
Qed.

Lemma negative_worker_count_exits_witness :
  exists st',
    main 4 sample_listing sample_stat sample_world [2; 0; 1] 1
         (mkArgs "in" "out" 2 (Some (-1)%Z) 10000) empty_state = (st', SysExit 1) /\
    files st' "out.fastq.gz" = Some [GzMember ""].
Proof.
  destruct (negative_worker_count_exits 4 sample_listing sample_stat sample_world
              [2; 0; 1] 1 (mkArgs "in" "out" 2 (Some (-1)%Z) 10000) empty_state
              (glob_patterns "in" sample_listing) 3000%Z (inject_Z 3000 / inject_Z 3)%Q)
    as (st' & H1 & H2 & _).
  - unfold sample_listing. repeat constructor; simpl; intuition discriminate.
  - reflexivity.
  - simpl; lia.
  - simpl; lia.
  - simpl; lia.
  - simpl; lia.
  - exists st'. split; [exact H1 | exact H2].
Defined.

(** A file without a size.  When an entry with a FASTQ name has no size,
    as a link whose target is missing, the run stops in [get_file_stats]
    with the [OSError] of [stat], uncaught: no file is written or read,
    and the files that could be read are not processed. *)
Theorem file_without_size_stops_the_run
        (cpu_count : Z) (listing : list string) (stat : stat_fn) (w : world)
        (order : list nat) (processing_time : Q) (args : arguments) (st : state)
        (name : string) :
  In name listing ->
  is_fastq_name name = true ->
  has_size stat (mkPath (input_dir args) name) = false ->
  exists msg,
    main cpu_count listing stat w order processing_time args st
    = (st, Uncaught (mkExn (IOFailure OSError) msg)).
Proof.
  intros Hl Hf Hsize.
  destruct (get_file_stats_fails stat (input_dir args) listing) as [msg Hmsg].
  - apply (forallb_false_In _ _ (mkPath (input_dir args) name)); [|exact Hsize].
    apply glob_patterns_In. cbn. tauto.
  - exists msg. unfold main. rewrite Hmsg. reflexivity.
Qed.

Lemma file_without_size_stops_the_run_witness :
  exists msg,
    main 4 sample_listing dangling_stat sample_world [2; 0; 1] 1 sample_args empty_state
    = (empty_state, Uncaught (mkExn (IOFailure OSError) msg)).
Proof.
  apply (file_without_size_stops_the_run 4 sample_listing dangling_stat sample_world
           [2; 0; 1] 1 sample_args empty_state "b.fq").
  - simpl; tauto.
  - reflexivity.
  - reflexivity.
Defined.

(** A run writes two files at most.  Whatever the arguments, the files
    and the order of completion, and however the run ends, every path
    other than the output path and the mapping path holds after the run
    what it held before. *)
Theorem run_writes_only_output_and_mapping
        (cpu_count : Z) (listing : list string) (stat : stat_fn) (w : world)
        (order : list nat) (processing_time : Q) (args : arguments) (st : state)
        (q : string) :
  q <> normalize_output (output_file args) ->
  q <> mapping_file_of (normalize_output (output_file args)) ->
  files (fst (main cpu_count listing stat w order processing_time args st)) q = files st q.
Proof.
  intros Hq Hqm. unfold main.
  destruct (get_file_stats stat (input_dir args) listing)
    as [[[fastq_files total_size] avg_size]|e]; [|reflexivity].
  destruct fastq_files as [|p0 rest] eqn:Hff; [reflexivity|].
  rewrite <- Hff.
  destruct (estimate_processing_time _ _ _) as [estimated_time|e]; [|reflexivity].
  destruct (generate_barcodes _ _) as [barcodes|e]; [|reflexivity].
  destruct (assign_loop 0 _ barcodes []) as [mapping|e]; [|reflexivity].
  match goal with
  | |- context [process_files_parallel w order ?f barcodes ?o ?c ?k ?s] =>
      destruct (Z.leb_spec c 0) as [Hc|Hc];
      [destruct (process_files_parallel_no_worker w order f barcodes o c k s Hc)
        as (st' & H1 & _ & H3)
      |destruct (process_files_parallel_spec w order f barcodes o c k s Hc)
        as (st' & H1 & _ & H3)]
  end; rewrite H1; try destruct (Qeq_bool processing_time 0);
    cbn [fst files exn_cls print];
    rewrite (H3 q Hq); cbn [files]; unfold write_file; now apply store_set_other.
Qed.

Lemma run_writes_only_output_and_mapping_witness :
  files (fst (main 4 sample_listing sample_stat sample_world [2; 0; 1] 1 sample_args
                   (mkState (fun _ => Some [Raw "kept"]) [])))
        "in/a.fastq"
  = Some [Raw "kept"].
Proof.
  apply (run_writes_only_output_and_mapping 4 sample_listing sample_stat sample_world
           [2; 0; 1] 1 sample_args (mkState (fun _ => Some [Raw "kept"]) []) "in/a.fastq").
  - vm_compute. discriminate.
  - vm_compute. discriminate.
Defined.

Lemma startswith_append (a s : string) : startswith (a ++ s) a = true.
Proof. induction a as [|c a IH]; [now destruct s|]. simpl. now rewrite Ascii.eqb_refl. Qed.

Lemma startswith_same_length (a b s : string) :
  String.length a = String.length b -> startswith (a ++ s) b = true -> a = b.
Proof.
  revert b. induction a as [|c a IH]; intros [|d b] Hlen H; try discriminate;
    [reflexivity|].
  simpl in H. apply andb_prop in H. destruct H as [Hc H].
  apply Ascii.eqb_eq in Hc. subst d. f_equal. apply IH; [simpl in Hlen; lia | exact H].
Qed.

(** The barcode tells the source file.  For the barcodes generated for
    [N <= 4^L] files, every record that the tagger returns for the file
    at position [i] has a sequence that starts with that file's barcode
    and with the barcode of no other file, whatever the sequence read. *)
Theorem barcode_identifies_file
        (w : world) (p : Path) (chunk_size : Z) (N L i j : nat) (bi bj : string)
        (barcodes : list string) :
  N <= 4 ^ L ->
  generate_barcodes (Z.of_nat N) (Z.of_nat L) = Ok barcodes ->
  nth_error barcodes i = Some bi ->
  nth_error barcodes j = Some bj ->
  i <> j ->
  exists printed out,
    process_single_file w (p, bi, chunk_size) = (printed, Ok out) /\
    forall header sequence quality_header quality,
      In (header, sequence, quality_header, quality) out ->
      startswith sequence bi = true /\ startswith sequence bj = false.
Proof.
  intros HN Hgen Hi Hj Hij.
  rewrite generate_barcodes_prefix in Hgen. injection Hgen as <-.
  assert (Hsorted : StronglySorted lex_lt (firstn N (lex_enumeration L)))
    by apply StronglySorted_firstn, lex_enumeration_sorted.
  assert (Hnd : NoDup (firstn N (lex_enumeration L)))
    by (eapply StronglySorted_NoDup; [exact lex_lt_irrefl | exact Hsorted]).
  assert (Hbar : forall k b, nth_error (firstn N (lex_enumeration L)) k = Some b ->
                             String.length b = L).
  { intros k b Hk. apply nth_error_In, in_firstn, lex_enumeration_sound in Hk.
    exact (proj1 Hk). }
  assert (Hne : bi <> bj).
  { intros ->. apply Hij. rewrite NoDup_nth_error in Hnd. apply Hnd.
    - apply nth_error_Some. congruence.
    - congruence. }
  destruct (process_single_file_outcome w p bi chunk_size) as [(e & _ & H)|H];
    rewrite H; do 2 eexists; (split; [reflexivity|]); intros h s qh q Hin;
    [destruct Hin|].
  apply In_nth_error in Hin. destruct Hin as [n Hn].
  assert (Hlt : n < length (emitted bi chunk_size (input_lines w p))).
  { apply nth_error_Some. intro Hnone.
    assert (Hc : Some (h, s, qh, q) = None)
      by (etransitivity; [symmetry; exact Hn | exact Hnone]).
    discriminate Hc. }
  destruct (emitted_nth _ _ _ _ Hlt) as [Hnth _].
  assert (Heq : Some (tag bi (frame_at (input_lines w p) n)) = Some (h, s, qh, q))
    by (etransitivity; [symmetry; exact Hnth | exact Hn]).
  unfold frame_at, tag in Heq. injection Heq as _ <- _ _.
  split; [apply startswith_append|].
  destruct (startswith (bi ++ _) bj) eqn:E; [exfalso | reflexivity].
  apply Hne. eapply startswith_same_length; [|exact E].
  rewrite (Hbar _ _ Hi), (Hbar _ _ Hj). reflexivity.
Qed.

Lemma barcode_identifies_file_witness :
  exists printed out,
    process_single_file (world_of three_reads) (sample_path, "AT", 10000%Z)
    = (printed, Ok out) /\
    forall header sequence quality_header quality,
      In (header, sequence, quality_header, quality) out ->
      startswith sequence "AT" = true /\ startswith sequence "AA" = false.
Proof.
  apply (barcode_identifies_file (world_of three_reads) sample_path 10000 3 2 1 0
           "AT" "AA" ["AA"; "AT"; "AC"]).
  - simpl; lia.
  - reflexivity.
  - reflexivity.
  - reflexivity.
  - discriminate.
Defined.

Lemma returned_headers_are_stripped_witness :
  exists printed out,
    process_single_file (world_of blank_header_file) (sample_path, "AC", 10000%Z)
    = (printed, Ok out) /\
    forall header sequence quality_header quality,
      In (header, sequence, quality_header, quality) out ->
      header <> "" /\ strip header = header /\ strip quality_header = quality_header.
Proof.
  exact (returned_headers_are_stripped (world_of blank_header_file) sample_path "AC" 10000).
Defined.

(** The output path and the mapping path.  The output path that a run
    uses always ends in .fastq.gz; a path that already does is kept as it
    is, so that normalising twice changes nothing; and the mapping path
    derived from it is longer, hence another path: the mapping file never
    replaces the output file. *)
Theorem output_and_mapping_paths_differ (output_file : string) :
  endswith (normalize_output output_file) ".fastq.gz" = true /\
  (endswith output_file ".fastq.gz" = true -> normalize_output output_file = output_file) /\
  normalize_output (normalize_output output_file) = normalize_output output_file /\
  String.length (normalize_output output_file)
  < String.length (mapping_file_of (normalize_output output_file)) /\
  mapping_file_of (normalize_output output_file) <> normalize_output output_file.
Proof.
  assert (Hend := normalize_output_endswith output_file).
  split; [exact Hend|]. split; [|split; [|split]].
  - intro H. unfold normalize_output. now rewrite H.
  - unfold normalize_output at 1. now rewrite Hend.
  - apply replace_suffix_longer; [simpl; lia | simpl; lia | exact Hend].
  - apply mapping_file_differs.
Qed.

Lemma output_and_mapping_paths_differ_witness :
  normalize_output "pool.fastq.gz" = "pool.fastq.gz".
Proof.
  destruct (output_and_mapping_paths_differ "pool.fastq.gz") as (_ & H & _).
  apply H. reflexivity.
Defined.
